(** * Food journal: the reconciliation controller of [App]

    A shallow embedding of the journal component ([App], with its helpers
    [getLocalDateString] and [getInitialLog]) and of the parts of the
    platform it calls: [Date], [String.prototype.padStart],
    [Array.prototype.sort], [localStorage] and [console].

    Numbers are modelled as [Z] (the journal only stores counters), strings
    as [string], arrays as [list], [localStorage] as a [gmap string string].
    The hooks of the component ([useState], [useEffect]) become an explicit
    application state and one state transformer per effect body. *)

From Stdlib Require Import ZArith String Ascii List Sorted Permutation OrdersEx.
From stdpp Require Import base decidable option list gmap strings pretty.

(** ** Platform functions *)

Module JS.

(** [String.prototype.repeat], by the number of copies. *)
Fixpoint repeat_string (s : string) (n : nat) : string :=
  match n with
  | O => ""
  | S n' => s +:+ repeat_string s n'
  end.

(** [s.padStart(targetLength, padString)]: [s] when it is long enough or
    the pad is empty, otherwise the pad repeated and cut to the missing
    length, then [s]. *)
Definition padStart (targetLength : nat) (padString : string) (s : string) : string :=
  let len := String.length s in
  if (targetLength <=? len)%nat then s
  else if String.eqb padString "" then s
  else
    let fillLen := (targetLength - len)%nat in
    String.substring 0 fillLen (repeat_string padString fillLen) +:+ s.

(** [String(n)] for an integral number. *)
Definition String_of_number (n : Z) : string := pretty n.

(** A string in a condition: only the empty string is falsy. *)
Definition truthy (s : string) : bool := negb (String.eqb s "").

(** [localStorage.getItem] returns a string or [null]; [null] is falsy. *)
Definition truthy_item (o : option string) : bool :=
  match o with
  | Some s => truthy s
  | None => false
  end.

(** The fields of a [Date] the journal reads, in local time. *)
Module Date.
Record t : Type := mk {
  getFullYear : Z;
  getMonth : Z;      (* 0 .. 11 *)
  getDate : Z;       (* day of the month *)
  getHours : Z;
  getMinutes : Z
}.
End Date.

(** [d.toLocaleTimeString('en-GB', { hour: '2-digit', minute: '2-digit' })]:
    the en-GB pattern is the 24-hour [HH:mm]. *)
Definition toLocaleTimeString_enGB (d : Date.t) : string :=
  padStart 2 "0" (String_of_number (Date.getHours d)) +:+ ":" +:+
  padStart 2 "0" (String_of_number (Date.getMinutes d)).

(** [Array.prototype.sort(comparefn)]. The sort is stable, and for a
    consistent comparator its result is determined: the stable sorted
    arrangement, computed here by insertion from the right.  [comparefn a b
    <= 0] keeps [a] before [b]. *)
Section Sort.
Context {A : Type} (comparefn : A -> A -> Z).

Fixpoint sort_insert (x : A) (l : list A) : list A :=
  match l with
  | [] => [x]
  | y :: l' =>
      if (comparefn x y <=? 0)%Z then x :: y :: l'
      else y :: sort_insert x l'
  end.

Fixpoint Array_sort (l : list A) : list A :=
  match l with
  | [] => []
  | x :: l' => sort_insert x (Array_sort l')
  end.
End Sort.

(** A value of type [any], as far as the journal can hold one. *)
Inductive any : Type :=
  | Null
  | Bool (b : bool)
  | Number (n : Z)
  | Str (s : string).

End JS.

#[global] Instance any_eq_dec : EqDecision JS.any.
Proof. solve_decision. Defined.

#[global] Instance Date_eq_dec : EqDecision JS.Date.t.
Proof. solve_decision. Defined.

(** ** Data model *)

(** [interface FoodEntry]; [interface MiscEntry] has the same members, and
    the two are one type structurally. *)
Module FoodEntry.
Record t : Type := mk {
  id : string;
  source : string;
  time : string;
  serving : string;
  calories : Z;
  hungerBefore : Z;
  hungerAfter : Z
}.
End FoodEntry.
Abbreviation FoodEntry := FoodEntry.t.
Abbreviation MiscEntry := FoodEntry.t.

#[global] Instance FoodEntry_eq_dec : EqDecision FoodEntry.
Proof. solve_decision. Defined.

(** [interface ActivityEntry]. *)
Module ActivityEntry.
Record t : Type := mk {
  id : string;
  type : string;
  duration : string
}.
End ActivityEntry.
Abbreviation ActivityEntry := ActivityEntry.t.

#[global] Instance ActivityEntry_eq_dec : EqDecision ActivityEntry.
Proof. solve_decision. Defined.

(** [interface DailyLog].  [supplements] is declared optional; [miscEntries]
    is declared required but every read of it is [prev.miscEntries || []],
    so a record may lack it at run time: both are [option]s, [None] for a
    missing member. *)
Module DailyLog.
Record t : Type := mk {
  date : string;
  proteinGoal : string;
  totalProteinCalories : Z;
  ketosis : bool;
  followedPlan : bool;
  notes : string;
  waterIntake : Z;
  foodEntries : list FoodEntry;
  miscEntries : option (list MiscEntry);
  fatEntries : list string;
  vegetableEntries : list string;
  activities : list ActivityEntry;
  supplements : option (list JS.any)
}.
End DailyLog.
Abbreviation DailyLog := DailyLog.t.

#[global] Instance DailyLog_eq_dec : EqDecision DailyLog.
Proof. solve_decision. Defined.

(** What [JSON.parse] yields for the draft slot: an object that has some of
    the members of a [DailyLog]; [None] for a member the object lacks. *)
Module PartialLog.
Record t : Type := mk {
  date : option string;
  proteinGoal : option string;
  totalProteinCalories : option Z;
  ketosis : option bool;
  followedPlan : option bool;
  notes : option string;
  waterIntake : option Z;
  foodEntries : option (list FoodEntry);
  miscEntries : option (list MiscEntry);
  fatEntries : option (list string);
  vegetableEntries : option (list string);
  activities : option (list ActivityEntry);
  supplements : option (list JS.any)
}.
End PartialLog.
Abbreviation PartialLog := PartialLog.t.

(** ** Date key and record factory *)

(** [getLocalDateString(date)]. *)
Definition getLocalDateString (date : JS.Date.t) : string :=
  let year := JS.Date.getFullYear date in
  let month := JS.padStart 2 "0" (JS.String_of_number (JS.Date.getMonth date + 1)) in
  let day := JS.padStart 2 "0" (JS.String_of_number (JS.Date.getDate date)) in
  JS.String_of_number year +:+ "-" +:+ month +:+ "-" +:+ day.

(** [getInitialLog(date)]. *)
Definition getInitialLog (date : string) : DailyLog :=
  {| DailyLog.date := date;
     DailyLog.proteinGoal := "";
     DailyLog.totalProteinCalories := 0;
     DailyLog.ketosis := false;
     DailyLog.followedPlan := false;
     DailyLog.notes := "";
     DailyLog.waterIntake := 0;
     DailyLog.foodEntries := [];
     DailyLog.miscEntries := Some [];
     DailyLog.fatEntries := [""; ""];
     DailyLog.vegetableEntries := [""; ""];
     DailyLog.activities := [];
     DailyLog.supplements := Some [] |}.


(** [{ ...initialLog, ...parsed }]: each member the parsed object has
    replaces the default, each member it lacks keeps it. *)
Definition spread (initialLog : DailyLog) (parsed : PartialLog) : DailyLog :=
  {| DailyLog.date := default (DailyLog.date initialLog) (PartialLog.date parsed);
     DailyLog.proteinGoal :=
       default (DailyLog.proteinGoal initialLog) (PartialLog.proteinGoal parsed);
     DailyLog.totalProteinCalories :=
       default (DailyLog.totalProteinCalories initialLog)
               (PartialLog.totalProteinCalories parsed);
     DailyLog.ketosis := default (DailyLog.ketosis initialLog) (PartialLog.ketosis parsed);
     DailyLog.followedPlan :=
       default (DailyLog.followedPlan initialLog) (PartialLog.followedPlan parsed);
     DailyLog.notes := default (DailyLog.notes initialLog) (PartialLog.notes parsed);
     DailyLog.waterIntake :=
       default (DailyLog.waterIntake initialLog) (PartialLog.waterIntake parsed);
     DailyLog.foodEntries :=
       default (DailyLog.foodEntries initialLog) (PartialLog.foodEntries parsed);
     DailyLog.miscEntries :=
       match PartialLog.miscEntries parsed with
       | Some l => Some l
       | None => DailyLog.miscEntries initialLog
       end;
     DailyLog.fatEntries :=
       default (DailyLog.fatEntries initialLog) (PartialLog.fatEntries parsed);
     DailyLog.vegetableEntries :=
       default (DailyLog.vegetableEntries initialLog) (PartialLog.vegetableEntries parsed);
     DailyLog.activities :=
       default (DailyLog.activities initialLog) (PartialLog.activities parsed);
     DailyLog.supplements :=
       match PartialLog.supplements parsed with
       | Some l => Some l
       | None => DailyLog.supplements initialLog
       end |}.

(** [{ ...prev, foodEntries: v }] and its siblings. *)
Definition with_foodEntries (v : list FoodEntry) (prev : DailyLog) : DailyLog :=
  {| DailyLog.date := DailyLog.date prev;
     DailyLog.proteinGoal := DailyLog.proteinGoal prev;
     DailyLog.totalProteinCalories := DailyLog.totalProteinCalories prev;
     DailyLog.ketosis := DailyLog.ketosis prev;
     DailyLog.followedPlan := DailyLog.followedPlan prev;
     DailyLog.notes := DailyLog.notes prev;
     DailyLog.waterIntake := DailyLog.waterIntake prev;
     DailyLog.foodEntries := v;
     DailyLog.miscEntries := DailyLog.miscEntries prev;
     DailyLog.fatEntries := DailyLog.fatEntries prev;
     DailyLog.vegetableEntries := DailyLog.vegetableEntries prev;
     DailyLog.activities := DailyLog.activities prev;
     DailyLog.supplements := DailyLog.supplements prev |}.

Definition with_miscEntries (v : list MiscEntry) (prev : DailyLog) : DailyLog :=
  {| DailyLog.date := DailyLog.date prev;
     DailyLog.proteinGoal := DailyLog.proteinGoal prev;
     DailyLog.totalProteinCalories := DailyLog.totalProteinCalories prev;
     DailyLog.ketosis := DailyLog.ketosis prev;
     DailyLog.followedPlan := DailyLog.followedPlan prev;
     DailyLog.notes := DailyLog.notes prev;
     DailyLog.waterIntake := DailyLog.waterIntake prev;
     DailyLog.foodEntries := DailyLog.foodEntries prev;
     DailyLog.miscEntries := Some v;
     DailyLog.fatEntries := DailyLog.fatEntries prev;
     DailyLog.vegetableEntries := DailyLog.vegetableEntries prev;
     DailyLog.activities := DailyLog.activities prev;
     DailyLog.supplements := DailyLog.supplements prev |}.

Definition with_activities (v : list ActivityEntry) (prev : DailyLog) : DailyLog :=
  {| DailyLog.date := DailyLog.date prev;
     DailyLog.proteinGoal := DailyLog.proteinGoal prev;
     DailyLog.totalProteinCalories := DailyLog.totalProteinCalories prev;
     DailyLog.ketosis := DailyLog.ketosis prev;
     DailyLog.followedPlan := DailyLog.followedPlan prev;
     DailyLog.notes := DailyLog.notes prev;
     DailyLog.waterIntake := DailyLog.waterIntake prev;
     DailyLog.foodEntries := DailyLog.foodEntries prev;
     DailyLog.miscEntries := DailyLog.miscEntries prev;
     DailyLog.fatEntries := DailyLog.fatEntries prev;
     DailyLog.vegetableEntries := DailyLog.vegetableEntries prev;
     DailyLog.activities := v;
     DailyLog.supplements := DailyLog.supplements prev |}.

Definition with_waterIntake (v : Z) (prev : DailyLog) : DailyLog :=
  {| DailyLog.date := DailyLog.date prev;
     DailyLog.proteinGoal := DailyLog.proteinGoal prev;
     DailyLog.totalProteinCalories := DailyLog.totalProteinCalories prev;
     DailyLog.ketosis := DailyLog.ketosis prev;
     DailyLog.followedPlan := DailyLog.followedPlan prev;
     DailyLog.notes := DailyLog.notes prev;
     DailyLog.waterIntake := v;
     DailyLog.foodEntries := DailyLog.foodEntries prev;
     DailyLog.miscEntries := DailyLog.miscEntries prev;
     DailyLog.fatEntries := DailyLog.fatEntries prev;
     DailyLog.vegetableEntries := DailyLog.vegetableEntries prev;
     DailyLog.activities := DailyLog.activities prev;
     DailyLog.supplements := DailyLog.supplements prev |}.

(** ** Component state *)

(** The [useState] cells of [App] that the controller reads or writes
    ([view] and [showRescue] only drive the markup). *)
Record AppState : Type := mkAppState {
  isLoaded : bool;
  selectedDate : string;
  history : list DailyLog;
  log : DailyLog;
  pendingEntry : FoodEntry;
  pendingActivity : ActivityEntry;
  pendingMisc : MiscEntry
}.

(** The initial values of the three staging cells. *)
Definition blankPendingEntry : FoodEntry :=
  {| FoodEntry.id := "pending"; FoodEntry.source := ""; FoodEntry.time := "";
     FoodEntry.serving := ""; FoodEntry.calories := 0;
     FoodEntry.hungerBefore := 5; FoodEntry.hungerAfter := 5 |}.

Definition blankPendingActivity : ActivityEntry :=
  {| ActivityEntry.id := "pending-activity"; ActivityEntry.type := "";
     ActivityEntry.duration := "" |}.

Definition blankPendingMisc : MiscEntry :=
  {| FoodEntry.id := "pending-misc"; FoodEntry.source := ""; FoodEntry.time := "";
     FoodEntry.serving := ""; FoodEntry.calories := 0;
     FoodEntry.hungerBefore := 5; FoodEntry.hungerAfter := 5 |}.

(** The state of the first render, [mount] being the clock at that time. *)
Definition initialState (mount : JS.Date.t) : AppState :=
  {| isLoaded := false;
     selectedDate := getLocalDateString mount;
     history := [];
     log := getInitialLog (getLocalDateString mount);
     pendingEntry := blankPendingEntry;
     pendingActivity := blankPendingActivity;
     pendingMisc := blankPendingMisc |}.

(** The state setters; [setLog] and [setHistory] take the updater form
    [prev => ...], a plain value being the constant updater. *)
Definition setIsLoaded (v : bool) (st : AppState) : AppState :=
  {| isLoaded := v; selectedDate := selectedDate st; history := history st;
     log := log st; pendingEntry := pendingEntry st;
     pendingActivity := pendingActivity st; pendingMisc := pendingMisc st |}.

Definition setHistory (f : list DailyLog -> list DailyLog) (st : AppState) : AppState :=
  {| isLoaded := isLoaded st; selectedDate := selectedDate st; history := f (history st);
     log := log st; pendingEntry := pendingEntry st;
     pendingActivity := pendingActivity st; pendingMisc := pendingMisc st |}.

Definition setLog (f : DailyLog -> DailyLog) (st : AppState) : AppState :=
  {| isLoaded := isLoaded st; selectedDate := selectedDate st; history := history st;
     log := f (log st); pendingEntry := pendingEntry st;
     pendingActivity := pendingActivity st; pendingMisc := pendingMisc st |}.

Definition setSelectedDate (v : string) (st : AppState) : AppState :=
  {| isLoaded := isLoaded st; selectedDate := v; history := history st;
     log := log st; pendingEntry := pendingEntry st;
     pendingActivity := pendingActivity st; pendingMisc := pendingMisc st |}.

Definition setPendingEntry (v : FoodEntry) (st : AppState) : AppState :=
  {| isLoaded := isLoaded st; selectedDate := selectedDate st; history := history st;
     log := log st; pendingEntry := v;
     pendingActivity := pendingActivity st; pendingMisc := pendingMisc st |}.

Definition setPendingActivity (v : ActivityEntry) (st : AppState) : AppState :=
  {| isLoaded := isLoaded st; selectedDate := selectedDate st; history := history st;
     log := log st; pendingEntry := pendingEntry st;
     pendingActivity := v; pendingMisc := pendingMisc st |}.

Definition setPendingMisc (v : MiscEntry) (st : AppState) : AppState :=
  {| isLoaded := isLoaded st; selectedDate := selectedDate st; history := history st;
     log := log st; pendingEntry := pendingEntry st;
     pendingActivity := pendingActivity st; pendingMisc := v |}.

#[global] Instance AppState_eq_dec : EqDecision AppState.
Proof. solve_decision. Defined.

(** ** Entry handlers

    Each handler is a function of the state it is called in.  [now] is the
    value of [new Date()] and [token] the value of
    [Math.random().toString(36).substr(2, 9)] at the call. *)

(** [savePendingEntry]. *)
Definition savePendingEntry (now : JS.Date.t) (token : string) (st : AppState) : AppState :=
  let pending := pendingEntry st in
  if negb (JS.truthy (FoodEntry.source pending)) then st
  else
    let newEntry :=
      {| FoodEntry.id := token;
         FoodEntry.source := FoodEntry.source pending;
         FoodEntry.time :=
           if JS.truthy (FoodEntry.time pending) then FoodEntry.time pending
           else JS.toLocaleTimeString_enGB now;
         FoodEntry.serving := FoodEntry.serving pending;
         FoodEntry.calories := FoodEntry.calories pending;
         FoodEntry.hungerBefore := FoodEntry.hungerBefore pending;
         FoodEntry.hungerAfter := FoodEntry.hungerAfter pending |} in
    setPendingEntry blankPendingEntry
      (setLog (fun prev => with_foodEntries (newEntry :: DailyLog.foodEntries prev) prev) st).

(** [removeFoodEntry]. *)
Definition removeFoodEntry (id : string) (st : AppState) : AppState :=
  setLog (fun prev =>
            with_foodEntries
              (filter (fun e => FoodEntry.id e <> id) (DailyLog.foodEntries prev)) prev) st.

(** [savePendingActivity]. *)
Definition savePendingActivity (token : string) (st : AppState) : AppState :=
  let pending := pendingActivity st in
  if negb (JS.truthy (ActivityEntry.type pending)) then st
  else
    let newEntry :=
      {| ActivityEntry.id := token;
         ActivityEntry.type := ActivityEntry.type pending;
         ActivityEntry.duration := ActivityEntry.duration pending |} in
    setPendingActivity blankPendingActivity
      (setLog (fun prev => with_activities (newEntry :: DailyLog.activities prev) prev) st).

(** [removeActivity]. *)
Definition removeActivity (id : string) (st : AppState) : AppState :=
  setLog (fun prev =>
            with_activities
              (filter (fun a => ActivityEntry.id a <> id) (DailyLog.activities prev)) prev) st.

(** [savePendingMisc]. *)
Definition savePendingMisc (now : JS.Date.t) (token : string) (st : AppState) : AppState :=
  let pending := pendingMisc st in
  if negb (JS.truthy (FoodEntry.source pending)) then st
  else
    let newEntry :=
      {| FoodEntry.id := token;
         FoodEntry.source := FoodEntry.source pending;
         FoodEntry.time :=
           if JS.truthy (FoodEntry.time pending) then FoodEntry.time pending
           else JS.toLocaleTimeString_enGB now;
         FoodEntry.serving := FoodEntry.serving pending;
         FoodEntry.calories := FoodEntry.calories pending;
         FoodEntry.hungerBefore := FoodEntry.hungerBefore pending;
         FoodEntry.hungerAfter := FoodEntry.hungerAfter pending |} in
    setPendingMisc blankPendingMisc
      (setLog (fun prev =>
                 with_miscEntries (newEntry :: default [] (DailyLog.miscEntries prev)) prev) st).

(** [removeMiscEntry]. *)
Definition removeMiscEntry (id : string) (st : AppState) : AppState :=
  setLog (fun prev =>
            with_miscEntries
              (filter (fun e => FoodEntry.id e <> id) (default [] (DailyLog.miscEntries prev)))
              prev) st.

(** The [onClick] of water pip [i]: the test reads [log] of the render the
    handler was created in, which is the state the click arrives in. *)
Definition clickWaterPip (i : Z) (st : AppState) : AppState :=
  setLog (fun prev =>
            with_waterIntake
              (if (i + 1 =? DailyLog.waterIntake (log st))%Z then i else (i + 1)%Z) prev) st.

(** ** Storage, console and effects

    An effect body is a closure of one render: it reads the state cells of
    that render (the argument [r] below) and of nothing later, while what it
    passes to a setter is applied to the pending state, which an updater
    [prev => ...] receives as [prev]. *)

Inductive ConsoleLine : Type :=
  | console_log (msg : string)
  | console_warn (msg : string)
  | console_error (msg : string).

#[global] Instance ConsoleLine_eq_dec : EqDecision ConsoleLine.
Proof. solve_decision. Defined.

(** What an effect body can read and write: the component state, the two
    slots of [localStorage], and the console (oldest line first). *)
Record World : Type := mkWorld {
  app : AppState;
  localStorage : gmap string string;
  console : list ConsoleLine
}.

Definition HISTORY_KEY : string := "food-journal-history".
Definition LOG_KEY : string := "food-journal-log".

(** An effect body either completes or throws; what it wrote before a throw
    stays written. *)
Inductive Completion (A : Type) : Type :=
  | Normal (a : A)
  | Throw.
Arguments Normal {A} a.
Arguments Throw {A}.

Definition Effect (A : Type) : Type := World -> Completion A * World.

#[global] Instance Effect_ret : MRet Effect := fun A a w => (Normal a, w).

#[global] Instance Effect_bind : MBind Effect := fun A B f m w =>
  match m w with
  | (Normal a, w') => f a w'
  | (Throw, w') => (Throw, w')
  end.

Definition throw {A : Type} : Effect A := fun w => (Throw, w).

(** [try { body } catch (err) { handler }]. *)
Definition try_catch {A : Type} (body handler : Effect A) : Effect A := fun w =>
  match body w with
  | (Normal a, w') => (Normal a, w')
  | (Throw, w') => handler w'
  end.

Definition getState : Effect AppState := fun w => (Normal (app w), w).

Definition update (f : AppState -> AppState) : Effect unit := fun w =>
  (Normal tt, {| app := f (app w); localStorage := localStorage w; console := console w |}).

Definition getItem (key : string) : Effect (option string) := fun w =>
  (Normal (localStorage w !! key), w).

Definition setItem (key value : string) : Effect unit := fun w =>
  (Normal tt,
   {| app := app w; localStorage := <[key := value]> (localStorage w); console := console w |}).

Definition console_write (line : ConsoleLine) : Effect unit := fun w =>
  (Normal tt,
   {| app := app w; localStorage := localStorage w; console := console w ++ [line] |}).

(** [JSON.parse] at the type the source gives its result: the parsed value,
    or a throw when the parser rejects the text. *)
Definition parse_or_throw {A : Type} (parser : string -> option A) (text : string) : Effect A :=
  match parser text with
  | Some v => mret v
  | None => throw
  end.

(** The world an effect leaves, whether it completed or threw. *)
Definition exec {A : Type} (m : Effect A) (w : World) : World := snd (m w).

(** The contents of the two slots. *)
Definition draftSlot (w : World) : option string := localStorage w !! LOG_KEY.
Definition historySlot (w : World) : option string := localStorage w !! HISTORY_KEY.

Section Controller.

(** The platform's [localeCompare], [JSON.stringify] and [JSON.parse];
    [JSON.parse] returns [None] where it throws a [SyntaxError], and is taken
    at the type the source declares for its result.  A text that is valid
    JSON of another shape (the text [null], a record without [foodEntries])
    has no place in this model. *)
Variable localeCompare : string -> string -> Z.
Variable JSON_stringify_log : DailyLog -> string.
Variable JSON_stringify_history : list DailyLog -> string.
Variable JSON_parse_log : string -> option PartialLog.
Variable JSON_parse_history : string -> option (list DailyLog).

(** The "Initial Load" effect; it runs once, after the first render, and
    reads no state cell.  (Its [setTimeout] only opens a confirmation dialog
    whose answer is unused.)  Where a slot passes the truthiness test it
    holds a text, which [default ""] takes out of the option. *)
Definition initialLoadEffect (now : JS.Date.t) : Effect unit :=
  console_write (console_log "App: Initializing v3.0...") ;;
  try_catch
    (savedHistory ← getItem HISTORY_KEY;
     parsedHistory ←
       (if JS.truthy_item savedHistory then
          parsed ← parse_or_throw JSON_parse_history (default "" savedHistory);
          update (setHistory (fun _ => parsed)) ;;
          mret parsed
        else mret []);
     let today := getLocalDateString now in
     savedLog ← getItem LOG_KEY;
     initialLog ←
       (if JS.truthy_item savedLog then
          parsed ← parse_or_throw JSON_parse_log (default "" savedLog);
          if decide (PartialLog.date parsed = Some today)
          then mret (spread (getInitialLog today) parsed)
          else mret (getInitialLog today)
        else mret (getInitialLog today));
     match List.find (fun h => bool_decide (DailyLog.date h = today)) parsedHistory with
     | Some historyEntry => update (setLog (fun _ => historyEntry))
     | None => update (setLog (fun _ => initialLog))
     end ;;
     update (setIsLoaded true))
    (console_write (console_error "Storage Recovery failed") ;;
     update (setIsLoaded true)).

(** The comparator of the history sort,
    [(a, b) => b.date.localeCompare(a.date)]. *)
Definition byDateDescending (a b : DailyLog) : Z :=
  localeCompare (DailyLog.date b) (DailyLog.date a).

(** The updater the "Save current log to history" effect passes to
    [setHistory]; [log] is the record of the effect's render. *)
Definition foldIntoHistory (log : DailyLog) (prev : list DailyLog) : list DailyLog :=
  let otherDays := filter (fun h => DailyLog.date h <> DailyLog.date log) prev in
  let newHistory := JS.Array_sort byDateDescending (log :: otherDays) in
  newHistory.

(** The "Save current log to history" effect, run after a render in which
    [log] or [isLoaded] changed; [now] is the clock when it runs. *)
Definition saveLogToHistoryEffect (now : JS.Date.t) (r : AppState) : Effect unit :=
  if negb (isLoaded r) then mret tt
  else
    update (setHistory (foldIntoHistory (log r))) ;;
    if decide (DailyLog.date (log r) = getLocalDateString now)
    then setItem LOG_KEY (JSON_stringify_log (log r))
    else mret tt.

(** The "Persist history with SAFETY GUARD" effect, run after a render in
    which [history] or [isLoaded] changed. *)
Definition persistHistoryEffect (r : AppState) : Effect unit :=
  if negb (isLoaded r) then mret tt
  else
    blocked ←
      (if (length (history r) =? 0)%nat then
         rawInStore ← getItem HISTORY_KEY;
         if JS.truthy_item rawInStore && negb (bool_decide (rawInStore = Some "[]"))
         then
           console_write (console_warn
             "Journal: Blocked attempt to overwrite storage with empty state. History is SAFE.") ;;
           mret true
         else mret false
       else mret false);
    if blocked : bool then mret tt
    else setItem HISTORY_KEY (JSON_stringify_history (history r)).

(** The "Handle Date Selection Change" effect, run after a render in which
    [selectedDate] or [isLoaded] changed. *)
Definition dateSelectionEffect (r : AppState) : Effect unit :=
  if negb (isLoaded r) then mret tt
  else
    match List.find (fun h => bool_decide (DailyLog.date h = selectedDate r)) (history r) with
    | Some entryForDate => update (setLog (fun _ => entryForDate))
    | None => update (setLog (fun _ => getInitialLog (selectedDate r)))
    end.

(** One mutation of the current record: a handler sets [log]; the render
    that follows runs the fold effect ([log] changed), and the render after
    that runs the persist effect ([history] changed). *)
Definition mutate (now : JS.Date.t) (f : DailyLog -> DailyLog) : Effect unit :=
  update (setLog f) ;;
  r ← getState;
  saveLogToHistoryEffect now r ;;
  r' ← getState;
  persistHistoryEffect r'.

(** A sequence of mutations, each at its own clock reading. *)
Fixpoint mutations (steps : list (JS.Date.t * (DailyLog -> DailyLog))) : Effect unit :=
  match steps with
  | [] => mret tt
  | (now, f) :: rest => mutate now f ;; mutations rest
  end.

(** The commit after the load: [isLoaded] changed, so the fold, persist and
    date-selection effects all run, in source order, on the state of that
    one render. *)
Definition commitAfterLoad (now : JS.Date.t) : Effect unit :=
  r ← getState;
  saveLogToHistoryEffect now r ;;
  persistHistoryEffect r ;;
  dateSelectionEffect r.

(** The renders from the first one until no effect has work left: the load;
    the commit after it; the commit after that, in which the fold effect
    runs again for the record the date selection set and the persist effect
    for the history the first fold produced; and a last commit in which the
    persist effect runs for the history the second fold produced. *)
Definition startup (now : JS.Date.t) : Effect unit :=
  initialLoadEffect now ;;
  commitAfterLoad now ;;
  r ← getState;
  saveLogToHistoryEffect now r ;;
  persistHistoryEffect r ;;
  r' ← getState;
  persistHistoryEffect r'.

End Controller.

(** ** The members of a record, for frame statements *)

Inductive Field : Type :=
  | F_date | F_proteinGoal | F_totalProteinCalories | F_ketosis | F_followedPlan
  | F_notes | F_waterIntake | F_foodEntries | F_miscEntries | F_fatEntries
  | F_vegetableEntries | F_activities | F_supplements.

(** Two records hold the same value in member [f]. *)
Definition same_at (f : Field) (a b : DailyLog) : Prop :=
  match f with
  | F_date => DailyLog.date a = DailyLog.date b
  | F_proteinGoal => DailyLog.proteinGoal a = DailyLog.proteinGoal b
  | F_totalProteinCalories =>
      DailyLog.totalProteinCalories a = DailyLog.totalProteinCalories b
  | F_ketosis => DailyLog.ketosis a = DailyLog.ketosis b
  | F_followedPlan => DailyLog.followedPlan a = DailyLog.followedPlan b
  | F_notes => DailyLog.notes a = DailyLog.notes b
  | F_waterIntake => DailyLog.waterIntake a = DailyLog.waterIntake b
  | F_foodEntries => DailyLog.foodEntries a = DailyLog.foodEntries b
  | F_miscEntries => DailyLog.miscEntries a = DailyLog.miscEntries b
  | F_fatEntries => DailyLog.fatEntries a = DailyLog.fatEntries b
  | F_vegetableEntries => DailyLog.vegetableEntries a = DailyLog.vegetableEntries b
  | F_activities => DailyLog.activities a = DailyLog.activities b
  | F_supplements => DailyLog.supplements a = DailyLog.supplements b
  end.

(** The parsed object has member [f]. *)
Definition has_member (f : Field) (p : PartialLog) : bool :=
  match f with
  | F_date => bool_decide (is_Some (PartialLog.date p))
  | F_proteinGoal => bool_decide (is_Some (PartialLog.proteinGoal p))
  | F_totalProteinCalories => bool_decide (is_Some (PartialLog.totalProteinCalories p))
  | F_ketosis => bool_decide (is_Some (PartialLog.ketosis p))
  | F_followedPlan => bool_decide (is_Some (PartialLog.followedPlan p))
  | F_notes => bool_decide (is_Some (PartialLog.notes p))
  | F_waterIntake => bool_decide (is_Some (PartialLog.waterIntake p))
  | F_foodEntries => bool_decide (is_Some (PartialLog.foodEntries p))
  | F_miscEntries => bool_decide (is_Some (PartialLog.miscEntries p))
  | F_fatEntries => bool_decide (is_Some (PartialLog.fatEntries p))
  | F_vegetableEntries => bool_decide (is_Some (PartialLog.vegetableEntries p))
  | F_activities => bool_decide (is_Some (PartialLog.activities p))
  | F_supplements => bool_decide (is_Some (PartialLog.supplements p))
  end.

(** Member [f] of record [r] is the value the parsed object has there. *)
Definition taken_from (f : Field) (p : PartialLog) (r : DailyLog) : Prop :=
  match f with
  | F_date => PartialLog.date p = Some (DailyLog.date r)
  | F_proteinGoal => PartialLog.proteinGoal p = Some (DailyLog.proteinGoal r)
  | F_totalProteinCalories =>
      PartialLog.totalProteinCalories p = Some (DailyLog.totalProteinCalories r)
  | F_ketosis => PartialLog.ketosis p = Some (DailyLog.ketosis r)
  | F_followedPlan => PartialLog.followedPlan p = Some (DailyLog.followedPlan r)
  | F_notes => PartialLog.notes p = Some (DailyLog.notes r)
  | F_waterIntake => PartialLog.waterIntake p = Some (DailyLog.waterIntake r)
  | F_foodEntries => PartialLog.foodEntries p = Some (DailyLog.foodEntries r)
  | F_miscEntries => PartialLog.miscEntries p = DailyLog.miscEntries r
  | F_fatEntries => PartialLog.fatEntries p = Some (DailyLog.fatEntries r)
  | F_vegetableEntries => PartialLog.vegetableEntries p = Some (DailyLog.vegetableEntries r)
  | F_activities => PartialLog.activities p = Some (DailyLog.activities r)
  | F_supplements => PartialLog.supplements p = DailyLog.supplements r
  end.

(** What the load reads from a slot: nothing ([None]) when the slot is
    missing or holds the empty text, and otherwise the value the parser
    returns for the text, which it must accept. *)
Definition slotReads {A : Type} (parser : string -> option A)
    (slot : option string) (value : option A) : Prop :=
  if JS.truthy_item slot then is_Some value /\ slot ≫= parser = value
  else value = None.

(** The slot holds a text the parser throws on. *)
Definition slotMalformed {A : Type} (parser : string -> option A)
    (slot : option string) : Prop :=
  exists text, slot = Some text /\ text <> "" /\ parser text = None.

(** An effect that, run in a loaded journal, completes and leaves it
    loaded. *)
Definition keeps_loaded {A : Type} (m : Effect A) : Prop :=
  forall w, isLoaded (app w) = true ->
    exists a, fst (m w) = Normal a /\ isLoaded (app (exec m w)) = true.

(** ** Properties of a history collection *)

(** Sorted descending by date key: a record that comes later in the
    collection has a key that compares at or below every earlier one. *)
Definition sortedDescending (localeCompare : string -> string -> Z)
    (h : list DailyLog) : Prop :=
  StronglySorted
    (fun earlier later =>
       (localeCompare (DailyLog.date later) (DailyLog.date earlier) <= 0)%Z) h.

(** At most one record per date key. *)
Definition uniqueDates (h : list DailyLog) : Prop := NoDup (DailyLog.date <$> h).

(** What the platform guarantees of [localeCompare]: it is a consistent
    comparator, that is, "compares at or below" is total and transitive. *)
Definition consistentComparator (localeCompare : string -> string -> Z) : Prop :=
  (forall a b, (localeCompare a b <= 0)%Z \/ (localeCompare b a <= 0)%Z) /\
  (forall a b c,
     (localeCompare a b <= 0)%Z -> (localeCompare b c <= 0)%Z -> (localeCompare a c <= 0)%Z).

(** ** Sample data *)

Module Sample.

(** 1 June 2024, 09:05 local time. *)
Definition morning : JS.Date.t :=
  {| JS.Date.getFullYear := 2024; JS.Date.getMonth := 5; JS.Date.getDate := 1;
     JS.Date.getHours := 9; JS.Date.getMinutes := 5 |}.

Definition eggs : FoodEntry :=
  {| FoodEntry.id := "pending"; FoodEntry.source := "Eggs"; FoodEntry.time := "";
     FoodEntry.serving := ""; FoodEntry.calories := 140;
     FoodEntry.hungerBefore := 6; FoodEntry.hungerAfter := 3 |}.

(** A loaded journal showing today's fresh record. *)
Definition loaded : AppState := setIsLoaded true (initialState morning).

(** The same with the meal form filled in. *)
Definition with_eggs_pending : AppState := setPendingEntry eggs loaded.

(** A comparator to run the history sort with: strings compared by their
    code units, which is how date keys of one width compare in any locale. *)
Definition codeUnitCompare (a b : string) : Z :=
  match String_as_OT.compare a b with
  | Lt => (-1)%Z
  | Eq => 0%Z
  | Gt => 1%Z
  end.

(** Two stored records for New Year's Day, as a hand-edited or merged
    history text can hold them. *)
Definition newYear : DailyLog := getInitialLog "2024-01-01".
Definition newYear_again : DailyLog := with_waterIntake 4 (getInitialLog "2024-01-01").
Definition may31 : DailyLog := getInitialLog "2024-05-31".
Definition june1 : DailyLog := getInitialLog "2024-06-01".

(** A serializer to run the effects with: [JSON.stringify] on records whose
    members stand in the order of [getInitialLog]; a missing member is left
    out. *)
Definition quote : string := String (ascii_of_nat 34) EmptyString.
Definition backslash : string := String (ascii_of_nat 92) EmptyString.

Definition hexDigit (n : nat) : string :=
  String.substring n 1 "0123456789abcdef".

Definition escapeChar (c : ascii) : string :=
  let n := nat_of_ascii c in
  if (n =? 34)%nat then backslash +:+ quote
  else if (n =? 92)%nat then backslash +:+ backslash
  else if (n =? 8)%nat then backslash +:+ "b"
  else if (n =? 9)%nat then backslash +:+ "t"
  else if (n =? 10)%nat then backslash +:+ "n"
  else if (n =? 12)%nat then backslash +:+ "f"
  else if (n =? 13)%nat then backslash +:+ "r"
  else if (n <? 32)%nat then
    backslash +:+ "u00" +:+ hexDigit (n / 16) +:+ hexDigit (n mod 16)
  else String c EmptyString.

Fixpoint escape (s : string) : string :=
  match s with
  | EmptyString => EmptyString
  | String c rest => escapeChar c +:+ escape rest
  end.

Definition json_string (s : string) : string := quote +:+ escape s +:+ quote.
Definition json_number (n : Z) : string := JS.String_of_number n.
Definition json_bool (b : bool) : string := if b then "true" else "false".

Fixpoint join (sep : string) (parts : list string) : string :=
  match parts with
  | [] => ""
  | [part] => part
  | part :: rest => part +:+ sep +:+ join sep rest
  end.

Definition json_array {A : Type} (item : A -> string) (l : list A) : string :=
  "[" +:+ join "," (item <$> l) +:+ "]".

(** An object from its members in order, [None] for a missing one. *)
Definition json_object (members : list (string * option string)) : string :=
  "{" +:+
  join "," (omap (fun m => (fun v => json_string (fst m) +:+ ":" +:+ v) <$> snd m) members)
  +:+ "}".

Definition json_any (v : JS.any) : string :=
  match v with
  | JS.Null => "null"
  | JS.Bool b => json_bool b
  | JS.Number n => json_number n
  | JS.Str s => json_string s
  end.

Definition json_foodEntry (e : FoodEntry) : string :=
  json_object
    [("id", Some (json_string (FoodEntry.id e)));
     ("source", Some (json_string (FoodEntry.source e)));
     ("time", Some (json_string (FoodEntry.time e)));
     ("serving", Some (json_string (FoodEntry.serving e)));
     ("calories", Some (json_number (FoodEntry.calories e)));
     ("hungerBefore", Some (json_number (FoodEntry.hungerBefore e)));
     ("hungerAfter", Some (json_number (FoodEntry.hungerAfter e)))].

Definition json_activity (a : ActivityEntry) : string :=
  json_object
    [("id", Some (json_string (ActivityEntry.id a)));
     ("type", Some (json_string (ActivityEntry.type a)));
     ("duration", Some (json_string (ActivityEntry.duration a)))].

Definition JSON_stringify_partial (p : PartialLog) : string :=
  json_object
    [("date", json_string <$> PartialLog.date p);
     ("proteinGoal", json_string <$> PartialLog.proteinGoal p);
     ("totalProteinCalories", json_number <$> PartialLog.totalProteinCalories p);
     ("ketosis", json_bool <$> PartialLog.ketosis p);
     ("followedPlan", json_bool <$> PartialLog.followedPlan p);
     ("notes", json_string <$> PartialLog.notes p);
     ("waterIntake", json_number <$> PartialLog.waterIntake p);
     ("foodEntries", json_array json_foodEntry <$> PartialLog.foodEntries p);
     ("miscEntries", json_array json_foodEntry <$> PartialLog.miscEntries p);
     ("fatEntries", json_array json_string <$> PartialLog.fatEntries p);
     ("vegetableEntries", json_array json_string <$> PartialLog.vegetableEntries p);
     ("activities", json_array json_activity <$> PartialLog.activities p);
     ("supplements", json_array json_any <$> PartialLog.supplements p)].

(** A record as the object that has all the members the record has. *)
Definition asPartial (r : DailyLog) : PartialLog :=
  {| PartialLog.date := Some (DailyLog.date r);
     PartialLog.proteinGoal := Some (DailyLog.proteinGoal r);
     PartialLog.totalProteinCalories := Some (DailyLog.totalProteinCalories r);
     PartialLog.ketosis := Some (DailyLog.ketosis r);
     PartialLog.followedPlan := Some (DailyLog.followedPlan r);
     PartialLog.notes := Some (DailyLog.notes r);
     PartialLog.waterIntake := Some (DailyLog.waterIntake r);
     PartialLog.foodEntries := Some (DailyLog.foodEntries r);
     PartialLog.miscEntries := DailyLog.miscEntries r;
     PartialLog.fatEntries := Some (DailyLog.fatEntries r);
     PartialLog.vegetableEntries := Some (DailyLog.vegetableEntries r);
     PartialLog.activities := Some (DailyLog.activities r);
     PartialLog.supplements := DailyLog.supplements r |}.

Definition JSON_stringify_log (r : DailyLog) : string := JSON_stringify_partial (asPartial r).

Definition JSON_stringify_history (h : list DailyLog) : string :=
  json_array JSON_stringify_log h.

(** A draft for 1 June that only has a date, notes and a water count. *)
Definition leftovers : PartialLog :=
  {| PartialLog.date := Some "2024-06-01";
     PartialLog.proteinGoal := None;
     PartialLog.totalProteinCalories := None;
     PartialLog.ketosis := None;
     PartialLog.followedPlan := None;
     PartialLog.notes := Some "leftovers";
     PartialLog.waterIntake := Some 2%Z;
     PartialLog.foodEntries := None;
     PartialLog.miscEntries := None;
     PartialLog.fatEntries := None;
     PartialLog.vegetableEntries := None;
     PartialLog.activities := None;
     PartialLog.supplements := None |}.

(** The record for 1 June as a history holds it after four glasses. *)
Definition june1_logged : DailyLog := with_waterIntake 4 (getInitialLog "2024-06-01").

(** Parsers to run the load with: each reads back the texts the sample
    serializer writes for the values listed, and rejects every other text. *)
Definition reads_back {A : Type} (stringify : A -> string) (known : list A)
    (text : string) : option A :=
  List.find (fun v => String.eqb (stringify v) text) known.

Definition JSON_parse_log : string -> option PartialLog :=
  reads_back JSON_stringify_partial [leftovers; asPartial june1; asPartial may31].

Definition JSON_parse_history : string -> option (list DailyLog) :=
  reads_back JSON_stringify_history
    [[]; [newYear]; [june1_logged; newYear]; [newYear; newYear_again]].

(** Worlds at the first render on the morning of 1 June. *)
Definition atMount (storage : gmap string string) : World :=
  {| app := initialState morning; localStorage := storage; console := [] |}.

Definition freshInstall : World := atMount ∅.

Definition draftOnly : World :=
  atMount {[ LOG_KEY := JSON_stringify_partial leftovers ]}.

Definition draftAndHistory : World :=
  atMount (<[ HISTORY_KEY := JSON_stringify_history [june1_logged; newYear] ]>
           {[ LOG_KEY := JSON_stringify_partial leftovers ]}).

Definition brokenHistory : World :=
  atMount (<[ HISTORY_KEY := "[{oops" ]>
           {[ LOG_KEY := JSON_stringify_partial leftovers ]}).


(** A loaded journal over a given storage. *)
Definition running (st : AppState) (storage : gmap string string) : World :=
  {| app := st; localStorage := storage; console := [] |}.

End Sample.

(** ** The rest of the component *)

(** [x || 0] on a number: zero is the falsy one. *)
Definition or_zero (x : Z) : Z := if (x =? 0)%Z then 0%Z else x.

(** The double nearest to an integer, ties going to the even significand:
    an integer below 2^53 in magnitude is a double; a larger one keeps its
    53 leading bits.  (The overflow to [Infinity] beyond 2^1024 is left
    out.) *)
Definition roundToDouble (z : Z) : Z :=
  let a := Z.abs z in
  if (a <? 2 ^ 53)%Z then z
  else
    let e := (Z.log2 a - 52)%Z in
    let q := (a / 2 ^ e)%Z in
    let r := (a mod 2 ^ e)%Z in
    let half := (2 ^ (e - 1))%Z in
    let q' :=
      if (r <? half)%Z then q
      else if (half <? r)%Z then (q + 1)%Z
      else if Z.even q then q else (q + 1)%Z in
    (Z.sgn z * (q' * 2 ^ e))%Z.

(** [a + b] on two numbers that hold integers: the exact sum, rounded. *)
Definition Number_add (a b : Z) : Z := roundToDouble (a + b).

(** [Number.MAX_SAFE_INTEGER]. *)
Definition MAX_SAFE_INTEGER : Z := 2 ^ 53 - 1.

(** [log.foodEntries.reduce((sum, e) => sum + (e.calories || 0), 0)], as
    computed for [totalCalories] and again for each row of the history
    view. *)
Definition totalCalories (log : DailyLog) : Z :=
  fold_left (fun sum e => Number_add sum (or_zero (FoodEntry.calories e)))
            (DailyLog.foodEntries log) 0%Z.

(** The sum of the calorie counts of some meals in the integers, and the sum
    of their magnitudes: while the latter stays within the safe integers no
    addition of the reduction rounds. *)
Definition exactCalories (entries : list FoodEntry) : Z :=
  fold_right (fun e acc => (FoodEntry.calories e + acc)%Z) 0%Z entries.

Definition caloriesMagnitude (entries : list FoodEntry) : Z :=
  fold_right (fun e acc => (Z.abs (FoodEntry.calories e) + acc)%Z) 0%Z entries.

(** The wall-clock time "hours:minutes, 24-hour" in the spec's words: the two
    decimal digits of the hour of the day (0 to 23), a colon, the two decimal
    digits of the minute. *)
Definition decimalDigit (n : Z) : ascii := ascii_of_nat (48 + Z.to_nat n).

Definition HHMM_24h (hours minutes : Z) : string :=
  String (decimalDigit (hours / 10))
    (String (decimalDigit (hours mod 10))
       (String ":"%char
          (String (decimalDigit (minutes / 10))
             (String (decimalDigit (minutes mod 10)) EmptyString)))).

(** The eight water pips, [[...Array(8)].map((_, i) => i < log.waterIntake)]:
    which of them are drawn filled. *)
Definition waterPips (log : DailyLog) : list bool :=
  (fun i => (i <? DailyLog.waterIntake log)%Z) <$> seqZ 0 8.

(** A string of decimal digits only. *)
Definition isDigit (c : ascii) : bool :=
  match Ascii.is_nat c with
  | Some _ => true
  | None => false
  end.

Fixpoint allDigits (s : string) : bool :=
  match s with
  | EmptyString => true
  | String c rest => isDigit c && allDigits rest
  end.

Section Navigation.
Variable localeCompare : string -> string -> Z.
Variable JSON_stringify_log : DailyLog -> string.
Variable JSON_stringify_history : list DailyLog -> string.

(** What a change of [log] sets off: the fold effect in the next commit, the
    persist effect in the one after. *)
Definition afterLogChange (now : JS.Date.t) : Effect unit :=
  r ← getState;
  saveLogToHistoryEffect localeCompare JSON_stringify_log now r ;;
  r' ← getState;
  persistHistoryEffect JSON_stringify_history r'.

(** [setSelectedDate(value)] and the renders it sets off.  Setting the cell
    to the string it holds is no state change, so nothing follows;
    otherwise the date-selection effect runs in the next commit, and the
    record it sets is folded and persisted: that record has the new date
    key, so it is another object than the record shown whenever the record
    shown has the old one.  ([setView] and [scrollTo], which the handlers
    below also call, only move the markup.) *)
Definition changeSelectedDate (now : JS.Date.t) (value : string) : Effect unit :=
  st ← getState;
  if decide (value = selectedDate st) then mret tt
  else
    update (setSelectedDate value) ;;
    r ← getState;
    dateSelectionEffect r ;;
    afterLogChange now.

(** The [onChange] of the date input. *)
Definition selectDate (now : JS.Date.t) (value : string) : Effect unit :=
  console_write (console_log ("CRITICAL: Date changed to " +:+ value)) ;;
  changeSelectedDate now value.

(** The [onClick] of "Reset to Today"; [clicked] is the clock at the click. *)
Definition resetToToday (clicked now : JS.Date.t) : Effect unit :=
  let today := getLocalDateString clicked in
  changeSelectedDate now today.

(** The [onClick] of the date button of a row of the history view. *)
Definition openHistoryDay (now : JS.Date.t) (h : DailyLog) : Effect unit :=
  changeSelectedDate now (DailyLog.date h).

End Navigation.

(** ** More sample data *)

Module Scenario.

(** 2 June 2024, 18:40 local time. *)
Definition evening : JS.Date.t :=
  {| JS.Date.getFullYear := 2024; JS.Date.getMonth := 5; JS.Date.getDate := 2;
     JS.Date.getHours := 18; JS.Date.getMinutes := 40 |}.

(** Toast, with the time typed in. *)
Definition toast : FoodEntry :=
  {| FoodEntry.id := "pending"; FoodEntry.source := "Toast"; FoodEntry.time := "07:30";
     FoodEntry.serving := "2 slices"; FoodEntry.calories := 180;
     FoodEntry.hungerBefore := 7; FoodEntry.hungerAfter := 4 |}.

Definition coffee : MiscEntry :=
  {| FoodEntry.id := "pending-misc"; FoodEntry.source := "Coffee"; FoodEntry.time := "";
     FoodEntry.serving := "1 cup"; FoodEntry.calories := 5;
     FoodEntry.hungerBefore := 5; FoodEntry.hungerAfter := 5 |}.

Definition walk : ActivityEntry :=
  {| ActivityEntry.id := "pending-activity"; ActivityEntry.type := "Walk";
     ActivityEntry.duration := "30 min" |}.

(** A record for 1 June as an older version of the journal stored it,
    without [miscEntries] and [supplements]. *)
Definition legacy : DailyLog :=
  {| DailyLog.date := "2024-06-01";
     DailyLog.proteinGoal := "90g";
     DailyLog.totalProteinCalories := 0;
     DailyLog.ketosis := true;
     DailyLog.followedPlan := false;
     DailyLog.notes := "slept well";
     DailyLog.waterIntake := 3;
     DailyLog.foodEntries := [];
     DailyLog.miscEntries := None;
     DailyLog.fatEntries := [""; ""];
     DailyLog.vegetableEntries := [""; ""];
     DailyLog.activities := [];
     DailyLog.supplements := None |}.

(** A loaded journal showing the legacy record, with all three forms filled
    in. *)
Definition forms_filled : AppState :=
  setPendingActivity walk
    (setPendingMisc coffee
       (setPendingEntry toast (setLog (fun _ => legacy) Sample.loaded))).

(** The same journal after all three forms were saved that evening: one
    meal, one misc entry and one activity, under the ids f1, m1 and a1. *)
Definition one_of_each : AppState :=
  savePendingActivity "a1"
    (savePendingMisc evening "m1" (savePendingEntry evening "f1" forms_filled)).

(** And with the eggs typed into the meal form again. *)
Definition eggs_after_toast : AppState := setPendingEntry Sample.eggs one_of_each.

(** A record planned ahead for Christmas Day, and a stored history that
    holds it before the records of 1 June and New Year's Day. *)
Definition christmas : DailyLog := getInitialLog "2024-12-25".

Definition planned_ahead : list DailyLog :=
  [christmas; Sample.june1_logged; Sample.newYear].

(** A parser that reads that history back. *)
Definition JSON_parse_history : string -> option (list DailyLog) :=
  Sample.reads_back Sample.JSON_stringify_history [planned_ahead].

(** The first render on the morning of 1 June over that history. *)
Definition planned_ahead_stored : World :=
  Sample.atMount {[ HISTORY_KEY := Sample.JSON_stringify_history planned_ahead ]}.

End Scenario.

(** ** The record factory *)

(** C5, as the code has it: for every date key the factory returns a record
    with that key, every scalar member at its default (empty strings, zero
    counters, false flags), the entry sequences [foodEntries], [miscEntries],
    [activities] and [supplements] empty, and [fatEntries] and
    [vegetableEntries] each holding two empty strings; equal keys give equal
    records, and only equal keys do. *)
Theorem getInitialLog_defaults (date : string) :
  DailyLog.date (getInitialLog date) = date /\
  DailyLog.proteinGoal (getInitialLog date) = "" /\
  DailyLog.totalProteinCalories (getInitialLog date) = 0%Z /\
  DailyLog.ketosis (getInitialLog date) = false /\
  DailyLog.followedPlan (getInitialLog date) = false /\
  DailyLog.notes (getInitialLog date) = "" /\
  DailyLog.waterIntake (getInitialLog date) = 0%Z /\
  DailyLog.foodEntries (getInitialLog date) = [] /\
  DailyLog.miscEntries (getInitialLog date) = Some [] /\
  DailyLog.activities (getInitialLog date) = [] /\
  DailyLog.supplements (getInitialLog date) = Some [] /\
  DailyLog.fatEntries (getInitialLog date) = [""; ""] /\
  DailyLog.vegetableEntries (getInitialLog date) = [""; ""] /\
  (forall date', getInitialLog date' = getInitialLog date <-> date' = date).
Proof.
  repeat split; try reflexivity.
  - intros Heq. apply (f_equal DailyLog.date) in Heq. exact Heq.
  - intros ->. reflexivity.
Qed.

(** C5, as the spec words it, fails: the factory's [fatEntries] and
    [vegetableEntries] are not empty. *)
Lemma getInitialLog_sequences_not_all_empty :
  DailyLog.fatEntries (getInitialLog "2024-01-01") = [""; ""] /\
  DailyLog.vegetableEntries (getInitialLog "2024-01-01") = [""; ""] /\
  length (DailyLog.fatEntries (getInitialLog "2024-01-01")) = 2%nat.
Proof. repeat split. Qed.

(** ** Entry handlers *)

Lemma truthy_empty : JS.truthy "" = false.
Proof. reflexivity. Qed.

Lemma truthy_nonempty (s : string) : s <> "" -> JS.truthy s = true.
Proof.
  intros Hs. unfold JS.truthy. destruct (String.eqb_spec s ""); [contradiction | reflexivity].
Qed.

(** For a clock reading within the day, the en-GB time is the spec's
    24-hour HH:MM of the clock's hours and minutes, by running the formatter
    on every minute of the day. *)
Lemma toLocaleTimeString_enGB_is_HHMM (d : JS.Date.t) :
  (0 <= JS.Date.getHours d < 24)%Z ->
  (0 <= JS.Date.getMinutes d < 60)%Z ->
  JS.toLocaleTimeString_enGB d = HHMM_24h (JS.Date.getHours d) (JS.Date.getMinutes d).
Proof.
  intros Hh Hm.
  set (agrees := fun h m : Z =>
    String.eqb (JS.toLocaleTimeString_enGB (JS.Date.mk 0 0 0 h m)) (HHMM_24h h m)).
  assert (Hall : forallb (fun h => forallb (agrees h) (seqZ 0 60)) (seqZ 0 24) = true)
    by (vm_compute; reflexivity).
  rewrite forallb_forall in Hall.
  specialize (Hall (JS.Date.getHours d)).
  rewrite forallb_forall in Hall.
  specialize (Hall ltac:(apply list_elem_of_In, elem_of_seqZ; lia) (JS.Date.getMinutes d)
                   ltac:(apply list_elem_of_In, elem_of_seqZ; lia)).
  unfold agrees in Hall.
  change (JS.toLocaleTimeString_enGB
            (JS.Date.mk 0 0 0 (JS.Date.getHours d) (JS.Date.getMinutes d)))
    with (JS.toLocaleTimeString_enGB d) in Hall.
  apply String.eqb_eq in Hall. exact Hall.
Qed.

(** For a clock reading within the day, the en-GB time is five characters
    with a colon in the middle: two digits of hours, two of minutes. *)
Lemma toLocaleTimeString_enGB_shape (d : JS.Date.t) :
  (0 <= JS.Date.getHours d < 24)%Z ->
  (0 <= JS.Date.getMinutes d < 60)%Z ->
  String.length (JS.toLocaleTimeString_enGB d) = 5%nat /\
  String.get 2 (JS.toLocaleTimeString_enGB d) = Some ":"%char.
Proof.
  intros Hh Hm.
  set (shape := fun h m : Z =>
    let s := JS.toLocaleTimeString_enGB (JS.Date.mk 0 0 0 h m) in
    (String.length s =? 5)%nat &&
    match String.get 2 s with
    | Some c => Ascii.eqb c ":"%char
    | None => false
    end).
  assert (Hall : forallb (fun h => forallb (shape h) (seqZ 0 60)) (seqZ 0 24) = true)
    by (vm_compute; reflexivity).
  rewrite forallb_forall in Hall.
  specialize (Hall (JS.Date.getHours d)).
  rewrite forallb_forall in Hall.
  specialize (Hall ltac:(apply list_elem_of_In, elem_of_seqZ; lia) (JS.Date.getMinutes d)
                   ltac:(apply list_elem_of_In, elem_of_seqZ; lia)).
  unfold shape in Hall. cbv zeta in Hall.
  change (JS.toLocaleTimeString_enGB
            (JS.Date.mk 0 0 0 (JS.Date.getHours d) (JS.Date.getMinutes d)))
    with (JS.toLocaleTimeString_enGB d) in Hall.
  apply andb_prop in Hall as [Hlen Hcolon].
  split; [apply Nat.eqb_eq; exact Hlen |].
  destruct (String.get 2 (JS.toLocaleTimeString_enGB d)) as [c |]; [| discriminate].
  apply Ascii.eqb_eq in Hcolon. rewrite Hcolon. reflexivity.
Qed.

(** C6: adding a pending meal entry that has a source and a blank time puts
    one new entry at index 0 of [foodEntries], the old entries following in
    order (so the length grows by exactly 1); for a clock reading within the
    day the new entry's time is the wall-clock time in 24-hour HH:MM, that
    is, the two digits of the clock's hour of the day, a colon and the two
    digits of its minute; its other members are the pending ones and its id
    the fresh token; the staging value is reset to its blank defaults. *)
Theorem savePendingEntry_prepends (now : JS.Date.t) (token : string) (st : AppState) :
  FoodEntry.source (pendingEntry st) <> "" ->
  FoodEntry.time (pendingEntry st) = "" ->
  let st' := savePendingEntry now token st in
  let newEntry :=
    {| FoodEntry.id := token;
       FoodEntry.source := FoodEntry.source (pendingEntry st);
       FoodEntry.time := JS.toLocaleTimeString_enGB now;
       FoodEntry.serving := FoodEntry.serving (pendingEntry st);
       FoodEntry.calories := FoodEntry.calories (pendingEntry st);
       FoodEntry.hungerBefore := FoodEntry.hungerBefore (pendingEntry st);
       FoodEntry.hungerAfter := FoodEntry.hungerAfter (pendingEntry st) |} in
  DailyLog.foodEntries (log st') = newEntry :: DailyLog.foodEntries (log st) /\
  length (DailyLog.foodEntries (log st')) = S (length (DailyLog.foodEntries (log st))) /\
  DailyLog.foodEntries (log st') !! 0%nat = Some newEntry /\
  pendingEntry st' = blankPendingEntry /\
  ((0 <= JS.Date.getHours now < 24)%Z -> (0 <= JS.Date.getMinutes now < 60)%Z ->
   (FoodEntry.time <$> DailyLog.foodEntries (log st') !! 0%nat)
   = Some (HHMM_24h (JS.Date.getHours now) (JS.Date.getMinutes now)) /\
   String.length (FoodEntry.time newEntry) = 5%nat /\
   String.get 2 (FoodEntry.time newEntry) = Some ":"%char).
Proof.
  intros Hsource Htime. cbv zeta. unfold savePendingEntry.
  rewrite (truthy_nonempty _ Hsource), Htime, truthy_empty. simpl.
  repeat split; try (apply toLocaleTimeString_enGB_shape; assumption).
  f_equal. apply toLocaleTimeString_enGB_is_HHMM; assumption.
Qed.

(** The spec's end-to-end example: eggs, 140 calories, hunger 6 then 3, no
    time given, added at 09:05; and the same eggs added at 18:40 to a day
    that has a meal already. *)
Lemma savePendingEntry_prepends_witness :
  DailyLog.foodEntries (log (savePendingEntry Sample.morning "k3j9x2a1b" Sample.with_eggs_pending))
  = [ {| FoodEntry.id := "k3j9x2a1b"; FoodEntry.source := "Eggs"; FoodEntry.time := "09:05";
         FoodEntry.serving := ""; FoodEntry.calories := 140;
         FoodEntry.hungerBefore := 6; FoodEntry.hungerAfter := 3 |} ] /\
  pendingEntry (savePendingEntry Sample.morning "k3j9x2a1b" Sample.with_eggs_pending)
  = blankPendingEntry /\
  (FoodEntry.time <$>
     DailyLog.foodEntries
       (log (savePendingEntry Scenario.evening "q7w1e5r9t" Scenario.eggs_after_toast))
     !! 0%nat)
  = Some "18:40" /\
  length (DailyLog.foodEntries
            (log (savePendingEntry Scenario.evening "q7w1e5r9t" Scenario.eggs_after_toast)))
  = 2%nat.
Proof.
  assert (Hsource : FoodEntry.source (pendingEntry Sample.with_eggs_pending) <> "")
    by (simpl; discriminate).
  assert (Htime : FoodEntry.time (pendingEntry Sample.with_eggs_pending) = "")
    by reflexivity.
  destruct (savePendingEntry_prepends Sample.morning "k3j9x2a1b"
              Sample.with_eggs_pending Hsource Htime) as (Hentries & _ & _ & Hpending & _).
  assert (Hsource' : FoodEntry.source (pendingEntry Scenario.eggs_after_toast) <> "")
    by (simpl; discriminate).
  assert (Htime' : FoodEntry.time (pendingEntry Scenario.eggs_after_toast) = "")
    by reflexivity.
  destruct (savePendingEntry_prepends Scenario.evening "q7w1e5r9t"
              Scenario.eggs_after_toast Hsource' Htime') as (_ & Hlength & _ & _ & Hclock).
  destruct Hclock as (Hevening & _); [simpl; lia | simpl; lia |].
  split; [exact Hentries |]. split; [exact Hpending |].
  split; [exact Hevening | exact Hlength].
Defined.

(** C7: with the water count at [w], clicking pip [i] sets the count to [i]
    when [w] is [i + 1] and to [i + 1] otherwise; from a count of 3, pip 2
    gives 2 and pip 5 gives 6. *)
Theorem clickWaterPip_toggles (w i : Z) (st : AppState) :
  DailyLog.waterIntake (log (clickWaterPip i (setLog (with_waterIntake w) st)))
  = (if decide (w = i + 1) then i else i + 1)%Z /\
  DailyLog.waterIntake (log (clickWaterPip 2 (setLog (with_waterIntake 3) st))) = 2%Z /\
  DailyLog.waterIntake (log (clickWaterPip 5 (setLog (with_waterIntake 3) st))) = 6%Z.
Proof.
  split; [| split; reflexivity].
  unfold clickWaterPip. simpl.
  destruct (decide (w = i + 1)%Z) as [Heq | Hne].
  - rewrite (proj2 (Z.eqb_eq _ _)) by lia. reflexivity.
  - rewrite (proj2 (Z.eqb_neq _ _)) by lia. reflexivity.
Qed.

(** C8: a handler called with an empty required label (the source of a meal
    or misc entry, the type of an activity) returns the state it was given:
    no sequence, no staging value and nothing else changes. *)
Theorem save_without_label_is_noop (now : JS.Date.t) (token : string) (st : AppState) :
  (FoodEntry.source (pendingEntry st) = "" -> savePendingEntry now token st = st) /\
  (FoodEntry.source (pendingMisc st) = "" -> savePendingMisc now token st = st) /\
  (ActivityEntry.type (pendingActivity st) = "" -> savePendingActivity token st = st).
Proof.
  repeat split; intros Hlabel.
  - unfold savePendingEntry. rewrite Hlabel. reflexivity.
  - unfold savePendingMisc. rewrite Hlabel. reflexivity.
  - unfold savePendingActivity. rewrite Hlabel. reflexivity.
Qed.

(** A loaded journal with nothing typed in any of the three forms. *)
Lemma save_without_label_is_noop_witness :
  savePendingEntry Sample.morning "k3j9x2a1b" Sample.loaded = Sample.loaded /\
  savePendingMisc Sample.morning "k3j9x2a1b" Sample.loaded = Sample.loaded /\
  savePendingActivity "k3j9x2a1b" Sample.loaded = Sample.loaded.
Proof.
  destruct (save_without_label_is_noop Sample.morning "k3j9x2a1b" Sample.loaded)
    as (Hmeal & Hmisc & Hactivity).
  split; [apply Hmeal; reflexivity |].
  split; [apply Hmisc; reflexivity | apply Hactivity; reflexivity].
Defined.

(** Setting one member leaves every other member as it was. *)
Lemma with_foodEntries_frame (v : list FoodEntry) (prev : DailyLog) (f : Field) :
  f <> F_foodEntries -> same_at f prev (with_foodEntries v prev).
Proof. destruct f; intros Hf; try reflexivity; contradiction. Qed.

Lemma with_miscEntries_frame (v : list MiscEntry) (prev : DailyLog) (f : Field) :
  f <> F_miscEntries -> same_at f prev (with_miscEntries v prev).
Proof. destruct f; intros Hf; try reflexivity; contradiction. Qed.

Lemma with_activities_frame (v : list ActivityEntry) (prev : DailyLog) (f : Field) :
  f <> F_activities -> same_at f prev (with_activities v prev).
Proof. destruct f; intros Hf; try reflexivity; contradiction. Qed.

Lemma same_at_refl (f : Field) (a : DailyLog) : same_at f a a.
Proof. destruct f; reflexivity. Qed.

Create HintDb frame.
#[local] Hint Resolve with_foodEntries_frame with_miscEntries_frame
  with_activities_frame same_at_refl : frame.

(** C10: adding or removing a meal entry changes no member of the current
    record other than [foodEntries]; adding or removing a misc entry none
    other than [miscEntries]; adding or removing an activity none other than
    [activities].  The date, the scalar members and the other sequences
    ([fatEntries], [vegetableEntries] and [supplements] among them) keep
    their values. *)
Theorem entry_operations_frame
    (now : JS.Date.t) (token id : string) (st : AppState) (f : Field) :
  (f <> F_foodEntries ->
     same_at f (log st) (log (savePendingEntry now token st)) /\
     same_at f (log st) (log (removeFoodEntry id st))) /\
  (f <> F_miscEntries ->
     same_at f (log st) (log (savePendingMisc now token st)) /\
     same_at f (log st) (log (removeMiscEntry id st))) /\
  (f <> F_activities ->
     same_at f (log st) (log (savePendingActivity token st)) /\
     same_at f (log st) (log (removeActivity id st))).
Proof.
  repeat split.
  - unfold savePendingEntry.
    destruct (negb (JS.truthy (FoodEntry.source (pendingEntry st)))); simpl;
      auto with frame.
  - unfold removeFoodEntry; simpl; auto with frame.
  - unfold savePendingMisc.
    destruct (negb (JS.truthy (FoodEntry.source (pendingMisc st)))); simpl;
      auto with frame.
  - unfold removeMiscEntry; simpl; auto with frame.
  - unfold savePendingActivity.
    destruct (negb (JS.truthy (ActivityEntry.type (pendingActivity st)))); simpl;
      auto with frame.
  - unfold removeActivity; simpl; auto with frame.
Qed.

(** Adding the eggs leaves the water count, and removing an activity leaves
    the meals, as they were. *)
Lemma entry_operations_frame_witness :
  same_at F_waterIntake (log Sample.with_eggs_pending)
    (log (savePendingEntry Sample.morning "k3j9x2a1b" Sample.with_eggs_pending)) /\
  same_at F_miscEntries (log Sample.with_eggs_pending)
    (log (removeFoodEntry "k3j9x2a1b" Sample.with_eggs_pending)) /\
  same_at F_foodEntries (log Sample.with_eggs_pending)
    (log (removeActivity "k3j9x2a1b" Sample.with_eggs_pending)).
Proof.
  split; [| split].
  - apply (entry_operations_frame Sample.morning "k3j9x2a1b" "k3j9x2a1b"
             Sample.with_eggs_pending F_waterIntake). discriminate.
  - apply (entry_operations_frame Sample.morning "k3j9x2a1b" "k3j9x2a1b"
             Sample.with_eggs_pending F_miscEntries). discriminate.
  - apply (entry_operations_frame Sample.morning "k3j9x2a1b" "k3j9x2a1b"
             Sample.with_eggs_pending F_foodEntries). discriminate.
Defined.

(** ** The history sort *)

Section SortFacts.
Context {A : Type} (comparefn : A -> A -> Z).
Hypothesis comparefn_total : forall a b, (comparefn a b <= 0)%Z \/ (comparefn b a <= 0)%Z.
Hypothesis comparefn_trans :
  forall a b c, (comparefn a b <= 0)%Z -> (comparefn b c <= 0)%Z -> (comparefn a c <= 0)%Z.

Lemma sort_insert_Permutation (x : A) (l : list A) :
  JS.sort_insert comparefn x l ≡ₚ x :: l.
Proof.
  induction l as [| y l IH]; simpl; [reflexivity |].
  destruct (comparefn x y <=? 0)%Z; [reflexivity |].
  rewrite IH. apply perm_swap.
Qed.

Lemma Array_sort_Permutation (l : list A) : JS.Array_sort comparefn l ≡ₚ l.
Proof.
  induction l as [| x l IH]; simpl; [reflexivity |].
  rewrite sort_insert_Permutation, IH. reflexivity.
Qed.

Lemma sort_insert_sorted (x : A) (l : list A) :
  StronglySorted (fun a b => (comparefn a b <= 0)%Z) l ->
  StronglySorted (fun a b => (comparefn a b <= 0)%Z) (JS.sort_insert comparefn x l).
Proof.
  induction l as [| y l IH]; intros Hsorted; simpl.
  - constructor; constructor.
  - apply StronglySorted_inv in Hsorted as [Htail Hhead].
    destruct (comparefn x y <=? 0)%Z eqn:Hxy.
    + apply Z.leb_le in Hxy.
      constructor; [constructor; assumption |].
      constructor; [exact Hxy |].
      eapply Forall_impl; [exact Hhead |].
      intros z Hyz. simpl in Hyz. eauto.
    + apply Z.leb_gt in Hxy.
      constructor; [apply IH; exact Htail |].
      rewrite sort_insert_Permutation.
      constructor; [| exact Hhead].
      destruct (comparefn_total y x) as [Hyx | Hyx]; [exact Hyx | lia].
Qed.

Lemma Array_sort_sorted (l : list A) :
  StronglySorted (fun a b => (comparefn a b <= 0)%Z) (JS.Array_sort comparefn l).
Proof.
  induction l as [| x l IH]; simpl; [constructor |].
  apply sort_insert_sorted, IH.
Qed.

End SortFacts.

(** The sample comparator is consistent. *)
Lemma codeUnitCompare_le (a b : string) :
  (Sample.codeUnitCompare a b <= 0)%Z <-> a = b \/ String_as_OT.lt a b.
Proof.
  unfold Sample.codeUnitCompare.
  destruct (String_as_OT.compare_spec a b) as [Heq | Hlt | Hgt].
  - split; [intros _; left; exact Heq | lia].
  - split; [intros _; right; exact Hlt | lia].
  - split; [lia |].
    intros [-> | Hlt].
    + exfalso. exact (StrictOrder_Irreflexive _ Hgt).
    + exfalso. exact (StrictOrder_Irreflexive _ (StrictOrder_Transitive _ _ _ Hlt Hgt)).
Qed.

Lemma codeUnitCompare_consistent : consistentComparator Sample.codeUnitCompare.
Proof.
  split.
  - intros a b. rewrite !codeUnitCompare_le.
    destruct (String_as_OT.compare_spec a b) as [Heq | Hlt | Hgt]; auto.
  - intros a b c. rewrite !codeUnitCompare_le.
    intros [-> | Hab] [-> | Hbc]; auto.
    right. exact (StrictOrder_Transitive _ _ _ Hab Hbc).
Qed.

(** ** The fold of the current record into the history *)

Section FoldFacts.
Variable localeCompare : string -> string -> Z.

Lemma foldIntoHistory_Permutation (log : DailyLog) (prev : list DailyLog) :
  foldIntoHistory localeCompare log prev
  ≡ₚ log :: filter (fun h => DailyLog.date h <> DailyLog.date log) prev.
Proof. unfold foldIntoHistory. apply Array_sort_Permutation. Qed.

Lemma foldIntoHistory_sorted (log : DailyLog) (prev : list DailyLog) :
  consistentComparator localeCompare ->
  sortedDescending localeCompare (foldIntoHistory localeCompare log prev).
Proof.
  intros [Htotal Htrans]. unfold sortedDescending, foldIntoHistory.
  apply (Array_sort_sorted (byDateDescending localeCompare)).
  - intros a b. unfold byDateDescending.
    destruct (Htotal (DailyLog.date b) (DailyLog.date a)); auto.
  - intros a b c. unfold byDateDescending. eauto.
Qed.

Lemma foldIntoHistory_holds_log_once (log : DailyLog) (prev : list DailyLog) :
  filter (fun h => DailyLog.date h = DailyLog.date log)
         (foldIntoHistory localeCompare log prev) = [log].
Proof.
  apply Permutation_singleton_r.
  rewrite foldIntoHistory_Permutation.
  rewrite filter_cons_True by reflexivity.
  apply Permutation_skip.
  induction prev as [| h prev IH]; [reflexivity |].
  destruct (decide (DailyLog.date h = DailyLog.date log)) as [Heq | Hne].
  - rewrite (filter_cons_False _ h prev) by (intros Hkeep; exact (Hkeep Heq)).
    exact IH.
  - rewrite (filter_cons_True _ h prev) by exact Hne.
    rewrite filter_cons_False by exact Hne.
    exact IH.
Qed.

Lemma foldIntoHistory_uniqueDates (log : DailyLog) (prev : list DailyLog) :
  uniqueDates prev -> uniqueDates (foldIntoHistory localeCompare log prev).
Proof.
  unfold uniqueDates. intros Hprev.
  rewrite foldIntoHistory_Permutation. rewrite fmap_cons.
  apply NoDup_cons. split.
  - intros Hin. apply list_elem_of_fmap in Hin as (h & Hdate & Hh).
    apply list_elem_of_filter in Hh as [Hne _]. congruence.
  - apply (sublist_NoDup _ _ Hprev).
    apply fmap_sublist, sublist_filter.
Qed.

End FoldFacts.

(** ** Running effects *)

Lemma run_bind {A B : Type} (m : Effect A) (k : A -> Effect B) (w : World) (a : A) :
  fst (m w) = Normal a -> (m ≫= k) w = k a (snd (m w)).
Proof.
  unfold mbind, Effect_bind. destruct (m w) as [[a' |] w']; simpl; intros Hm.
  - injection Hm as ->. reflexivity.
  - discriminate.
Qed.

Lemma exec_bind {A B : Type} (m : Effect A) (k : A -> Effect B) (w : World) (a : A) :
  fst (m w) = Normal a -> exec (m ≫= k) w = exec (k a) (exec m w).
Proof. intros Hm. unfold exec. rewrite (run_bind m k w a Hm). reflexivity. Qed.

Lemma keeps_loaded_bind {A B : Type} (m : Effect A) (k : A -> Effect B) :
  keeps_loaded m -> (forall a, keeps_loaded (k a)) -> keeps_loaded (m ≫= k).
Proof.
  intros Hm Hk w Hloaded.
  destruct (Hm w Hloaded) as (a & Hdone & Hloaded').
  destruct (Hk a _ Hloaded') as (b & Hdone' & Hloaded'').
  exists b. rewrite (run_bind m k w a Hdone), (exec_bind m k w a Hdone).
  split; assumption.
Qed.

Lemma keeps_loaded_getState : keeps_loaded getState.
Proof. intros w Hloaded. exists (app w). split; [reflexivity | exact Hloaded]. Qed.

Ltac run_effect :=
  unfold exec, mbind, mret, Effect_bind, Effect_ret, getState, update, getItem, setItem,
    console_write, throw, try_catch, parse_or_throw in *; simpl in *.

Section ControllerFacts.
Variable localeCompare : string -> string -> Z.
Variable JSON_stringify_log : DailyLog -> string.
Variable JSON_stringify_history : list DailyLog -> string.
Variable JSON_parse_log : string -> option PartialLog.
Variable JSON_parse_history : string -> option (list DailyLog).

(** Before the load has completed, the fold, persist and date-selection
    effects do nothing. *)
Lemma effects_wait_for_load (now : JS.Date.t) (r : AppState) (w : World) :
  isLoaded r = false ->
  saveLogToHistoryEffect localeCompare JSON_stringify_log now r w = (Normal tt, w) /\
  persistHistoryEffect JSON_stringify_history r w = (Normal tt, w) /\
  dateSelectionEffect r w = (Normal tt, w).
Proof.
  intros Hwaiting.
  unfold saveLogToHistoryEffect, persistHistoryEffect, dateSelectionEffect.
  rewrite Hwaiting. repeat split.
Qed.

(** What the fold effect does once the journal is loaded: it folds the
    render's record into the pending history and, when that record is
    today's, overwrites the draft slot with it. *)
Lemma saveLogToHistoryEffect_run (now : JS.Date.t) (r : AppState) (w : World) :
  isLoaded r = true ->
  saveLogToHistoryEffect localeCompare JSON_stringify_log now r w
  = (Normal tt,
     {| app := setHistory (foldIntoHistory localeCompare (log r)) (app w);
        localStorage :=
          if decide (DailyLog.date (log r) = getLocalDateString now)
          then <[LOG_KEY := JSON_stringify_log (log r)]> (localStorage w)
          else localStorage w;
        console := console w |}).
Proof.
  intros Hloaded. unfold saveLogToHistoryEffect. rewrite Hloaded. simpl.
  destruct (decide (DailyLog.date (log r) = getLocalDateString now)); reflexivity.
Qed.

(** The persist effect completes and leaves the component state alone. *)
Lemma persistHistoryEffect_app (r : AppState) (w : World) :
  fst (persistHistoryEffect JSON_stringify_history r w) = Normal tt /\
  app (exec (persistHistoryEffect JSON_stringify_history r) w) = app w.
Proof.
  unfold persistHistoryEffect.
  destruct (negb (isLoaded r)); [split; reflexivity |].
  destruct (length (history r) =? 0)%nat.
  - run_effect.
    destruct (JS.truthy_item (localStorage w !! HISTORY_KEY) &&
              negb (bool_decide (localStorage w !! HISTORY_KEY = Some "[]")));
      split; reflexivity.
  - split; reflexivity.
Qed.

(** A mutation of a loaded journal completes, sets the record and folds it
    into the history. *)
Lemma mutate_app (now : JS.Date.t) (f : DailyLog -> DailyLog) (w : World) :
  isLoaded (app w) = true ->
  fst (mutate localeCompare JSON_stringify_log JSON_stringify_history now f w) = Normal tt /\
  app (exec (mutate localeCompare JSON_stringify_log JSON_stringify_history now f) w)
  = setHistory (foldIntoHistory localeCompare (f (log (app w)))) (setLog f (app w)).
Proof.
  intros Hloaded. unfold mutate, exec.
  rewrite (run_bind (update (setLog f)) _ w tt) by reflexivity.
  rewrite (run_bind getState _ _ _) by reflexivity.
  rewrite (run_bind (saveLogToHistoryEffect _ _ _ _) _ _ tt)
    by (rewrite saveLogToHistoryEffect_run by exact Hloaded; reflexivity).
  rewrite saveLogToHistoryEffect_run by exact Hloaded.
  rewrite (run_bind getState _ _ _) by reflexivity.
  simpl.
  match goal with
  | |- context [persistHistoryEffect _ ?r ?w'] =>
      destruct (persistHistoryEffect_app r w') as [Hdone Happ]
  end.
  split; [exact Hdone | exact Happ].
Qed.

(** One mutation of a loaded journal sets the current record and replaces
    the history by the fold of that record into it: the
    records of other date keys and the current record, rearranged so that
    the collection is sorted descending by date key.  The result holds the
    current record and no other record of its date key; it holds at most
    one record per date key if the history before did. *)
Theorem history_after_mutation (now : JS.Date.t) (f : DailyLog -> DailyLog) (w : World) :
  consistentComparator localeCompare ->
  isLoaded (app w) = true ->
  let w' := exec (mutate localeCompare JSON_stringify_log JSON_stringify_history now f) w in
  log (app w') = f (log (app w)) /\
  history (app w') = foldIntoHistory localeCompare (log (app w')) (history (app w)) /\
  history (app w')
    ≡ₚ log (app w')
       :: filter (fun h => DailyLog.date h <> DailyLog.date (log (app w'))) (history (app w)) /\
  sortedDescending localeCompare (history (app w')) /\
  filter (fun h => DailyLog.date h = DailyLog.date (log (app w'))) (history (app w'))
    = [log (app w')] /\
  (uniqueDates (history (app w)) -> uniqueDates (history (app w'))).
Proof.
  intros Hcmp Hloaded. cbv zeta.
  destruct (mutate_app now f w Hloaded) as [_ ->]. simpl.
  split; [reflexivity |].
  split; [reflexivity |].
  split; [apply foldIntoHistory_Permutation |].
  split; [apply foldIntoHistory_sorted; exact Hcmp |].
  split; [apply foldIntoHistory_holds_log_once |].
  apply foldIntoHistory_uniqueDates.
Qed.

(** Over any sequence of mutations of a loaded journal, the history keeps
    having at most one record per date key if it had so before, and is
    sorted once a mutation has run. *)
Lemma mutations_uniqueDates (steps : list (JS.Date.t * (DailyLog -> DailyLog))) (w : World) :
  isLoaded (app w) = true ->
  uniqueDates (history (app w)) ->
  uniqueDates
    (history (app (exec (mutations localeCompare JSON_stringify_log
                           JSON_stringify_history steps) w))).
Proof.
  revert w. induction steps as [| [now f] rest IH]; intros w Hloaded Hunique; simpl.
  - exact Hunique.
  - destruct (mutate_app now f w Hloaded) as [Hdone Happ].
    rewrite (exec_bind _ _ w tt Hdone).
    apply IH; rewrite Happ; [exact Hloaded |].
    apply foldIntoHistory_uniqueDates. exact Hunique.
Qed.

Lemma mutations_sorted (steps : list (JS.Date.t * (DailyLog -> DailyLog))) (w : World) :
  consistentComparator localeCompare ->
  isLoaded (app w) = true ->
  steps <> [] \/ sortedDescending localeCompare (history (app w)) ->
  sortedDescending localeCompare
    (history (app (exec (mutations localeCompare JSON_stringify_log
                           JSON_stringify_history steps) w))).
Proof.
  intros Hcmp. revert w.
  induction steps as [| [now f] rest IH]; intros w Hloaded Hstart; simpl.
  - destruct Hstart as [Hne | Hsorted]; [contradiction | exact Hsorted].
  - destruct (mutate_app now f w Hloaded) as [Hdone Happ].
    rewrite (exec_bind _ _ w tt Hdone).
    apply IH; rewrite Happ; [exact Hloaded |].
    right. apply foldIntoHistory_sorted. exact Hcmp.
Qed.

(** C3: once the journal is loaded, the persist effect leaves the storage
    as it is, and prints a warning, when the render's history is empty while
    the history slot holds a text other than the empty one and [[]]; when
    the history is not empty, or the slot is missing, empty or [[]], it
    overwrites the slot with the whole serialized history and touches no
    other slot. *)
Theorem persistHistoryEffect_guard (r : AppState) (w : World) :
  isLoaded r = true ->
  let w' := exec (persistHistoryEffect JSON_stringify_history r) w in
  (forall raw,
     history r = [] -> historySlot w = Some raw -> raw <> "" -> raw <> "[]" ->
     localStorage w' = localStorage w /\
     console w' = console w ++
       [console_warn
          "Journal: Blocked attempt to overwrite storage with empty state. History is SAFE."]) /\
  (history r <> [] \/ historySlot w = None \/ historySlot w = Some "" \/
     historySlot w = Some "[]" ->
     localStorage w' = <[HISTORY_KEY := JSON_stringify_history (history r)]> (localStorage w) /\
     console w' = console w).
Proof.
  intros Hloaded. cbv zeta. unfold persistHistoryEffect, historySlot. rewrite Hloaded. simpl.
  split.
  - intros raw Hempty Hraw Hne1 Hne2. rewrite Hempty. run_effect. rewrite Hraw. simpl.
    rewrite (truthy_nonempty raw Hne1). simpl.
    rewrite bool_decide_eq_false_2 by congruence. simpl. split; reflexivity.
  - intros Hwrite. destruct (history r) as [| h rest] eqn:Hhistory.
    + destruct Hwrite as [Hne | Hslot]; [contradiction |]. run_effect.
      destruct Hslot as [-> | [-> | ->]]; simpl; split; reflexivity.
    + simpl. split; reflexivity.
Qed.

(** The persist effect never touches the draft slot. *)
Lemma persistHistoryEffect_draftSlot (r : AppState) (w : World) :
  draftSlot (exec (persistHistoryEffect JSON_stringify_history r) w) = draftSlot w.
Proof.
  unfold persistHistoryEffect, draftSlot.
  destruct (negb (isLoaded r)); [reflexivity |].
  destruct (length (history r) =? 0)%nat; run_effect.
  - destruct (JS.truthy_item (localStorage w !! HISTORY_KEY) &&
              negb (bool_decide (localStorage w !! HISTORY_KEY = Some "[]"))); simpl.
    + reflexivity.
    + apply lookup_insert_ne. discriminate.
  - apply lookup_insert_ne. discriminate.
Qed.

(** The draft slot after a mutation of a loaded journal: the serialized
    record when its date key is today's, what it was otherwise. *)
Lemma mutate_draftSlot (now : JS.Date.t) (f : DailyLog -> DailyLog) (w : World) :
  isLoaded (app w) = true ->
  draftSlot (exec (mutate localeCompare JSON_stringify_log JSON_stringify_history now f) w)
  = if decide (DailyLog.date (f (log (app w))) = getLocalDateString now)
    then Some (JSON_stringify_log (f (log (app w))))
    else draftSlot w.
Proof.
  intros Hloaded. unfold mutate.
  rewrite (exec_bind (update (setLog f)) _ w tt) by reflexivity.
  rewrite (exec_bind getState _ _ _) by reflexivity.
  rewrite (exec_bind (saveLogToHistoryEffect _ _ _ _) _ _ tt)
    by (rewrite saveLogToHistoryEffect_run by exact Hloaded; reflexivity).
  rewrite (exec_bind getState _ _ _) by reflexivity.
  rewrite persistHistoryEffect_draftSlot.
  unfold exec, getState, update. cbn [snd app].
  rewrite saveLogToHistoryEffect_run by exact Hloaded.
  unfold draftSlot. cbn [snd localStorage log setLog].
  destruct (decide (DailyLog.date (f (log (app w))) = getLocalDateString now));
    [apply lookup_insert_eq | reflexivity].
Qed.

(** A sequence of mutations of a loaded journal completes and leaves it
    loaded. *)
Lemma mutations_complete (steps : list (JS.Date.t * (DailyLog -> DailyLog))) (w : World) :
  isLoaded (app w) = true ->
  fst (mutations localeCompare JSON_stringify_log JSON_stringify_history steps w) = Normal tt /\
  isLoaded (app (exec (mutations localeCompare JSON_stringify_log JSON_stringify_history steps) w))
  = true.
Proof.
  revert w. induction steps as [| [now f] rest IH]; intros w Hloaded; simpl.
  - split; [reflexivity | exact Hloaded].
  - destruct (mutate_app now f w Hloaded) as [Hdone Happ].
    assert (Hloaded' :
      isLoaded (app (exec (mutate localeCompare JSON_stringify_log JSON_stringify_history
                             now f) w)) = true)
      by (rewrite Happ; exact Hloaded).
    rewrite (run_bind _ _ w tt Hdone), (exec_bind _ _ w tt Hdone).
    exact (IH _ Hloaded').
Qed.

Lemma mutations_app (steps more : list (JS.Date.t * (DailyLog -> DailyLog))) (w : World) :
  isLoaded (app w) = true ->
  exec (mutations localeCompare JSON_stringify_log JSON_stringify_history (steps ++ more)) w
  = exec (mutations localeCompare JSON_stringify_log JSON_stringify_history more)
         (exec (mutations localeCompare JSON_stringify_log JSON_stringify_history steps) w).
Proof.
  revert w. induction steps as [| [now f] rest IH]; intros w Hloaded; simpl.
  - reflexivity.
  - destruct (mutate_app now f w Hloaded) as [Hdone Happ].
    rewrite !(exec_bind _ _ w tt Hdone).
    apply IH. rewrite Happ. exact Hloaded.
Qed.

Lemma mutations_snoc (steps : list (JS.Date.t * (DailyLog -> DailyLog)))
    (now : JS.Date.t) (f : DailyLog -> DailyLog) (w : World) :
  isLoaded (app w) = true ->
  exec (mutations localeCompare JSON_stringify_log JSON_stringify_history
          (steps ++ [(now, f)])) w
  = exec (mutate localeCompare JSON_stringify_log JSON_stringify_history now f)
         (exec (mutations localeCompare JSON_stringify_log JSON_stringify_history steps) w).
Proof.
  intros Hloaded. rewrite (mutations_app steps [(now, f)] w Hloaded). simpl.
  destruct (mutations_complete steps w Hloaded) as [_ Hloaded'].
  destruct (mutate_app now f _ Hloaded') as [Hdone _].
  rewrite (exec_bind _ _ _ tt Hdone). reflexivity.
Qed.

(** The draft slot after any sequence of mutations holds what it held
    before, or a record whose date key was today's when it was written. *)
Lemma mutations_draftSlot (steps : list (JS.Date.t * (DailyLog -> DailyLog))) (w : World) :
  isLoaded (app w) = true ->
  draftSlot (exec (mutations localeCompare JSON_stringify_log JSON_stringify_history steps) w)
    = draftSlot w \/
  exists now r,
    DailyLog.date r = getLocalDateString now /\
    draftSlot (exec (mutations localeCompare JSON_stringify_log JSON_stringify_history steps) w)
      = Some (JSON_stringify_log r).
Proof.
  revert w. induction steps as [| [now f] rest IH]; intros w Hloaded; simpl.
  - left. reflexivity.
  - destruct (mutate_app now f w Hloaded) as [Hdone Happ].
    rewrite (exec_bind _ _ w tt Hdone).
    destruct (IH (exec (mutate localeCompare JSON_stringify_log JSON_stringify_history
                          now f) w)) as [Hkept | Hwritten].
    + rewrite Happ. exact Hloaded.
    + rewrite Hkept, (mutate_draftSlot now f w Hloaded).
      destruct (decide (DailyLog.date (f (log (app w))) = getLocalDateString now)) as [Htoday | _].
      * right. exists now, (f (log (app w))). split; [exact Htoday | reflexivity].
      * left. reflexivity.
    + right. exact Hwritten.
Qed.

(** C4, as the code has it: after any sequence of mutations of a loaded
    journal, one more mutation overwrites the draft slot with the current
    record when that record's date key is today's (the date read when the
    effect runs), and leaves the slot as it was when it is not: records of
    other dates are never written, and the slot is never emptied.  So the
    slot holds what it held before the sequence, or a record whose date key
    was today's when it was written. *)
Theorem draft_slot_after_mutations
    (steps : list (JS.Date.t * (DailyLog -> DailyLog)))
    (now : JS.Date.t) (f : DailyLog -> DailyLog) (w : World) :
  isLoaded (app w) = true ->
  let before :=
    exec (mutations localeCompare JSON_stringify_log JSON_stringify_history steps) w in
  let after :=
    exec (mutations localeCompare JSON_stringify_log JSON_stringify_history
            (steps ++ [(now, f)])) w in
  log (app after) = f (log (app before)) /\
  (DailyLog.date (log (app after)) = getLocalDateString now ->
     draftSlot after = Some (JSON_stringify_log (log (app after)))) /\
  (DailyLog.date (log (app after)) <> getLocalDateString now ->
     draftSlot after = draftSlot before) /\
  (draftSlot after = draftSlot w \/
   exists now' r,
     DailyLog.date r = getLocalDateString now' /\
     draftSlot after = Some (JSON_stringify_log r)).
Proof.
  intros Hloaded. cbv zeta.
  destruct (mutations_complete steps w Hloaded) as [_ Hloaded'].
  rewrite (mutations_snoc steps now f w Hloaded).
  destruct (mutate_app now f _ Hloaded') as [_ Happ].
  rewrite Happ, (mutate_draftSlot now f _ Hloaded'). cbn [log setHistory setLog].
  split; [reflexivity |].
  split; [intros Htoday; rewrite decide_True by exact Htoday; reflexivity |].
  split; [intros Hother; rewrite decide_False by exact Hother; reflexivity |].
  rewrite <- (mutate_draftSlot now f _ Hloaded'), <- (mutations_snoc steps now f w Hloaded).
  apply mutations_draftSlot. exact Hloaded.
Qed.

(** ** The initial load *)

(** The record the load adopts, given what the two slots read as. *)
Lemma initialLoadEffect_run (now : JS.Date.t) (w : World)
    (stored : option (list DailyLog)) (draft : option PartialLog) :
  slotReads JSON_parse_history (historySlot w) stored ->
  slotReads JSON_parse_log (draftSlot w) draft ->
  let today := getLocalDateString now in
  let initialLog :=
    match draft with
    | Some parsed =>
        if decide (PartialLog.date parsed = Some today)
        then spread (getInitialLog today) parsed
        else getInitialLog today
    | None => getInitialLog today
    end in
  let adopted :=
    default initialLog
      (List.find (fun h => bool_decide (DailyLog.date h = today)) (default [] stored)) in
  initialLoadEffect JSON_parse_log JSON_parse_history now w
  = (Normal tt,
     {| app :=
          setIsLoaded true
            (setLog (fun _ => adopted)
               (match stored with
                | Some parsed => setHistory (fun _ => parsed) (app w)
                | None => app w
                end));
        localStorage := localStorage w;
        console := console w ++ [console_log "App: Initializing v3.0..."] |}).
Proof.
  unfold slotReads, historySlot, draftSlot. intros Hhistory Hdraft. cbv zeta.
  unfold initialLoadEffect. run_effect.
  destruct (JS.truthy_item (localStorage w !! HISTORY_KEY)) eqn:Hh.
  - destruct Hhistory as [[parsed ->] Hparse].
    destruct (localStorage w !! HISTORY_KEY) as [text |]; [| discriminate].
    simpl in Hparse. simpl. rewrite Hparse. simpl.
    destruct (JS.truthy_item (localStorage w !! LOG_KEY)) eqn:Hl.
    + destruct Hdraft as [[p ->] Hp].
      destruct (localStorage w !! LOG_KEY) as [text' |]; [| discriminate].
      simpl in Hp. simpl. rewrite Hp. simpl.
      destruct (decide (PartialLog.date p = Some (getLocalDateString now))); simpl;
        destruct (List.find _ parsed); reflexivity.
    + rewrite Hdraft. simpl. destruct (List.find _ parsed); reflexivity.
  - rewrite Hhistory. simpl.
    destruct (JS.truthy_item (localStorage w !! LOG_KEY)) eqn:Hl.
    + destruct Hdraft as [[p ->] Hp].
      destruct (localStorage w !! LOG_KEY) as [text' |]; [| discriminate].
      simpl in Hp. simpl. rewrite Hp. simpl.
      destruct (decide (PartialLog.date p = Some (getLocalDateString now))); reflexivity.
    + rewrite Hdraft. reflexivity.
Qed.

(** The first record of a given date is the one [find] returns. *)
Lemma find_first_of_date (today : string) (before after : list DailyLog) (e : DailyLog) :
  Forall (fun h => DailyLog.date h <> today) before ->
  DailyLog.date e = today ->
  List.find (fun h => bool_decide (DailyLog.date h = today)) (before ++ e :: after) = Some e.
Proof.
  intros Hbefore He. induction Hbefore as [| h before Hh _ IH]; simpl.
  - rewrite bool_decide_eq_true_2 by exact He. reflexivity.
  - rewrite bool_decide_eq_false_2 by exact Hh. exact IH.
Qed.

Lemma find_no_record_of_date (today : string) (l : list DailyLog) :
  Forall (fun h => DailyLog.date h <> today) l ->
  List.find (fun h => bool_decide (DailyLog.date h = today)) l = None.
Proof.
  intros Hl. induction Hl as [| h l Hh _ IH]; simpl; [reflexivity |].
  rewrite bool_decide_eq_false_2 by exact Hh. exact IH.
Qed.

(** The shallow merge, member by member. *)
Lemma spread_takes_members (initialLog : DailyLog) (parsed : PartialLog) (f : Field) :
  has_member f parsed = true -> taken_from f parsed (spread initialLog parsed).
Proof.
  destruct f; simpl; intros Hhas; apply bool_decide_eq_true_1 in Hhas as [v Hv];
    rewrite Hv; reflexivity.
Qed.

Lemma spread_keeps_defaults (initialLog : DailyLog) (parsed : PartialLog) (f : Field) :
  has_member f parsed = false -> same_at f initialLog (spread initialLog parsed).
Proof.
  destruct f; simpl; intros Hhas; apply bool_decide_eq_false_1 in Hhas;
    match goal with
    | H : ~ is_Some ?o |- _ => destruct o; [exfalso; apply H; eexists; reflexivity |]
    end; reflexivity.
Qed.

(** The load effect on its own, when both slots can be read: the record it
    passes to [setLog] is, in this order of precedence, the first record of
    the stored history whose date key is today's; else the draft merged over
    a fresh record for today, if the draft's date key is today's (each
    member the draft has replaces the default, each member it lacks keeps
    it); else the fresh record.  The commit after the load does not leave it
    at that, see [commitAfterLoad_rederives_record]. *)
Theorem initial_load_precedence (now : JS.Date.t) (w : World)
    (stored : option (list DailyLog)) (draft : option PartialLog) :
  slotReads JSON_parse_history (historySlot w) stored ->
  slotReads JSON_parse_log (draftSlot w) draft ->
  let today := getLocalDateString now in
  let w' := exec (initialLoadEffect JSON_parse_log JSON_parse_history now) w in
  isLoaded (app w') = true /\
  history (app w') = default (history (app w)) stored /\
  (forall before e after,
     stored = Some (before ++ e :: after) ->
     Forall (fun h => DailyLog.date h <> today) before ->
     DailyLog.date e = today ->
     log (app w') = e) /\
  (forall parsed,
     Forall (fun h => DailyLog.date h <> today) (default [] stored) ->
     draft = Some parsed ->
     PartialLog.date parsed = Some today ->
     log (app w') = spread (getInitialLog today) parsed /\
     (forall f, has_member f parsed = true -> taken_from f parsed (log (app w'))) /\
     (forall f, has_member f parsed = false ->
                same_at f (getInitialLog today) (log (app w')))) /\
  (Forall (fun h => DailyLog.date h <> today) (default [] stored) ->
   draft = None \/ (exists parsed, draft = Some parsed /\ PartialLog.date parsed <> Some today) ->
   log (app w') = getInitialLog today).
Proof.
  intros Hhistory Hdraft. cbv zeta. unfold exec.
  rewrite (initialLoadEffect_run now w stored draft Hhistory Hdraft). cbn [snd app].
  split; [reflexivity |].
  split; [destruct stored; reflexivity |].
  split; [| split].
  - intros before e after -> Hbefore He. cbn [log setIsLoaded setLog default from_option id].
    rewrite (find_first_of_date _ before after e Hbefore He). reflexivity.
  - intros parsed Hnone -> Hdate. cbn [log setIsLoaded setLog].
    rewrite (find_no_record_of_date _ _ Hnone), decide_True by exact Hdate.
    cbn [default from_option id].
    split; [reflexivity |].
    split; intros f Hf; [apply spread_takes_members | apply spread_keeps_defaults]; exact Hf.
  - intros Hnone Hnodraft. cbn [log setIsLoaded setLog].
    rewrite (find_no_record_of_date _ _ Hnone). cbn [default from_option id].
    destruct Hnodraft as [-> | (parsed & -> & Hdate)]; [reflexivity |].
    rewrite decide_False by exact Hdate. reflexivity.
Qed.

(** The load when the history text does not parse. *)
Lemma initialLoadEffect_run_bad_history (now : JS.Date.t) (w : World) :
  slotMalformed JSON_parse_history (historySlot w) ->
  initialLoadEffect JSON_parse_log JSON_parse_history now w
  = (Normal tt,
     {| app := setIsLoaded true (app w);
        localStorage := localStorage w;
        console := console w ++ [console_log "App: Initializing v3.0...";
                                 console_error "Storage Recovery failed"] |}).
Proof.
  unfold slotMalformed, historySlot. intros (text & Hslot & Hne & Hparse).
  unfold initialLoadEffect. run_effect.
  rewrite Hslot. simpl. rewrite (truthy_nonempty text Hne), Hparse. simpl.
  rewrite <- app_assoc. reflexivity.
Qed.

(** The load when the history slot can be read and the draft text does not
    parse. *)
Lemma initialLoadEffect_run_bad_draft (now : JS.Date.t) (w : World)
    (stored : option (list DailyLog)) :
  slotReads JSON_parse_history (historySlot w) stored ->
  slotMalformed JSON_parse_log (draftSlot w) ->
  initialLoadEffect JSON_parse_log JSON_parse_history now w
  = (Normal tt,
     {| app :=
          setIsLoaded true
            (match stored with
             | Some parsed => setHistory (fun _ => parsed) (app w)
             | None => app w
             end);
        localStorage := localStorage w;
        console := console w ++ [console_log "App: Initializing v3.0...";
                                 console_error "Storage Recovery failed"] |}).
Proof.
  unfold slotMalformed, slotReads, historySlot, draftSlot.
  intros Hhistory (text & Hslot & Hne & Hparse).
  unfold initialLoadEffect. run_effect.
  destruct (JS.truthy_item (localStorage w !! HISTORY_KEY)) eqn:Hh.
  - destruct Hhistory as [[parsed ->] Hp].
    destruct (localStorage w !! HISTORY_KEY) as [text' |]; [| discriminate].
    simpl in Hp. simpl. rewrite Hp. simpl.
    rewrite Hslot. simpl. rewrite (truthy_nonempty text Hne), Hparse. simpl.
    rewrite <- app_assoc. reflexivity.
  - rewrite Hhistory. simpl.
    rewrite Hslot. simpl. rewrite (truthy_nonempty text Hne), Hparse. simpl.
    rewrite <- app_assoc. reflexivity.
Qed.

(** Every slot is read or malformed. *)
Lemma slot_reads_or_malformed {A : Type} (parser : string -> option A) (slot : option string) :
  (exists value, slotReads parser slot value) \/ slotMalformed parser slot.
Proof.
  unfold slotReads, slotMalformed.
  destruct slot as [text |]; simpl; [| left; exists None; reflexivity].
  destruct (JS.truthy text) eqn:Htruthy; [| left; exists None; reflexivity].
  destruct (parser text) as [v |] eqn:Hparse.
  - left. exists (Some v). split; [eexists; reflexivity | reflexivity].
  - right. exists text. split; [reflexivity |]. split; [| exact Hparse].
    intros ->. discriminate.
Qed.

(** In every world the load completes, leaves the journal loaded and
    writes nothing to storage. *)
Lemma initialLoadEffect_completes (now : JS.Date.t) (w : World) :
  fst (initialLoadEffect JSON_parse_log JSON_parse_history now w) = Normal tt /\
  isLoaded (app (exec (initialLoadEffect JSON_parse_log JSON_parse_history now) w)) = true /\
  localStorage (exec (initialLoadEffect JSON_parse_log JSON_parse_history now) w)
  = localStorage w.
Proof.
  unfold exec.
  destruct (slot_reads_or_malformed JSON_parse_history (historySlot w)) as [[stored Hh] | Hh].
  - destruct (slot_reads_or_malformed JSON_parse_log (draftSlot w)) as [[draft Hl] | Hl].
    + rewrite (initialLoadEffect_run now w stored draft Hh Hl). repeat split.
    + rewrite (initialLoadEffect_run_bad_draft now w stored Hh Hl). repeat split.
  - rewrite (initialLoadEffect_run_bad_history now w Hh). repeat split.
Qed.


(** ** The commit after the load *)

(** The date-selection effect depends on [isLoaded], so it runs in the
    commit after the load, on the history as loaded: when that history has
    no record for the selected date, the effect sets the current record to a
    fresh one, whatever record the load adopted. *)
Lemma commitAfterLoad_rederives_record (now : JS.Date.t) (w : World) :
  isLoaded (app w) = true ->
  Forall (fun h => DailyLog.date h <> selectedDate (app w)) (history (app w)) ->
  log (app (exec (commitAfterLoad localeCompare JSON_stringify_log JSON_stringify_history now) w))
  = getInitialLog (selectedDate (app w)).
Proof.
  intros Hloaded Hnone. unfold commitAfterLoad.
  rewrite (exec_bind getState _ _ _) by reflexivity.
  rewrite (exec_bind (saveLogToHistoryEffect _ _ _ _) _ _ tt)
    by (rewrite saveLogToHistoryEffect_run by exact Hloaded; reflexivity).
  rewrite (exec_bind (persistHistoryEffect _ _) _ _ tt)
    by apply persistHistoryEffect_app.
  unfold dateSelectionEffect, exec at 2 3, getState. cbn [snd app].
  rewrite Hloaded, (find_no_record_of_date _ _ Hnone). reflexivity.
Qed.

(** The date-selection effect completes and keeps the journal loaded. *)
Lemma dateSelectionEffect_completes (r : AppState) (w : World) :
  fst (dateSelectionEffect r w) = Normal tt /\
  isLoaded (app (exec (dateSelectionEffect r) w)) = isLoaded (app w).
Proof.
  unfold dateSelectionEffect, exec.
  destruct (negb (isLoaded r)); [split; reflexivity |].
  destruct (List.find _ (history r)); split; reflexivity.
Qed.

(** The effects that run once the journal is loaded complete and keep it
    loaded, whatever render they belong to. *)
Lemma saveLogToHistoryEffect_keeps_loaded (now : JS.Date.t) (r : AppState) :
  keeps_loaded (saveLogToHistoryEffect localeCompare JSON_stringify_log now r).
Proof.
  intros w Hloaded. exists tt. unfold saveLogToHistoryEffect, exec.
  destruct (negb (isLoaded r)); [split; [reflexivity | exact Hloaded] |].
  run_effect.
  destruct (decide (DailyLog.date (log r) = getLocalDateString now));
    split; try reflexivity; exact Hloaded.
Qed.

Lemma persistHistoryEffect_keeps_loaded (r : AppState) :
  keeps_loaded (persistHistoryEffect JSON_stringify_history r).
Proof.
  intros w Hloaded. exists tt. destruct (persistHistoryEffect_app r w) as [Hdone Happ].
  split; [exact Hdone | rewrite Happ; exact Hloaded].
Qed.

Lemma dateSelectionEffect_keeps_loaded (r : AppState) :
  keeps_loaded (dateSelectionEffect r).
Proof.
  intros w Hloaded. exists tt. destruct (dateSelectionEffect_completes r w) as [Hdone Happ].
  split; [exact Hdone | rewrite Happ; exact Hloaded].
Qed.

(** From every world the start-up completes and ends in a loaded journal,
    from which mutations go on. *)
Lemma startup_completes (now : JS.Date.t) (w : World) :
  fst (startup localeCompare JSON_stringify_log JSON_stringify_history
         JSON_parse_log JSON_parse_history now w) = Normal tt /\
  isLoaded (app (exec (startup localeCompare JSON_stringify_log JSON_stringify_history
                         JSON_parse_log JSON_parse_history now) w)) = true.
Proof.
  destruct (initialLoadEffect_completes now w) as (Hload & Hloaded & _).
  unfold startup, commitAfterLoad.
  rewrite (run_bind _ _ w tt Hload), (exec_bind _ _ w tt Hload).
  match goal with
  | |- fst (?m _) = _ /\ _ =>
      assert (Hrest : keeps_loaded m);
      [| destruct (Hrest _ Hloaded) as ([] & Hdone & Hloaded'); split; assumption]
  end.
  repeat first
    [ apply keeps_loaded_bind; [| intros ?]
    | apply keeps_loaded_getState
    | apply saveLogToHistoryEffect_keeps_loaded
    | apply persistHistoryEffect_keeps_loaded
    | apply dateSelectionEffect_keeps_loaded ].
Qed.

End ControllerFacts.

(** What the proviso on the stored history is for: a history text with two
    records for 1 January, which the journal never writes but an edit by
    hand can leave, is adopted as it is, and both records are still there
    after a glass of water is logged on 1 June. *)
Example history_keeps_stored_duplicates :
  DailyLog.date <$>
    history (app (exec
      (startup Sample.codeUnitCompare Sample.JSON_stringify_log Sample.JSON_stringify_history
         Sample.JSON_parse_log Sample.JSON_parse_history Sample.morning ;;
       mutate Sample.codeUnitCompare Sample.JSON_stringify_log Sample.JSON_stringify_history
         Sample.morning (with_waterIntake 1))
      (Sample.atMount
         {[ HISTORY_KEY :=
              Sample.JSON_stringify_history [Sample.newYear; Sample.newYear_again] ]})))
  = ["2024-06-01"; "2024-01-01"; "2024-01-01"].
Proof. vm_compute. reflexivity. Qed.

(** The guard scenario: an empty in-memory history over a stored history
    for 1 January leaves the storage alone; a history with a record makes
    the effect overwrite the slot. *)
Lemma persistHistoryEffect_guard_witness :
  localStorage
    (exec (persistHistoryEffect Sample.JSON_stringify_history Sample.loaded)
       (Sample.running Sample.loaded
          {[ HISTORY_KEY := Sample.JSON_stringify_history [Sample.newYear] ]}))
  = {[ HISTORY_KEY := Sample.JSON_stringify_history [Sample.newYear] ]} /\
  localStorage
    (exec (persistHistoryEffect Sample.JSON_stringify_history
             (setHistory (fun _ => [Sample.june1]) Sample.loaded))
       (Sample.running Sample.loaded
          {[ HISTORY_KEY := Sample.JSON_stringify_history [Sample.newYear] ]}))
  = <[ HISTORY_KEY := Sample.JSON_stringify_history [Sample.june1] ]>
      {[ HISTORY_KEY := Sample.JSON_stringify_history [Sample.newYear] ]}.
Proof.
  split.
  - destruct (persistHistoryEffect_guard Sample.JSON_stringify_history Sample.loaded
                (Sample.running Sample.loaded
                   {[ HISTORY_KEY := Sample.JSON_stringify_history [Sample.newYear] ]})
                eq_refl) as [Hblocked _].
    destruct (Hblocked (Sample.JSON_stringify_history [Sample.newYear])) as [Hstorage _].
    + reflexivity.
    + vm_compute. reflexivity.
    + vm_compute. discriminate.
    + vm_compute. discriminate.
    + exact Hstorage.
  - destruct (persistHistoryEffect_guard Sample.JSON_stringify_history
                (setHistory (fun _ => [Sample.june1]) Sample.loaded)
                (Sample.running Sample.loaded
                   {[ HISTORY_KEY := Sample.JSON_stringify_history [Sample.newYear] ]})
                eq_refl) as [_ Hwrites].
    destruct Hwrites as [Hstorage _]; [left; discriminate | exact Hstorage].
Defined.

(** A glass of water logged on 1 June puts that day's record in the draft
    slot; looking at 31 May afterwards leaves it there. *)
Lemma draft_slot_after_mutations_witness :
  draftSlot
    (exec (mutations Sample.codeUnitCompare Sample.JSON_stringify_log
             Sample.JSON_stringify_history ([] ++ [(Sample.morning, with_waterIntake 1)]))
       (Sample.running Sample.loaded ∅))
  = Some (Sample.JSON_stringify_log (with_waterIntake 1 Sample.june1)) /\
  draftSlot
    (exec (mutations Sample.codeUnitCompare Sample.JSON_stringify_log
             Sample.JSON_stringify_history
             ([(Sample.morning, with_waterIntake 1)]
              ++ [(Sample.morning, fun _ => Sample.may31)]))
       (Sample.running Sample.loaded ∅))
  = draftSlot
      (exec (mutations Sample.codeUnitCompare Sample.JSON_stringify_log
               Sample.JSON_stringify_history [(Sample.morning, with_waterIntake 1)])
         (Sample.running Sample.loaded ∅)).
Proof.
  split.
  - destruct (draft_slot_after_mutations Sample.codeUnitCompare Sample.JSON_stringify_log
                Sample.JSON_stringify_history [] Sample.morning (with_waterIntake 1)
                (Sample.running Sample.loaded ∅) eq_refl) as (_ & Hwritten & _).
    rewrite Hwritten by (vm_compute; reflexivity).
    vm_compute. reflexivity.
  - destruct (draft_slot_after_mutations Sample.codeUnitCompare Sample.JSON_stringify_log
                Sample.JSON_stringify_history [(Sample.morning, with_waterIntake 1)]
                Sample.morning (fun _ => Sample.may31)
                (Sample.running Sample.loaded ∅) eq_refl) as (_ & _ & Hkept & _).
    apply Hkept. vm_compute. discriminate.
Defined.

(** C4, as the spec words it, fails: on a fresh install, after a glass of
    water on 1 June and then a look at 31 May, the last-mutated record is
    the one of 31 May, which is not today, and the draft slot still holds
    the record of 1 June. *)
Lemma draft_slot_outlives_today :
  draftSlot
    (exec (startup Sample.codeUnitCompare Sample.JSON_stringify_log
             Sample.JSON_stringify_history Sample.JSON_parse_log Sample.JSON_parse_history
             Sample.morning ;;
           mutations Sample.codeUnitCompare Sample.JSON_stringify_log
             Sample.JSON_stringify_history
             [(Sample.morning, with_waterIntake 1); (Sample.morning, fun _ => Sample.may31)])
       Sample.freshInstall)
  = Some (Sample.JSON_stringify_log (with_waterIntake 1 Sample.june1)) /\
  DailyLog.date
    (log (app
       (exec (startup Sample.codeUnitCompare Sample.JSON_stringify_log
                Sample.JSON_stringify_history Sample.JSON_parse_log Sample.JSON_parse_history
                Sample.morning ;;
              mutations Sample.codeUnitCompare Sample.JSON_stringify_log
                Sample.JSON_stringify_history
                [(Sample.morning, with_waterIntake 1); (Sample.morning, fun _ => Sample.may31)])
          Sample.freshInstall)))
  = "2024-05-31" /\
  getLocalDateString Sample.morning = "2024-06-01".
Proof. vm_compute. repeat split. Qed.

(** With a stored history that has a record for 1 June, that record is
    adopted although a draft for 1 June exists; with the draft alone, the
    draft's notes and water count are laid over the fresh record. *)
Lemma initial_load_precedence_witness :
  log (app (exec (initialLoadEffect Sample.JSON_parse_log Sample.JSON_parse_history
                    Sample.morning) Sample.draftAndHistory))
  = Sample.june1_logged /\
  log (app (exec (initialLoadEffect Sample.JSON_parse_log Sample.JSON_parse_history
                    Sample.morning) Sample.draftOnly))
  = {| DailyLog.date := "2024-06-01";
       DailyLog.proteinGoal := "";
       DailyLog.totalProteinCalories := 0;
       DailyLog.ketosis := false;
       DailyLog.followedPlan := false;
       DailyLog.notes := "leftovers";
       DailyLog.waterIntake := 2;
       DailyLog.foodEntries := [];
       DailyLog.miscEntries := Some [];
       DailyLog.fatEntries := [""; ""];
       DailyLog.vegetableEntries := [""; ""];
       DailyLog.activities := [];
       DailyLog.supplements := Some [] |}.
Proof.
  split.
  - assert (Hhistory : slotReads Sample.JSON_parse_history
                         (historySlot Sample.draftAndHistory)
                         (Some [Sample.june1_logged; Sample.newYear]))
      by (vm_compute; split; [eexists; reflexivity | reflexivity]).
    assert (Hdraft : slotReads Sample.JSON_parse_log (draftSlot Sample.draftAndHistory)
                       (Some Sample.leftovers))
      by (vm_compute; split; [eexists; reflexivity | reflexivity]).
    destruct (initial_load_precedence Sample.JSON_parse_log Sample.JSON_parse_history
                Sample.morning Sample.draftAndHistory _ _ Hhistory Hdraft)
      as (_ & _ & Hwins & _).
    apply (Hwins [] Sample.june1_logged [Sample.newYear]);
      [reflexivity | constructor | reflexivity].
  - assert (Hhistory : slotReads Sample.JSON_parse_history
                         (historySlot Sample.draftOnly) None)
      by (vm_compute; reflexivity).
    assert (Hdraft : slotReads Sample.JSON_parse_log (draftSlot Sample.draftOnly)
                       (Some Sample.leftovers))
      by (vm_compute; split; [eexists; reflexivity | reflexivity]).
    destruct (initial_load_precedence Sample.JSON_parse_log Sample.JSON_parse_history
                Sample.morning Sample.draftOnly _ _ Hhistory Hdraft)
      as (_ & _ & _ & Hmerged & _).
    destruct (Hmerged Sample.leftovers) as [-> _];
      [constructor | reflexivity | reflexivity | reflexivity].
Defined.



(** C1 fails on the code at a draft alone.  With a draft for 1 June in the
    draft slot and no history, the load adopts the draft merged over the
    fresh record, as lines 171 to 186 mean it to; but the date-selection
    effect lists [isLoaded] among its dependencies, so it runs in the commit
    after the load and puts the fresh record in the draft's place, and the
    fold effect of the render after that overwrites the draft slot and the
    history with the fresh record.  The start-up ends on the factory
    default, not on the draft. *)
Example draft_alone_is_replaced_after_load :
  DailyLog.notes
    (log (app (exec (initialLoadEffect Sample.JSON_parse_log Sample.JSON_parse_history
                       Sample.morning) Sample.draftOnly)))
  = "leftovers" /\
  log (app (exec
    (initialLoadEffect Sample.JSON_parse_log Sample.JSON_parse_history Sample.morning ;;
     commitAfterLoad Sample.codeUnitCompare Sample.JSON_stringify_log
       Sample.JSON_stringify_history Sample.morning)
    Sample.draftOnly))
  = Sample.june1 /\
  draftSlot (exec
    (startup Sample.codeUnitCompare Sample.JSON_stringify_log Sample.JSON_stringify_history
       Sample.JSON_parse_log Sample.JSON_parse_history Sample.morning)
    Sample.draftOnly)
  = Some (Sample.JSON_stringify_log Sample.june1) /\
  history (app (exec
    (startup Sample.codeUnitCompare Sample.JSON_stringify_log Sample.JSON_stringify_history
       Sample.JSON_parse_log Sample.JSON_parse_history Sample.morning)
    Sample.draftOnly))
  = [Sample.june1].
Proof. vm_compute. repeat split. Qed.

(** ** Removing and re-adding entries *)

Lemma with_foodEntries_same (prev : DailyLog) :
  with_foodEntries (DailyLog.foodEntries prev) prev = prev.
Proof. destruct prev; reflexivity. Qed.

Lemma with_activities_same (prev : DailyLog) :
  with_activities (DailyLog.activities prev) prev = prev.
Proof. destruct prev; reflexivity. Qed.

Lemma with_miscEntries_same (prev : DailyLog) (l : list MiscEntry) :
  DailyLog.miscEntries prev = Some l -> with_miscEntries l prev = prev.
Proof. destruct prev; simpl; intros ->; reflexivity. Qed.

Lemma setLog_same (f : DailyLog -> DailyLog) (st : AppState) :
  f (log st) = log st -> setLog f st = st.
Proof. destruct st; unfold setLog; simpl; intros ->; reflexivity. Qed.

Lemma filter_keeps_all {A : Type} (P : A -> Prop) `{forall x, Decision (P x)} (l : list A) :
  Forall P l -> filter P l = l.
Proof.
  induction 1 as [| x l Hx _ IH]; [reflexivity |].
  rewrite filter_cons_True by exact Hx. rewrite IH. reflexivity.
Qed.

Lemma removeFoodEntry_absent (id : string) (st : AppState) :
  Forall (fun e => FoodEntry.id e <> id) (DailyLog.foodEntries (log st)) ->
  removeFoodEntry id st = st.
Proof.
  intros Habsent. unfold removeFoodEntry. apply setLog_same.
  rewrite (filter_keeps_all _ _ Habsent). apply with_foodEntries_same.
Qed.

Lemma removeActivity_absent (id : string) (st : AppState) :
  Forall (fun a => ActivityEntry.id a <> id) (DailyLog.activities (log st)) ->
  removeActivity id st = st.
Proof.
  intros Habsent. unfold removeActivity. apply setLog_same.
  rewrite (filter_keeps_all _ _ Habsent). apply with_activities_same.
Qed.

Lemma removeMiscEntry_absent (id : string) (st : AppState) (l : list MiscEntry) :
  DailyLog.miscEntries (log st) = Some l ->
  Forall (fun e => FoodEntry.id e <> id) l ->
  removeMiscEntry id st = st.
Proof.
  intros Hmisc Habsent. unfold removeMiscEntry. apply setLog_same.
  rewrite Hmisc. simpl. rewrite (filter_keeps_all _ _ Habsent).
  apply with_miscEntries_same. exact Hmisc.
Qed.

(** Removing by an id that no entry of the sequence carries changes nothing
    in the component state (for misc entries, when the record has the
    member). *)
Theorem remove_absent_id_is_noop (id : string) (st : AppState) :
  (Forall (fun e => FoodEntry.id e <> id) (DailyLog.foodEntries (log st)) ->
   removeFoodEntry id st = st) /\
  (Forall (fun a => ActivityEntry.id a <> id) (DailyLog.activities (log st)) ->
   removeActivity id st = st) /\
  (forall l, DailyLog.miscEntries (log st) = Some l ->
   Forall (fun e => FoodEntry.id e <> id) l ->
   removeMiscEntry id st = st).
Proof.
  split; [apply removeFoodEntry_absent |].
  split; [apply removeActivity_absent | apply removeMiscEntry_absent].
Qed.

(** A journal that holds a meal under f1, a misc entry under m1 and an
    activity under a1: removing by an id none of them carries. *)
Lemma remove_absent_id_is_noop_witness :
  DailyLog.foodEntries (log Scenario.one_of_each)
  = [ {| FoodEntry.id := "f1"; FoodEntry.source := "Toast"; FoodEntry.time := "07:30";
         FoodEntry.serving := "2 slices"; FoodEntry.calories := 180;
         FoodEntry.hungerBefore := 7; FoodEntry.hungerAfter := 4 |} ] /\
  removeFoodEntry "k3j9x2a1b" Scenario.one_of_each = Scenario.one_of_each /\
  removeActivity "k3j9x2a1b" Scenario.one_of_each = Scenario.one_of_each /\
  removeMiscEntry "k3j9x2a1b" Scenario.one_of_each = Scenario.one_of_each.
Proof.
  destruct (remove_absent_id_is_noop "k3j9x2a1b" Scenario.one_of_each)
    as (Hmeal & Hactivity & Hmisc).
  split; [reflexivity |].
  split; [apply Hmeal; repeat constructor; simpl; intros Hid; discriminate Hid |].
  split; [apply Hactivity; repeat constructor; simpl; intros Hid; discriminate Hid |].
  eapply Hmisc; [reflexivity |].
  repeat constructor. simpl. intros Hid. discriminate Hid.
Defined.

(** A removal takes out every entry that carries the id and nothing else:
    the sequence left is the old one without the entries of that id, the
    others in their old order and each as often as before.  (A missing
    [miscEntries] member reads as empty, and is present afterwards.) *)
Theorem remove_takes_only_that_id (id : string) (st : AppState) :
  DailyLog.foodEntries (log (removeFoodEntry id st))
  = filter (fun e => FoodEntry.id e <> id) (DailyLog.foodEntries (log st)) /\
  DailyLog.activities (log (removeActivity id st))
  = filter (fun a => ActivityEntry.id a <> id) (DailyLog.activities (log st)) /\
  DailyLog.miscEntries (log (removeMiscEntry id st))
  = Some (filter (fun e => FoodEntry.id e <> id)
                 (default [] (DailyLog.miscEntries (log st)))).
Proof.
  unfold removeFoodEntry, removeActivity, removeMiscEntry. simpl.
  split; [reflexivity |]. split; [reflexivity |].
  destruct (DailyLog.miscEntries (log st)); reflexivity.
Qed.

(** Saving a pending entry under a token that no entry of the sequence
    carries, and then removing by that token, gives back the record as it
    was (for misc entries, with the member in place if it was missing). *)
Theorem add_then_remove_restores (now : JS.Date.t) (token : string) (st : AppState) :
  (Forall (fun e => FoodEntry.id e <> token) (DailyLog.foodEntries (log st)) ->
   log (removeFoodEntry token (savePendingEntry now token st)) = log st) /\
  (Forall (fun a => ActivityEntry.id a <> token) (DailyLog.activities (log st)) ->
   log (removeActivity token (savePendingActivity token st)) = log st) /\
  (Forall (fun e => FoodEntry.id e <> token) (default [] (DailyLog.miscEntries (log st))) ->
   FoodEntry.source (pendingMisc st) <> "" ->
   log (removeMiscEntry token (savePendingMisc now token st))
   = with_miscEntries (default [] (DailyLog.miscEntries (log st))) (log st)).
Proof.
  repeat split.
  - intros Hfresh. unfold savePendingEntry.
    destruct (negb (JS.truthy (FoodEntry.source (pendingEntry st)))).
    + rewrite (removeFoodEntry_absent token st Hfresh). reflexivity.
    + unfold removeFoodEntry. simpl.
      rewrite filter_cons_False by (simpl; intros Hne; apply Hne; reflexivity).
      rewrite (filter_keeps_all _ _ Hfresh). destruct (log st); reflexivity.
  - intros Hfresh. unfold savePendingActivity.
    destruct (negb (JS.truthy (ActivityEntry.type (pendingActivity st)))).
    + rewrite (removeActivity_absent token st Hfresh). reflexivity.
    + unfold removeActivity. simpl.
      rewrite filter_cons_False by (simpl; intros Hne; apply Hne; reflexivity).
      rewrite (filter_keeps_all _ _ Hfresh). destruct (log st); reflexivity.
  - intros Hfresh Hsource. unfold savePendingMisc.
    rewrite (truthy_nonempty _ Hsource). unfold removeMiscEntry. simpl.
    rewrite filter_cons_False by (simpl; intros Hne; apply Hne; reflexivity).
    rewrite (filter_keeps_all _ _ Hfresh). reflexivity.
Qed.

(** The eggs saved and taken out again. *)
Lemma add_then_remove_restores_witness :
  log (removeFoodEntry "k3j9x2a1b"
         (savePendingEntry Sample.morning "k3j9x2a1b" Sample.with_eggs_pending))
  = Sample.june1.
Proof.
  destruct (add_then_remove_restores Sample.morning "k3j9x2a1b" Sample.with_eggs_pending)
    as (Hmeal & _).
  rewrite Hmeal by constructor. reflexivity.
Defined.

(** ** The calorie total *)

Lemma or_zero_id (x : Z) : or_zero x = x.
Proof. unfold or_zero. destruct (Z.eqb_spec x 0); congruence. Qed.

(** Within the safe integers nothing is rounded. *)
Lemma roundToDouble_safe (z : Z) :
  (Z.abs z <= MAX_SAFE_INTEGER)%Z -> roundToDouble z = z.
Proof.
  unfold MAX_SAFE_INTEGER, roundToDouble. cbv zeta.
  change (2 ^ 53)%Z with 9007199254740992%Z. intros Hsafe.
  destruct (Z.ltb_spec (Z.abs z) 9007199254740992); [reflexivity | lia].
Qed.

Lemma caloriesMagnitude_nonneg (entries : list FoodEntry) :
  (0 <= caloriesMagnitude entries)%Z.
Proof. induction entries as [| e entries IH]; simpl; lia. Qed.

Lemma caloriesMagnitude_app (before after : list FoodEntry) :
  caloriesMagnitude (before ++ after)
  = (caloriesMagnitude before + caloriesMagnitude after)%Z.
Proof. induction before as [| e before IH]; simpl; lia. Qed.

Lemma exactCalories_app (before after : list FoodEntry) :
  exactCalories (before ++ after) = (exactCalories before + exactCalories after)%Z.
Proof. induction before as [| e before IH]; simpl; lia. Qed.

(** The reduction from a starting sum, while the magnitudes stay within the
    safe integers: every addition is exact. *)
Lemma sum_calories_exact (entries : list FoodEntry) (start : Z) :
  (Z.abs start + caloriesMagnitude entries <= MAX_SAFE_INTEGER)%Z ->
  fold_left (fun sum e => Number_add sum (or_zero (FoodEntry.calories e))) entries start
  = (start + exactCalories entries)%Z.
Proof.
  revert start. induction entries as [| e entries IH]; intros start Hsafe; simpl in *.
  - lia.
  - pose proof (caloriesMagnitude_nonneg entries) as Hrest.
    unfold Number_add at 2. rewrite or_zero_id.
    rewrite roundToDouble_safe by lia.
    rewrite IH by lia. lia.
Qed.

Lemma totalCalories_exact (log : DailyLog) :
  (caloriesMagnitude (DailyLog.foodEntries log) <= MAX_SAFE_INTEGER)%Z ->
  totalCalories log = exactCalories (DailyLog.foodEntries log).
Proof.
  intros Hsafe. unfold totalCalories. rewrite sum_calories_exact by (simpl; lia). lia.
Qed.

Lemma totalCalories_of_meals (a b : DailyLog) :
  DailyLog.foodEntries a = DailyLog.foodEntries b -> totalCalories a = totalCalories b.
Proof. unfold totalCalories. intros ->. reflexivity. Qed.

(** The calorie total follows the meals and nothing else.  While the
    magnitudes of the calorie counts involved add up to a safe integer (so
    that no addition of the reduction rounds), a saved meal adds its
    calories and removing the one meal that carries an id takes its calories
    off; misc entries, activities and water leave the total as it is,
    whatever the counts. *)
Theorem totalCalories_follows_meals
    (now : JS.Date.t) (token id : string) (i : Z) (st : AppState) :
  (FoodEntry.source (pendingEntry st) <> "" ->
   (caloriesMagnitude (pendingEntry st :: DailyLog.foodEntries (log st))
    <= MAX_SAFE_INTEGER)%Z ->
   totalCalories (log (savePendingEntry now token st))
   = (totalCalories (log st) + FoodEntry.calories (pendingEntry st))%Z) /\
  (forall before e after,
     DailyLog.foodEntries (log st) = before ++ e :: after ->
     FoodEntry.id e = id ->
     Forall (fun x => FoodEntry.id x <> id) (before ++ after) ->
     (caloriesMagnitude (DailyLog.foodEntries (log st)) <= MAX_SAFE_INTEGER)%Z ->
     totalCalories (log (removeFoodEntry id st))
     = (totalCalories (log st) - FoodEntry.calories e)%Z) /\
  totalCalories (log (savePendingMisc now token st)) = totalCalories (log st) /\
  totalCalories (log (removeMiscEntry id st)) = totalCalories (log st) /\
  totalCalories (log (savePendingActivity token st)) = totalCalories (log st) /\
  totalCalories (log (removeActivity id st)) = totalCalories (log st) /\
  totalCalories (log (clickWaterPip i st)) = totalCalories (log st).
Proof.
  split; [| split; [| split; [| split; [| split; [| split]]]]].
  - intros Hsource Hsafe. unfold savePendingEntry. rewrite (truthy_nonempty _ Hsource).
    cbn [negb]. simpl in Hsafe.
    rewrite !totalCalories_exact; simpl; lia.
  - intros before e after Hmeals He Hothers Hsafe.
    rewrite (totalCalories_exact (log st)) by exact Hsafe.
    unfold removeFoodEntry. simpl.
    rewrite Hmeals in Hsafe |- *.
    rewrite filter_app, filter_cons_False by (intros Hne; exact (Hne He)).
    apply Forall_app in Hothers as [Hbefore Hafter].
    rewrite (filter_keeps_all _ _ Hbefore), (filter_keeps_all _ _ Hafter).
    rewrite caloriesMagnitude_app in Hsafe. simpl in Hsafe.
    rewrite totalCalories_exact; simpl.
    + rewrite !exactCalories_app. simpl. lia.
    + rewrite caloriesMagnitude_app. lia.
  - unfold savePendingMisc.
    destruct (negb (JS.truthy (FoodEntry.source (pendingMisc st)))); reflexivity.
  - unfold removeMiscEntry. reflexivity.
  - unfold savePendingActivity.
    destruct (negb (JS.truthy (ActivityEntry.type (pendingActivity st)))); reflexivity.
  - unfold removeActivity. reflexivity.
  - unfold clickWaterPip. reflexivity.
Qed.

(** The eggs add their 140 calories to the 180 of the toast, and taking the
    toast out again leaves the 140. *)
Lemma totalCalories_follows_meals_witness :
  totalCalories (log Scenario.eggs_after_toast) = 180%Z /\
  totalCalories (log (savePendingEntry Scenario.evening "e2" Scenario.eggs_after_toast))
  = 320%Z /\
  totalCalories
    (log (removeFoodEntry "f1"
            (savePendingEntry Scenario.evening "e2" Scenario.eggs_after_toast)))
  = 140%Z.
Proof.
  destruct (totalCalories_follows_meals Scenario.evening "e2" "f1" 0
              Scenario.eggs_after_toast) as (Hadd & _).
  destruct (totalCalories_follows_meals Scenario.evening "e2" "f1" 0
              (savePendingEntry Scenario.evening "e2" Scenario.eggs_after_toast))
    as (_ & Hremove & _).
  split; [reflexivity |]. split.
  - rewrite Hadd; [reflexivity | simpl; discriminate | vm_compute; discriminate].
  - erewrite (Hremove [_] _ []);
      [ | reflexivity | reflexivity
        | repeat constructor; simpl; intros Hid; discriminate Hid
        | vm_compute; discriminate ].
    rewrite Hadd; [reflexivity | simpl; discriminate | vm_compute; discriminate].
Defined.

(** ** The other ways to add an entry *)

(** A pending meal whose time is filled in is stored as typed, with the
    token for its id, whatever the clock shows. *)
Theorem savePendingEntry_keeps_typed_time
    (now now' : JS.Date.t) (token : string) (st : AppState) :
  FoodEntry.source (pendingEntry st) <> "" ->
  FoodEntry.time (pendingEntry st) <> "" ->
  DailyLog.foodEntries (log (savePendingEntry now token st))
  = {| FoodEntry.id := token;
       FoodEntry.source := FoodEntry.source (pendingEntry st);
       FoodEntry.time := FoodEntry.time (pendingEntry st);
       FoodEntry.serving := FoodEntry.serving (pendingEntry st);
       FoodEntry.calories := FoodEntry.calories (pendingEntry st);
       FoodEntry.hungerBefore := FoodEntry.hungerBefore (pendingEntry st);
       FoodEntry.hungerAfter := FoodEntry.hungerAfter (pendingEntry st) |}
    :: DailyLog.foodEntries (log st) /\
  savePendingEntry now' token st = savePendingEntry now token st.
Proof.
  intros Hsource Htime. unfold savePendingEntry.
  rewrite (truthy_nonempty _ Hsource), (truthy_nonempty _ Htime). simpl.
  split; reflexivity.
Qed.

(** Toast typed in for 07:30 and saved in the morning or in the evening. *)
Lemma savePendingEntry_keeps_typed_time_witness :
  FoodEntry.time <$>
    DailyLog.foodEntries
      (log (savePendingEntry Scenario.evening "k3j9x2a1b" Scenario.forms_filled))
  = ["07:30"] /\
  savePendingEntry Sample.morning "k3j9x2a1b" Scenario.forms_filled
  = savePendingEntry Scenario.evening "k3j9x2a1b" Scenario.forms_filled.
Proof.
  destruct (savePendingEntry_keeps_typed_time Scenario.evening Sample.morning "k3j9x2a1b"
              Scenario.forms_filled) as [Hmeals Hclock].
  - simpl. discriminate.
  - simpl. discriminate.
  - split; [rewrite Hmeals; reflexivity | exact Hclock].
Defined.

(** Saving a pending misc entry that has a source puts it in front of the
    misc entries, with the token for its id and the clock's time if none was
    typed; a record that lacks the member gets it, holding the new entry
    alone.  The staging value is reset, and the other two forms keep what
    was typed in them. *)
Theorem savePendingMisc_prepends (now : JS.Date.t) (token : string) (st : AppState) :
  FoodEntry.source (pendingMisc st) <> "" ->
  let st' := savePendingMisc now token st in
  let newEntry :=
    {| FoodEntry.id := token;
       FoodEntry.source := FoodEntry.source (pendingMisc st);
       FoodEntry.time :=
         if decide (FoodEntry.time (pendingMisc st) = "")
         then JS.toLocaleTimeString_enGB now
         else FoodEntry.time (pendingMisc st);
       FoodEntry.serving := FoodEntry.serving (pendingMisc st);
       FoodEntry.calories := FoodEntry.calories (pendingMisc st);
       FoodEntry.hungerBefore := FoodEntry.hungerBefore (pendingMisc st);
       FoodEntry.hungerAfter := FoodEntry.hungerAfter (pendingMisc st) |} in
  (forall old, DailyLog.miscEntries (log st) = Some old ->
               DailyLog.miscEntries (log st') = Some (newEntry :: old)) /\
  (DailyLog.miscEntries (log st) = None ->
   DailyLog.miscEntries (log st') = Some [newEntry]) /\
  pendingMisc st' = blankPendingMisc /\
  pendingEntry st' = pendingEntry st /\
  pendingActivity st' = pendingActivity st.
Proof.
  intros Hsource. cbv zeta. unfold savePendingMisc.
  rewrite (truthy_nonempty _ Hsource). simpl.
  assert (Htime :
    (if JS.truthy (FoodEntry.time (pendingMisc st))
     then FoodEntry.time (pendingMisc st) else JS.toLocaleTimeString_enGB now)
    = (if decide (FoodEntry.time (pendingMisc st) = "")
       then JS.toLocaleTimeString_enGB now else FoodEntry.time (pendingMisc st))).
  { destruct (decide (FoodEntry.time (pendingMisc st) = "")) as [-> | Hne];
      [reflexivity | rewrite (truthy_nonempty _ Hne); reflexivity]. }
  rewrite Htime.
  split; [intros old ->; reflexivity |].
  split; [intros ->; reflexivity |].
  repeat split.
Qed.

(** Coffee, no time typed, saved at 18:40 on the record that lacks the
    member. *)
Lemma savePendingMisc_prepends_witness :
  DailyLog.miscEntries
    (log (savePendingMisc Scenario.evening "k3j9x2a1b" Scenario.forms_filled))
  = Some [ {| FoodEntry.id := "k3j9x2a1b"; FoodEntry.source := "Coffee";
              FoodEntry.time := "18:40"; FoodEntry.serving := "1 cup";
              FoodEntry.calories := 5; FoodEntry.hungerBefore := 5;
              FoodEntry.hungerAfter := 5 |} ].
Proof.
  destruct (savePendingMisc_prepends Scenario.evening "k3j9x2a1b" Scenario.forms_filled)
    as (_ & Hmissing & _).
  - simpl. discriminate.
  - rewrite Hmissing by reflexivity. reflexivity.
Defined.

(** Saving a pending activity that has a type puts it in front of the
    activities with the token for its id, resets its staging value and
    leaves the other two forms as they are. *)
Theorem savePendingActivity_prepends (token : string) (st : AppState) :
  ActivityEntry.type (pendingActivity st) <> "" ->
  let st' := savePendingActivity token st in
  DailyLog.activities (log st')
  = {| ActivityEntry.id := token;
       ActivityEntry.type := ActivityEntry.type (pendingActivity st);
       ActivityEntry.duration := ActivityEntry.duration (pendingActivity st) |}
    :: DailyLog.activities (log st) /\
  pendingActivity st' = blankPendingActivity /\
  pendingEntry st' = pendingEntry st /\
  pendingMisc st' = pendingMisc st.
Proof.
  intros Htype. cbv zeta. unfold savePendingActivity.
  rewrite (truthy_nonempty _ Htype). simpl. repeat split.
Qed.

(** The walk saved. *)
Lemma savePendingActivity_prepends_witness :
  DailyLog.activities (log (savePendingActivity "k3j9x2a1b" Scenario.forms_filled))
  = [ {| ActivityEntry.id := "k3j9x2a1b"; ActivityEntry.type := "Walk";
         ActivityEntry.duration := "30 min" |} ] /\
  pendingActivity (savePendingActivity "k3j9x2a1b" Scenario.forms_filled)
  = blankPendingActivity.
Proof.
  destruct (savePendingActivity_prepends "k3j9x2a1b" Scenario.forms_filled)
    as (Hactivities & Hpending & _).
  - simpl. discriminate.
  - split; [exact Hactivities | exact Hpending].
Defined.

(** ** The water pips *)

(** A click on one of the eight pips leaves the water count at that pip's
    index or one above it, so within 0 and 8 whatever it was before; a
    second click on the same pip gives the other of the two, and exactly the
    pips below the count are drawn filled. *)
Theorem clickWaterPip_stays_in_range (i : Z) (st : AppState) :
  (0 <= i <= 7)%Z ->
  let once := DailyLog.waterIntake (log (clickWaterPip i st)) in
  let twice := DailyLog.waterIntake (log (clickWaterPip i (clickWaterPip i st))) in
  (once = i \/ once = (i + 1)%Z) /\
  (0 <= once <= 8)%Z /\
  twice = (2 * i + 1 - once)%Z /\
  waterPips (log (clickWaterPip i st))
  = replicate (Z.to_nat once) true ++ replicate (8 - Z.to_nat once) false.
Proof.
  intros Hi. cbv zeta. unfold clickWaterPip. simpl.
  destruct (Z.eqb_spec (i + 1) (DailyLog.waterIntake (log st))) as [Heq | Hne].
  - rewrite (proj2 (Z.eqb_neq (i + 1) i)) by lia.
    split; [left; reflexivity |]. split; [lia |]. split; [lia |].
    unfold waterPips. simpl DailyLog.waterIntake.
    assert (Hcases :
      (i = 0 \/ i = 1 \/ i = 2 \/ i = 3 \/ i = 4 \/ i = 5 \/ i = 6 \/ i = 7)%Z) by lia.
    repeat (destruct Hcases as [Hcases | Hcases]; [subst i; reflexivity |]).
    subst i; reflexivity.
  - rewrite Z.eqb_refl.
    split; [right; reflexivity |]. split; [lia |]. split; [lia |].
    unfold waterPips. simpl DailyLog.waterIntake.
    assert (Hcases :
      (i = 0 \/ i = 1 \/ i = 2 \/ i = 3 \/ i = 4 \/ i = 5 \/ i = 6 \/ i = 7)%Z) by lia.
    repeat (destruct Hcases as [Hcases | Hcases]; [subst i; reflexivity |]).
    subst i; reflexivity.
Qed.

(** From three glasses, pip 5 gives six, and a second click five. *)
Lemma clickWaterPip_stays_in_range_witness :
  DailyLog.waterIntake
    (log (clickWaterPip 5 (setLog (fun _ => Scenario.legacy) Sample.loaded))) = 6%Z /\
  DailyLog.waterIntake
    (log (clickWaterPip 5
            (clickWaterPip 5 (setLog (fun _ => Scenario.legacy) Sample.loaded)))) = 5%Z /\
  waterPips (log (clickWaterPip 5 (setLog (fun _ => Scenario.legacy) Sample.loaded)))
  = [true; true; true; true; true; true; false; false].
Proof.
  destruct (clickWaterPip_stays_in_range 5 (setLog (fun _ => Scenario.legacy) Sample.loaded))
    as (_ & _ & Htwice & Hpips); [lia |].
  split; [reflexivity |]. split; [rewrite Htwice; reflexivity |].
  rewrite Hpips. reflexivity.
Defined.

(** ** What an edit does to the other days *)

Section MoreSortFacts.
Context {A : Type} (comparefn : A -> A -> Z).

Lemma Array_sort_of_sorted (l : list A) :
  StronglySorted (fun a b => (comparefn a b <= 0)%Z) l -> JS.Array_sort comparefn l = l.
Proof.
  induction 1 as [| x l _ IH Hx]; simpl; [reflexivity |].
  rewrite IH. destruct Hx as [| y l Hxy _]; simpl; [reflexivity |].
  rewrite (proj2 (Z.leb_le _ _) Hxy). reflexivity.
Qed.

Lemma filter_sort_insert_other (P : A -> Prop) `{forall x, Decision (P x)}
    (x : A) (l : list A) :
  ~ P x -> filter P (JS.sort_insert comparefn x l) = filter P l.
Proof.
  intros Hx. induction l as [| y l IH]; simpl.
  - rewrite filter_cons_False by exact Hx. reflexivity.
  - destruct (comparefn x y <=? 0)%Z.
    + rewrite filter_cons_False by exact Hx. reflexivity.
    + rewrite !filter_cons, IH. reflexivity.
Qed.

Lemma StronglySorted_filter (R : A -> A -> Prop) (P : A -> Prop)
    `{forall x, Decision (P x)} (l : list A) :
  StronglySorted R l -> StronglySorted R (filter P l).
Proof.
  induction 1 as [| x l _ IH Hx]; [constructor |].
  rewrite filter_cons. destruct (decide (P x)); [| exact IH].
  constructor; [exact IH |].
  apply Forall_forall. intros y Hy. apply list_elem_of_filter in Hy as [_ Hy].
  rewrite Forall_forall in Hx. apply Hx. exact Hy.
Qed.

End MoreSortFacts.

Lemma filter_twice {A : Type} (P : A -> Prop) `{forall x, Decision (P x)} (l : list A) :
  filter P (filter P l) = filter P l.
Proof.
  apply filter_keeps_all, Forall_forall. intros x Hx.
  apply list_elem_of_filter in Hx as [Hx _]. exact Hx.
Qed.

Lemma find_is_head_of_filter (today : string) (l : list DailyLog) :
  List.find (fun h => bool_decide (DailyLog.date h = today)) l
  = head (filter (fun h => DailyLog.date h = today) l).
Proof.
  induction l as [| h l IH]; simpl; [reflexivity |].
  rewrite filter_cons. destruct (decide (DailyLog.date h = today)) as [Heq | Hne].
  - rewrite bool_decide_eq_true_2 by exact Heq. reflexivity.
  - rewrite bool_decide_eq_false_2 by exact Hne. exact IH.
Qed.

Section JournalFacts.
Variable localeCompare : string -> string -> Z.
Variable JSON_stringify_log : DailyLog -> string.
Variable JSON_stringify_history : list DailyLog -> string.
Variable JSON_parse_log : string -> option PartialLog.
Variable JSON_parse_history : string -> option (list DailyLog).

Lemma foldIntoHistory_other_days (log : DailyLog) (prev : list DailyLog) :
  filter (fun h => DailyLog.date h <> DailyLog.date log)
         (foldIntoHistory localeCompare log prev)
  ≡ₚ filter (fun h => DailyLog.date h <> DailyLog.date log) prev.
Proof.
  rewrite foldIntoHistory_Permutation.
  rewrite filter_cons_False by (intros Hne; apply Hne; reflexivity).
  rewrite filter_twice. reflexivity.
Qed.

Lemma foldIntoHistory_other_days_in_place (log : DailyLog) (prev : list DailyLog) :
  sortedDescending localeCompare prev ->
  filter (fun h => DailyLog.date h <> DailyLog.date log)
         (foldIntoHistory localeCompare log prev)
  = filter (fun h => DailyLog.date h <> DailyLog.date log) prev.
Proof.
  intros Hsorted. unfold foldIntoHistory. simpl.
  rewrite filter_sort_insert_other by (intros Hne; apply Hne; reflexivity).
  rewrite Array_sort_of_sorted; [apply filter_twice |].
  apply StronglySorted_filter. exact Hsorted.
Qed.

Lemma foldIntoHistory_not_empty (log : DailyLog) (prev : list DailyLog) :
  foldIntoHistory localeCompare log prev <> [].
Proof.
  intros Hempty. pose proof (foldIntoHistory_Permutation localeCompare log prev) as Hperm.
  rewrite Hempty in Hperm. apply Permutation_nil_cons in Hperm. exact Hperm.
Qed.

(** An edit of one day's record never alters another day's: after a
    mutation of a loaded journal the history holds the same records of other
    dates as before, each as often as before, and, if the history was
    sorted, in the same order. *)
Theorem other_days_untouched (now : JS.Date.t) (f : DailyLog -> DailyLog) (w : World) :
  isLoaded (app w) = true ->
  let w' := exec (mutate localeCompare JSON_stringify_log JSON_stringify_history now f) w in
  let edited := DailyLog.date (log (app w')) in
  filter (fun h => DailyLog.date h <> edited) (history (app w'))
    ≡ₚ filter (fun h => DailyLog.date h <> edited) (history (app w)) /\
  (sortedDescending localeCompare (history (app w)) ->
   filter (fun h => DailyLog.date h <> edited) (history (app w'))
   = filter (fun h => DailyLog.date h <> edited) (history (app w))).
Proof.
  intros Hloaded. cbv zeta.
  destruct (mutate_app localeCompare JSON_stringify_log JSON_stringify_history
              now f w Hloaded) as [_ ->].
  cbn [log history setHistory setLog].
  split; [apply foldIntoHistory_other_days | apply foldIntoHistory_other_days_in_place].
Qed.

(** What the persist effect writes for a loaded render whose history is not
    empty: the guard does not apply. *)
Lemma persistHistoryEffect_writes (r : AppState) (w : World) :
  isLoaded r = true ->
  history r <> [] ->
  persistHistoryEffect JSON_stringify_history r w
  = (Normal tt,
     {| app := app w;
        localStorage := <[HISTORY_KEY := JSON_stringify_history (history r)]> (localStorage w);
        console := console w |}).
Proof.
  intros Hloaded Hhistory. unfold persistHistoryEffect. rewrite Hloaded.
  destruct (history r) as [| h rest]; [contradiction | reflexivity].
Qed.

(** The history slot after a mutation of a loaded journal. *)
Lemma mutate_historySlot (now : JS.Date.t) (f : DailyLog -> DailyLog) (w : World) :
  isLoaded (app w) = true ->
  let w' := exec (mutate localeCompare JSON_stringify_log JSON_stringify_history now f) w in
  historySlot w' = Some (JSON_stringify_history (history (app w'))) /\
  console w' = console w.
Proof.
  intros Hloaded. cbv zeta. unfold mutate.
  rewrite (exec_bind (update (setLog f)) _ w tt) by reflexivity.
  rewrite (exec_bind getState _ _ _) by reflexivity.
  rewrite (exec_bind (saveLogToHistoryEffect _ _ _ _) _ _ tt)
    by (rewrite saveLogToHistoryEffect_run by exact Hloaded; reflexivity).
  rewrite (exec_bind getState _ _ _) by reflexivity.
  unfold exec, getState, update. cbn [snd app].
  rewrite saveLogToHistoryEffect_run by exact Hloaded. cbn [snd app].
  rewrite persistHistoryEffect_writes;
    [| exact Hloaded | apply foldIntoHistory_not_empty].
  unfold historySlot. cbn [snd app localStorage console history log setHistory setLog].
  split; [apply lookup_insert_eq | reflexivity].
Qed.

(** Every edit reaches the storage: after a mutation of a loaded journal
    the history slot holds the serialization of the in-memory history, which
    holds the edited record; the guard never blocks this write, and nothing
    is printed. *)
Theorem mutation_is_persisted (now : JS.Date.t) (f : DailyLog -> DailyLog) (w : World) :
  isLoaded (app w) = true ->
  let w' := exec (mutate localeCompare JSON_stringify_log JSON_stringify_history now f) w in
  historySlot w' = Some (JSON_stringify_history (history (app w'))) /\
  log (app w') ∈ history (app w') /\
  console w' = console w.
Proof.
  intros Hloaded. cbv zeta.
  destruct (mutate_historySlot now f w Hloaded) as [Hslot Hconsole].
  split; [exact Hslot |]. split; [| exact Hconsole].
  destruct (mutate_app localeCompare JSON_stringify_log JSON_stringify_history
              now f w Hloaded) as [_ ->].
  cbn [log history setHistory setLog].
  rewrite foldIntoHistory_Permutation. apply list_elem_of_here.
Qed.

End JournalFacts.

(** A glass of water on 1 June next to a stored New Year's Day. *)
Lemma other_days_untouched_witness :
  filter (fun h => DailyLog.date h <> "2024-06-01")
    (history (app (exec (mutate Sample.codeUnitCompare Sample.JSON_stringify_log
                           Sample.JSON_stringify_history Sample.morning (with_waterIntake 1))
                     (Sample.running (setHistory (fun _ => [Sample.newYear]) Sample.loaded) ∅))))
  ≡ₚ [Sample.newYear].
Proof.
  destruct (other_days_untouched Sample.codeUnitCompare Sample.JSON_stringify_log
              Sample.JSON_stringify_history Sample.morning (with_waterIntake 1)
              (Sample.running (setHistory (fun _ => [Sample.newYear]) Sample.loaded) ∅)
              eq_refl) as [Hsame _].
  exact Hsame.
Defined.

(** The same glass of water, as it reaches the storage. *)
Lemma mutation_is_persisted_witness :
  historySlot
    (exec (mutate Sample.codeUnitCompare Sample.JSON_stringify_log
             Sample.JSON_stringify_history Sample.morning (with_waterIntake 1))
       (Sample.running (setHistory (fun _ => [Sample.newYear]) Sample.loaded) ∅))
  = Some (Sample.JSON_stringify_history [with_waterIntake 1 Sample.june1; Sample.newYear]).
Proof.
  destruct (mutation_is_persisted Sample.codeUnitCompare Sample.JSON_stringify_log
              Sample.JSON_stringify_history Sample.morning (with_waterIntake 1)
              (Sample.running (setHistory (fun _ => [Sample.newYear]) Sample.loaded) ∅)
              eq_refl) as [Hslot _].
  rewrite Hslot. vm_compute. reflexivity.
Defined.

(** ** Going from day to day *)

(** The record the date-selection effect sets for a date: the first record
    of the history with that date key, or a fresh one. *)
Lemma selected_record_date (value : string) (h : list DailyLog) :
  DailyLog.date
    (default (getInitialLog value)
       (List.find (fun r => bool_decide (DailyLog.date r = value)) h)) = value.
Proof.
  destruct (List.find _ h) as [r |] eqn:Hfind; simpl; [| reflexivity].
  apply find_some in Hfind as [_ Hdate]. apply bool_decide_eq_true_1 in Hdate. exact Hdate.
Qed.

Section NavigationFacts.
Variable localeCompare : string -> string -> Z.
Variable JSON_stringify_log : DailyLog -> string.
Variable JSON_stringify_history : list DailyLog -> string.

Lemma dateSelectionEffect_run (r : AppState) (w : World) :
  isLoaded r = true ->
  dateSelectionEffect r w
  = (Normal tt,
     {| app :=
          setLog (fun _ =>
                    default (getInitialLog (selectedDate r))
                      (List.find (fun h => bool_decide (DailyLog.date h = selectedDate r))
                                 (history r)))
                 (app w);
        localStorage := localStorage w;
        console := console w |}).
Proof.
  intros Hloaded. unfold dateSelectionEffect. rewrite Hloaded. simpl.
  destruct (List.find _ (history r)); reflexivity.
Qed.

(** In a loaded journal, a change of the record is folded into the history,
    written to the draft slot if the record is today's, and the history is
    written to its slot. *)
Lemma afterLogChange_run (now : JS.Date.t) (w : World) :
  isLoaded (app w) = true ->
  afterLogChange localeCompare JSON_stringify_log JSON_stringify_history now w
  = (Normal tt,
     {| app := setHistory (foldIntoHistory localeCompare (log (app w))) (app w);
        localStorage :=
          <[HISTORY_KEY :=
              JSON_stringify_history
                (foldIntoHistory localeCompare (log (app w)) (history (app w)))]>
            (if decide (DailyLog.date (log (app w)) = getLocalDateString now)
             then <[LOG_KEY := JSON_stringify_log (log (app w))]> (localStorage w)
             else localStorage w);
        console := console w |}).
Proof.
  intros Hloaded. unfold afterLogChange.
  rewrite (run_bind getState _ w (app w)) by reflexivity.
  unfold getState at 1. cbn [snd].
  rewrite (run_bind (saveLogToHistoryEffect _ _ _ _) _ _ tt)
    by (rewrite saveLogToHistoryEffect_run by exact Hloaded; reflexivity).
  rewrite saveLogToHistoryEffect_run by exact Hloaded. cbn [snd].
  rewrite (run_bind getState _ _ _) by reflexivity.
  unfold getState. cbn [snd app].
  rewrite persistHistoryEffect_writes;
    [reflexivity | exact Hloaded | apply foldIntoHistory_not_empty].
Qed.

(** A change of the selected date to another one, in a loaded journal. *)
Lemma changeSelectedDate_run (now : JS.Date.t) (value : string) (w : World) :
  isLoaded (app w) = true ->
  value <> selectedDate (app w) ->
  let chosen :=
    default (getInitialLog value)
      (List.find (fun h => bool_decide (DailyLog.date h = value)) (history (app w))) in
  changeSelectedDate localeCompare JSON_stringify_log JSON_stringify_history now value w
  = (Normal tt,
     {| app :=
          setHistory (foldIntoHistory localeCompare chosen)
            (setLog (fun _ => chosen) (setSelectedDate value (app w)));
        localStorage :=
          <[HISTORY_KEY :=
              JSON_stringify_history (foldIntoHistory localeCompare chosen (history (app w)))]>
            (if decide (DailyLog.date chosen = getLocalDateString now)
             then <[LOG_KEY := JSON_stringify_log chosen]> (localStorage w)
             else localStorage w);
        console := console w |}).
Proof.
  intros Hloaded Hother. cbv zeta. unfold changeSelectedDate.
  rewrite (run_bind getState _ w (app w)) by reflexivity.
  unfold getState at 1. cbn [snd].
  rewrite decide_False by exact Hother.
  rewrite (run_bind (update _) _ _ tt) by reflexivity.
  rewrite (run_bind getState _ _ _) by reflexivity.
  unfold getState at 1, update. cbn [snd app].
  rewrite (run_bind (dateSelectionEffect _) _ _ tt)
    by (rewrite dateSelectionEffect_run by exact Hloaded; reflexivity).
  rewrite dateSelectionEffect_run by exact Hloaded. cbn [snd].
  rewrite afterLogChange_run by exact Hloaded. reflexivity.
Qed.

Lemma selectDate_run_app (now : JS.Date.t) (value : string) (w : World) :
  isLoaded (app w) = true ->
  value <> selectedDate (app w) ->
  app (exec (selectDate localeCompare JSON_stringify_log JSON_stringify_history now value) w)
  = setHistory
      (foldIntoHistory localeCompare
         (default (getInitialLog value)
            (List.find (fun h => bool_decide (DailyLog.date h = value)) (history (app w)))))
      (setLog (fun _ =>
                 default (getInitialLog value)
                   (List.find (fun h => bool_decide (DailyLog.date h = value))
                              (history (app w))))
              (setSelectedDate value (app w))) /\
  console (exec (selectDate localeCompare JSON_stringify_log JSON_stringify_history
                   now value) w)
  = console w ++ [console_log ("CRITICAL: Date changed to " +:+ value)].
Proof.
  intros Hloaded Hother. unfold selectDate.
  rewrite (exec_bind (console_write _) _ w tt) by reflexivity.
  unfold exec, console_write. cbn [snd].
  rewrite changeSelectedDate_run by assumption.
  split; reflexivity.
Qed.

(** Picking another date in the date input of a loaded journal that shows
    the selected day's record selects the picked date and shows the first
    record of the history with that date key, or a fresh record when there
    is none.  Either way the record shown has the picked date key, is in
    the history afterwards, and the history as written to its slot is the
    in-memory one. *)
Theorem selectDate_shows_that_day (now : JS.Date.t) (value : string) (w : World) :
  isLoaded (app w) = true ->
  DailyLog.date (log (app w)) = selectedDate (app w) ->
  value <> selectedDate (app w) ->
  let w' :=
    exec (selectDate localeCompare JSON_stringify_log JSON_stringify_history now value) w in
  selectedDate (app w') = value /\
  DailyLog.date (log (app w')) = value /\
  log (app w')
  = default (getInitialLog value)
      (head (filter (fun h => DailyLog.date h = value) (history (app w)))) /\
  history (app w') = foldIntoHistory localeCompare (log (app w')) (history (app w)) /\
  log (app w') ∈ history (app w') /\
  historySlot w' = Some (JSON_stringify_history (history (app w'))).
Proof.
  intros Hloaded _ Hother. cbv zeta. unfold selectDate.
  rewrite (exec_bind (console_write _) _ w tt) by reflexivity.
  unfold exec, console_write. cbn [snd].
  rewrite changeSelectedDate_run by assumption.
  cbn [snd app log history selectedDate setHistory setLog setSelectedDate].
  split; [reflexivity |].
  split; [apply selected_record_date |].
  split; [rewrite find_is_head_of_filter; reflexivity |].
  split; [reflexivity |].
  split; [rewrite foldIntoHistory_Permutation; apply list_elem_of_here |].
  unfold historySlot. cbn [localStorage]. apply lookup_insert_eq.
Qed.

(** In a history with one record per date key, the record of a date is
    the one the search by date finds. *)
Lemma uniqueDates_same_record (l : list DailyLog) (a b : DailyLog) :
  uniqueDates l -> a ∈ l -> b ∈ l -> DailyLog.date a = DailyLog.date b -> a = b.
Proof.
  unfold uniqueDates. induction l as [| h l IH]; intros Hunique Ha Hb Hdate.
  - apply elem_of_nil in Ha. contradiction.
  - rewrite fmap_cons in Hunique. apply NoDup_cons in Hunique as [Hfresh Hunique].
    apply elem_of_cons in Ha as [-> | Ha]; apply elem_of_cons in Hb as [-> | Hb].
    + reflexivity.
    + exfalso. apply Hfresh. apply list_elem_of_fmap. exists b. split; assumption.
    + exfalso. apply Hfresh. apply list_elem_of_fmap. exists a. split; [symmetry |]; assumption.
    + apply IH; assumption.
Qed.

Lemma uniqueDates_find (l : list DailyLog) (h : DailyLog) :
  uniqueDates l -> h ∈ l ->
  List.find (fun r => bool_decide (DailyLog.date r = DailyLog.date h)) l = Some h.
Proof.
  intros Hunique Hh.
  destruct (List.find _ l) as [r |] eqn:Hfind.
  - apply find_some in Hfind as [Hr Hdate].
    apply bool_decide_eq_true_1 in Hdate. apply list_elem_of_In in Hr.
    f_equal. exact (uniqueDates_same_record l r h Hunique Hr Hh Hdate).
  - apply list_elem_of_In in Hh.
    pose proof (find_none _ _ Hfind h Hh) as Hno. simpl in Hno.
    rewrite bool_decide_eq_true_2 in Hno by reflexivity. discriminate.
Qed.

(** The date button of a row of the history view opens that row: in a
    loaded journal whose history has one record per date key and holds the
    record shown under the selected date, the click leaves the row's date
    selected and the row's record shown.  For the row of the selected day
    the click changes nothing. *)
Theorem openHistoryDay_shows_that_row (now : JS.Date.t) (h : DailyLog) (w : World) :
  isLoaded (app w) = true ->
  DailyLog.date (log (app w)) = selectedDate (app w) ->
  log (app w) ∈ history (app w) ->
  uniqueDates (history (app w)) ->
  h ∈ history (app w) ->
  let w' :=
    exec (openHistoryDay localeCompare JSON_stringify_log JSON_stringify_history now h) w in
  selectedDate (app w') = DailyLog.date h /\
  log (app w') = h /\
  (DailyLog.date h = selectedDate (app w) -> w' = w).
Proof.
  intros Hloaded Hshown Hlog Hunique Hh. cbv zeta. unfold openHistoryDay, exec.
  destruct (decide (DailyLog.date h = selectedDate (app w))) as [Hsame | Hother].
  - assert (Hrun : changeSelectedDate localeCompare JSON_stringify_log
                     JSON_stringify_history now (DailyLog.date h) w = (Normal tt, w)).
    { unfold changeSelectedDate.
      rewrite (run_bind getState _ w (app w)) by reflexivity.
      unfold getState. cbn [snd]. rewrite decide_True by exact Hsame. reflexivity. }
    rewrite Hrun. cbn [snd].
    split; [symmetry; exact Hsame |]. split; [| reflexivity].
    apply (uniqueDates_same_record (history (app w))); try assumption. congruence.
  - rewrite changeSelectedDate_run by assumption.
    cbn [snd app log selectedDate setHistory setLog setSelectedDate].
    rewrite (uniqueDates_find _ h Hunique Hh).
    split; [reflexivity |]. split; [reflexivity | contradiction].
Qed.

Lemma filter_of_other_date (a b : string) (l : list DailyLog) :
  a <> b ->
  filter (fun h => DailyLog.date h = a) (filter (fun h => DailyLog.date h <> b) l)
  = filter (fun h => DailyLog.date h = a) l.
Proof.
  intros Hab. induction l as [| h l IH]; [reflexivity |].
  rewrite !(filter_cons _ h).
  destruct (decide (DailyLog.date h <> b)) as [Hne | Heq].
  - rewrite filter_cons, IH. reflexivity.
  - destruct (decide (DailyLog.date h = a)) as [Ha | _]; [| exact IH].
    exfalso. apply Heq. congruence.
Qed.

(** Going to another date and coming back loses nothing: after an edit of
    the selected day's record, picking another date and then the first date
    again shows the edited record, as it was. *)
Theorem browse_and_return (now there back : JS.Date.t)
    (f : DailyLog -> DailyLog) (other : string) (w : World) :
  isLoaded (app w) = true ->
  DailyLog.date (f (log (app w))) = selectedDate (app w) ->
  other <> selectedDate (app w) ->
  let edited :=
    exec (mutate localeCompare JSON_stringify_log JSON_stringify_history now f) w in
  let away :=
    exec (selectDate localeCompare JSON_stringify_log JSON_stringify_history there other)
         edited in
  let returned :=
    exec (selectDate localeCompare JSON_stringify_log JSON_stringify_history back
            (selectedDate (app w))) away in
  selectedDate (app away) = other /\
  selectedDate (app returned) = selectedDate (app w) /\
  log (app returned) = log (app edited).
Proof.
  intros Hloaded Hdate Hother. cbv zeta.
  destruct (mutate_app localeCompare JSON_stringify_log JSON_stringify_history
              now f w Hloaded) as [_ Hedited].
  set (edited := exec (mutate localeCompare JSON_stringify_log JSON_stringify_history
                         now f) w) in *.
  assert (Hloaded1 : isLoaded (app edited) = true) by (rewrite Hedited; exact Hloaded).
  assert (Hselected1 : selectedDate (app edited) = selectedDate (app w))
    by (rewrite Hedited; reflexivity).
  assert (Hother1 : other <> selectedDate (app edited)) by (rewrite Hselected1; exact Hother).
  destruct (selectDate_run_app there other edited Hloaded1 Hother1) as [Haway _].
  set (away := exec (selectDate localeCompare JSON_stringify_log JSON_stringify_history
                       there other) edited) in *.
  assert (Hloaded2 : isLoaded (app away) = true) by (rewrite Haway; exact Hloaded1).
  assert (Hselected2 : selectedDate (app away) = other) by (rewrite Haway; reflexivity).
  assert (Hback : selectedDate (app w) <> selectedDate (app away))
    by (rewrite Hselected2; congruence).
  destruct (selectDate_run_app back (selectedDate (app w)) away Hloaded2 Hback)
    as [Hreturned _].
  split; [exact Hselected2 |].
  rewrite Hreturned. cbn [selectedDate log setHistory setLog setSelectedDate].
  split; [reflexivity |].
  rewrite find_is_head_of_filter.
  assert (Honce : filter (fun h => DailyLog.date h = selectedDate (app w)) (history (app away))
                  = [log (app edited)]).
  { rewrite Haway. cbn [history setHistory setLog setSelectedDate].
    apply Permutation_singleton_r.
    rewrite foldIntoHistory_Permutation.
    rewrite filter_cons_False by (rewrite selected_record_date; exact Hother).
    rewrite selected_record_date.
    rewrite filter_of_other_date by congruence.
    rewrite Hedited. cbn [history log setHistory setLog].
    rewrite <- Hdate. rewrite foldIntoHistory_holds_log_once. reflexivity. }
  rewrite Honce. reflexivity.
Qed.

End NavigationFacts.

(** A date picked among stored days, and a date no record exists for. *)
Lemma selectDate_shows_that_day_witness :
  log (app (exec (selectDate Sample.codeUnitCompare Sample.JSON_stringify_log
                    Sample.JSON_stringify_history Sample.morning "2024-01-01")
              (Sample.running
                 (setHistory (fun _ => [Sample.june1_logged; Sample.newYear]) Sample.loaded) ∅)))
  = Sample.newYear /\
  history (app (exec (selectDate Sample.codeUnitCompare Sample.JSON_stringify_log
                        Sample.JSON_stringify_history Sample.morning "2024-05-31")
                  (Sample.running
                     (setHistory (fun _ => [Sample.june1_logged; Sample.newYear])
                        Sample.loaded) ∅)))
  = [Sample.june1_logged; Sample.may31; Sample.newYear].
Proof.
  split.
  - destruct (selectDate_shows_that_day Sample.codeUnitCompare Sample.JSON_stringify_log
                Sample.JSON_stringify_history Sample.morning "2024-01-01"
                (Sample.running
                   (setHistory (fun _ => [Sample.june1_logged; Sample.newYear])
                      Sample.loaded) ∅))
      as (_ & _ & Hshown & _); [reflexivity | reflexivity | simpl; discriminate |].
    rewrite Hshown. reflexivity.
  - destruct (selectDate_shows_that_day Sample.codeUnitCompare Sample.JSON_stringify_log
                Sample.JSON_stringify_history Sample.morning "2024-05-31"
                (Sample.running
                   (setHistory (fun _ => [Sample.june1_logged; Sample.newYear])
                      Sample.loaded) ∅))
      as (_ & _ & Hshown & Hhistory & _);
      [reflexivity | reflexivity | simpl; discriminate |].
    rewrite Hhistory, Hshown. vm_compute. reflexivity.
Defined.

(** The New Year's Day row, opened from 1 June. *)
Lemma openHistoryDay_shows_that_row_witness :
  log (app (exec (openHistoryDay Sample.codeUnitCompare Sample.JSON_stringify_log
                    Sample.JSON_stringify_history Sample.morning Sample.newYear)
              (Sample.running
                 (setHistory (fun _ => [Sample.june1; Sample.newYear]) Sample.loaded) ∅)))
  = Sample.newYear.
Proof.
  destruct (openHistoryDay_shows_that_row Sample.codeUnitCompare Sample.JSON_stringify_log
              Sample.JSON_stringify_history Sample.morning Sample.newYear
              (Sample.running
                 (setHistory (fun _ => [Sample.june1; Sample.newYear]) Sample.loaded) ∅))
    as (_ & Hshown & _).
  - reflexivity.
  - reflexivity.
  - apply list_elem_of_here.
  - unfold uniqueDates. simpl. apply NoDup_cons. split.
    + intros Hin. apply list_elem_of_singleton in Hin. discriminate.
    + apply NoDup_singleton.
  - apply list_elem_of_further, list_elem_of_here.
  - exact Hshown.
Defined.

(** A glass of water on 1 June, a look at 31 May, and back. *)
Lemma browse_and_return_witness :
  log (app
    (exec (selectDate Sample.codeUnitCompare Sample.JSON_stringify_log
             Sample.JSON_stringify_history Sample.morning "2024-06-01")
       (exec (selectDate Sample.codeUnitCompare Sample.JSON_stringify_log
                Sample.JSON_stringify_history Sample.morning "2024-05-31")
          (exec (mutate Sample.codeUnitCompare Sample.JSON_stringify_log
                   Sample.JSON_stringify_history Sample.morning (with_waterIntake 1))
             (Sample.running Sample.loaded ∅)))))
  = with_waterIntake 1 Sample.june1.
Proof.
  destruct (browse_and_return Sample.codeUnitCompare Sample.JSON_stringify_log
              Sample.JSON_stringify_history Sample.morning Sample.morning Sample.morning
              (with_waterIntake 1) "2024-05-31" (Sample.running Sample.loaded ∅))
    as (_ & _ & Hreturned); [reflexivity | reflexivity | simpl; discriminate |].
  etransitivity; [exact Hreturned |].
  vm_compute. reflexivity.
Defined.

(** ** The whole start-up *)

Section StartupFacts.
Variable localeCompare : string -> string -> Z.
Variable JSON_stringify_log : DailyLog -> string.
Variable JSON_stringify_history : list DailyLog -> string.
Variable JSON_parse_log : string -> option PartialLog.
Variable JSON_parse_history : string -> option (list DailyLog).

(** The history the load leaves: the parsed history text when the slot
    holds a text that parses, and the history of the first render
    otherwise, whatever the draft slot holds; the selected date is not
    touched. *)
Lemma initialLoadEffect_history (now : JS.Date.t) (w : World) :
  history (app (exec (initialLoadEffect JSON_parse_log JSON_parse_history now) w))
  = default (history (app w))
      (text ← historySlot w;
       if JS.truthy text then JSON_parse_history text else None) /\
  selectedDate (app (exec (initialLoadEffect JSON_parse_log JSON_parse_history now) w))
  = selectedDate (app w).
Proof.
  assert (Hread : forall stored,
    slotReads JSON_parse_history (historySlot w) stored ->
    (text ← historySlot w; if JS.truthy text then JSON_parse_history text else None)
    = stored).
  { intros stored. unfold slotReads.
    destruct (historySlot w) as [text |]; simpl; [| congruence].
    destruct (JS.truthy text); [intros [_ Hstored]; exact Hstored | congruence]. }
  unfold exec.
  destruct (slot_reads_or_malformed JSON_parse_history (historySlot w)) as [[stored Hh] | Hh].
  - rewrite (Hread stored Hh).
    destruct (slot_reads_or_malformed JSON_parse_log (draftSlot w)) as [[draft Hl] | Hl].
    + rewrite (initialLoadEffect_run JSON_parse_log JSON_parse_history now w stored draft Hh Hl).
      destruct stored; split; reflexivity.
    + rewrite (initialLoadEffect_run_bad_draft JSON_parse_log JSON_parse_history
                 now w stored Hh Hl).
      destruct stored; split; reflexivity.
  - rewrite (initialLoadEffect_run_bad_history JSON_parse_log JSON_parse_history now w Hh).
    destruct Hh as (text & -> & Hne & Hparse). simpl.
    rewrite (truthy_nonempty text Hne), Hparse. split; reflexivity.
Qed.

(** The guard at work: a loaded render with an empty history, over a history
    slot that holds a text other than the empty one and [[]], writes nothing
    and prints the warning. *)
Lemma persistHistoryEffect_blocks (r : AppState) (w : World) (text : string) :
  isLoaded r = true ->
  history r = [] ->
  localStorage w !! HISTORY_KEY = Some text ->
  text <> "" ->
  text <> "[]" ->
  persistHistoryEffect JSON_stringify_history r w
  = (Normal tt,
     {| app := app w;
        localStorage := localStorage w;
        console :=
          console w ++
          [console_warn
             "Journal: Blocked attempt to overwrite storage with empty state. History is SAFE."] |}).
Proof.
  intros Hloaded Hhistory Hslot Hne Hnot. unfold persistHistoryEffect.
  rewrite Hloaded, Hhistory. run_effect. rewrite Hslot. simpl.
  rewrite (truthy_nonempty text Hne).
  rewrite bool_decide_eq_false_2 by congruence. reflexivity.
Qed.

(** The start-up commit by commit: the world after the load and the commit
    that follows it, and the world at the end. *)
Lemma startup_steps (now : JS.Date.t) (w : World) :
  let w1 := exec (initialLoadEffect JSON_parse_log JSON_parse_history now) w in
  let w2 :=
    exec (dateSelectionEffect (app w1))
      (exec (persistHistoryEffect JSON_stringify_history (app w1))
         (exec (saveLogToHistoryEffect localeCompare JSON_stringify_log now (app w1)) w1)) in
  let w3 :=
    exec (persistHistoryEffect JSON_stringify_history (app w2))
      (exec (saveLogToHistoryEffect localeCompare JSON_stringify_log now (app w2)) w2) in
  exec (initialLoadEffect JSON_parse_log JSON_parse_history now ;;
        commitAfterLoad localeCompare JSON_stringify_log JSON_stringify_history now) w
  = w2 /\
  exec (startup localeCompare JSON_stringify_log JSON_stringify_history
          JSON_parse_log JSON_parse_history now) w
  = exec (persistHistoryEffect JSON_stringify_history (app w3)) w3.
Proof.
  cbv zeta.
  destruct (initialLoadEffect_completes JSON_parse_log JSON_parse_history now w)
    as (Hload & Hloaded & _).
  set (w1 := exec (initialLoadEffect JSON_parse_log JSON_parse_history now) w) in *.
  set (w2a := exec (saveLogToHistoryEffect localeCompare JSON_stringify_log now (app w1)) w1).
  set (w2b := exec (persistHistoryEffect JSON_stringify_history (app w1)) w2a).
  set (w2 := exec (dateSelectionEffect (app w1)) w2b).
  set (w3a := exec (saveLogToHistoryEffect localeCompare JSON_stringify_log now (app w2)) w2).
  set (w3b := exec (persistHistoryEffect JSON_stringify_history (app w2)) w3a).
  assert (Hsave : forall r w0, isLoaded r = true ->
            fst (saveLogToHistoryEffect localeCompare JSON_stringify_log now r w0) = Normal tt)
    by (intros r w0 Hr; rewrite saveLogToHistoryEffect_run by exact Hr; reflexivity).
  assert (Hpersist : forall r w0,
            fst (persistHistoryEffect JSON_stringify_history r w0) = Normal tt)
    by (intros r w0; apply persistHistoryEffect_app).
  assert (Hselect : forall r w0, isLoaded r = true -> fst (dateSelectionEffect r w0) = Normal tt)
    by (intros r w0 Hr; rewrite dateSelectionEffect_run by exact Hr; reflexivity).
  assert (Hloaded2 : isLoaded (app w2) = true).
  { assert (Happ2a : app w2a
                     = setHistory (foldIntoHistory localeCompare (log (app w1))) (app w1))
      by (unfold w2a, exec; rewrite saveLogToHistoryEffect_run by exact Hloaded; reflexivity).
    assert (Happ2b : app w2b = app w2a) by apply persistHistoryEffect_app.
    unfold w2, exec. rewrite dateSelectionEffect_run by exact Hloaded. cbn [snd app].
    rewrite Happ2b, Happ2a. exact Hloaded. }
  assert (Hcommit : forall w0 : World,
    (getState ≫= fun r =>
       saveLogToHistoryEffect localeCompare JSON_stringify_log now r ;;
       persistHistoryEffect JSON_stringify_history r ;;
       dateSelectionEffect r) w0
    = (saveLogToHistoryEffect localeCompare JSON_stringify_log now (app w0) ;;
       persistHistoryEffect JSON_stringify_history (app w0) ;;
       dateSelectionEffect (app w0)) w0) by reflexivity.
  assert (Hcommitted :
    exec (commitAfterLoad localeCompare JSON_stringify_log JSON_stringify_history now) w1
    = w2).
  { unfold commitAfterLoad, exec. rewrite Hcommit.
    rewrite (run_bind _ _ w1 tt (Hsave _ _ Hloaded)). fold w2a.
    rewrite (run_bind _ _ w2a tt (Hpersist _ _)). reflexivity. }
  assert (Hcommit_done :
    fst (commitAfterLoad localeCompare JSON_stringify_log JSON_stringify_history now w1)
    = Normal tt).
  { unfold commitAfterLoad. rewrite Hcommit.
    rewrite (run_bind _ _ w1 tt (Hsave _ _ Hloaded)).
    rewrite (run_bind _ _ _ tt (Hpersist _ _)).
    apply Hselect. exact Hloaded. }
  split.
  - rewrite (exec_bind _ _ w tt Hload). exact Hcommitted.
  - unfold startup.
    rewrite (exec_bind _ _ w tt Hload). fold w1.
    rewrite (exec_bind _ _ w1 tt Hcommit_done). rewrite Hcommitted.
    assert (Hrest : forall w0 : World,
      (getState ≫= fun r =>
         saveLogToHistoryEffect localeCompare JSON_stringify_log now r ;;
         persistHistoryEffect JSON_stringify_history r ;;
         r' ← getState;
         persistHistoryEffect JSON_stringify_history r') w0
      = (saveLogToHistoryEffect localeCompare JSON_stringify_log now (app w0) ;;
         persistHistoryEffect JSON_stringify_history (app w0) ;;
         r' ← getState;
         persistHistoryEffect JSON_stringify_history r') w0) by reflexivity.
    unfold exec at 1. rewrite Hrest.
    rewrite (run_bind _ _ w2 tt (Hsave _ _ Hloaded2)). fold w3a.
    rewrite (run_bind _ _ w3a tt (Hpersist _ _)). fold w3b.
    reflexivity.
Qed.

(** The component state and the two slots at the end of the start-up, in
    terms of the state the load leaves. *)
Lemma startup_outcome (now : JS.Date.t) (w : World) :
  let loaded := app (exec (initialLoadEffect JSON_parse_log JSON_parse_history now) w) in
  let chosen :=
    default (getInitialLog (selectedDate loaded))
      (List.find (fun h => bool_decide (DailyLog.date h = selectedDate loaded))
                 (history loaded)) in
  let w' := exec (startup localeCompare JSON_stringify_log JSON_stringify_history
                    JSON_parse_log JSON_parse_history now) w in
  app w'
  = setHistory (foldIntoHistory localeCompare chosen)
      (setLog (fun _ => chosen)
         (setHistory (foldIntoHistory localeCompare (log loaded)) loaded)) /\
  historySlot w' = Some (JSON_stringify_history (history (app w'))) /\
  (DailyLog.date chosen = getLocalDateString now ->
   draftSlot w' = Some (JSON_stringify_log chosen)).
Proof.
  cbv zeta.
  destruct (initialLoadEffect_completes JSON_parse_log JSON_parse_history now w)
    as (Hload & Hloaded & _).
  set (w1 := exec (initialLoadEffect JSON_parse_log JSON_parse_history now) w) in *.
  set (w2a := exec (saveLogToHistoryEffect localeCompare JSON_stringify_log now (app w1)) w1).
  set (w2b := exec (persistHistoryEffect JSON_stringify_history (app w1)) w2a).
  set (w2 := exec (dateSelectionEffect (app w1)) w2b).
  set (w3a := exec (saveLogToHistoryEffect localeCompare JSON_stringify_log now (app w2)) w2).
  set (w3b := exec (persistHistoryEffect JSON_stringify_history (app w2)) w3a).
  set (w4 := exec (persistHistoryEffect JSON_stringify_history (app w3b)) w3b).
  assert (Hsave : forall r w0, isLoaded r = true ->
            fst (saveLogToHistoryEffect localeCompare JSON_stringify_log now r w0) = Normal tt)
    by (intros r w0 Hr; rewrite saveLogToHistoryEffect_run by exact Hr; reflexivity).
  assert (Hpersist : forall r w0,
            fst (persistHistoryEffect JSON_stringify_history r w0) = Normal tt)
    by (intros r w0; apply persistHistoryEffect_app).
  assert (Hselect : forall r w0, isLoaded r = true -> fst (dateSelectionEffect r w0) = Normal tt)
    by (intros r w0 Hr; rewrite dateSelectionEffect_run by exact Hr; reflexivity).
  assert (Happ2a : app w2a = setHistory (foldIntoHistory localeCompare (log (app w1))) (app w1)).
  { unfold w2a, exec. rewrite saveLogToHistoryEffect_run by exact Hloaded. reflexivity. }
  assert (Happ2b : app w2b = app w2a) by apply persistHistoryEffect_app.
  assert (Happ2 : app w2
    = setLog (fun _ =>
                default (getInitialLog (selectedDate (app w1)))
                  (List.find (fun h => bool_decide (DailyLog.date h = selectedDate (app w1)))
                             (history (app w1))))
             (setHistory (foldIntoHistory localeCompare (log (app w1))) (app w1))).
  { unfold w2, exec. rewrite dateSelectionEffect_run by exact Hloaded. cbn [snd app].
    rewrite Happ2b, Happ2a. reflexivity. }
  assert (Hloaded2 : isLoaded (app w2) = true) by (rewrite Happ2; exact Hloaded).
  assert (Hw3a : w3a
    = {| app := setHistory (foldIntoHistory localeCompare (log (app w2))) (app w2);
         localStorage :=
           if decide (DailyLog.date (log (app w2)) = getLocalDateString now)
           then <[LOG_KEY := JSON_stringify_log (log (app w2))]> (localStorage w2)
           else localStorage w2;
         console := console w2 |}).
  { unfold w3a, exec. rewrite saveLogToHistoryEffect_run by exact Hloaded2. reflexivity. }
  assert (Happ3b : app w3b = app w3a) by apply persistHistoryEffect_app.
  assert (Hdraft3b : draftSlot w3b = draftSlot w3a) by apply persistHistoryEffect_draftSlot.
  assert (Hloaded3 : isLoaded (app w3b) = true)
    by (rewrite Happ3b, Hw3a; exact Hloaded2).
  assert (Hhistory3 : history (app w3b) <> [])
    by (rewrite Happ3b, Hw3a; apply foldIntoHistory_not_empty).
  assert (Hend :
    exec (startup localeCompare JSON_stringify_log JSON_stringify_history
            JSON_parse_log JSON_parse_history now) w = w4).
  { unfold startup, commitAfterLoad.
    rewrite (exec_bind _ _ w tt Hload). fold w1.
    assert (Hcommit : forall w0 : World,
      (getState ≫= fun r =>
         saveLogToHistoryEffect localeCompare JSON_stringify_log now r ;;
         persistHistoryEffect JSON_stringify_history r ;;
         dateSelectionEffect r) w0
      = (saveLogToHistoryEffect localeCompare JSON_stringify_log now (app w0) ;;
         persistHistoryEffect JSON_stringify_history (app w0) ;;
         dateSelectionEffect (app w0)) w0) by reflexivity.
    rewrite (exec_bind _ _ w1 tt).
    2:{ rewrite Hcommit.
        rewrite (run_bind _ _ w1 tt (Hsave _ _ Hloaded)).
        rewrite (run_bind _ _ _ tt (Hpersist _ _)).
        apply Hselect. exact Hloaded. }
    unfold exec at 2. rewrite Hcommit.
    rewrite (run_bind _ _ w1 tt (Hsave _ _ Hloaded)). fold w2a.
    rewrite (run_bind _ _ w2a tt (Hpersist _ _)). fold w2b.
    fold (exec (dateSelectionEffect (app w1)) w2b). fold w2.
    assert (Hrest : forall w0 : World,
      (getState ≫= fun r =>
         saveLogToHistoryEffect localeCompare JSON_stringify_log now r ;;
         persistHistoryEffect JSON_stringify_history r ;;
         r' ← getState;
         persistHistoryEffect JSON_stringify_history r') w0
      = (saveLogToHistoryEffect localeCompare JSON_stringify_log now (app w0) ;;
         persistHistoryEffect JSON_stringify_history (app w0) ;;
         r' ← getState;
         persistHistoryEffect JSON_stringify_history r') w0) by reflexivity.
    unfold exec. rewrite Hrest.
    rewrite (run_bind _ _ w2 tt (Hsave _ _ Hloaded2)). fold w3a.
    rewrite (run_bind _ _ w3a tt (Hpersist _ _)). fold w3b.
    reflexivity. }
  rewrite Hend. unfold w4, exec.
  rewrite (persistHistoryEffect_writes _ _ _ Hloaded3 Hhistory3).
  cbn [snd app]. unfold historySlot, draftSlot. cbn [localStorage].
  split; [| split].
  - rewrite Happ3b, Hw3a. cbn [app]. rewrite Happ2. reflexivity.
  - apply lookup_insert_eq.
  - intros Htoday. rewrite lookup_insert_ne by discriminate.
    fold (draftSlot w3b). rewrite Hdraft3b, Hw3a. unfold draftSlot. cbn [localStorage].
    rewrite Happ2. cbn [log setLog setHistory].
    rewrite decide_True by exact Htoday. apply lookup_insert_eq.
Qed.

(** The record the load leaves has today's date key whenever the record of
    the first render has it. *)
Lemma initialLoadEffect_log_date (now : JS.Date.t) (w : World) :
  DailyLog.date (log (app w)) = getLocalDateString now ->
  DailyLog.date (log (app (exec (initialLoadEffect JSON_parse_log JSON_parse_history now) w)))
  = getLocalDateString now.
Proof.
  intros Hfirst. unfold exec.
  destruct (slot_reads_or_malformed JSON_parse_history (historySlot w)) as [[stored Hh] | Hh].
  - destruct (slot_reads_or_malformed JSON_parse_log (draftSlot w)) as [[draft Hl] | Hl].
    + rewrite (initialLoadEffect_run JSON_parse_log JSON_parse_history now w stored draft Hh Hl).
      cbn [snd app log setIsLoaded setLog].
      destruct (List.find _ (default [] stored)) as [h |] eqn:Hfind; cbn [default from_option id].
      * apply find_some in Hfind as [_ Hdate].
        apply bool_decide_eq_true_1 in Hdate. exact Hdate.
      * destruct draft as [parsed |]; [| reflexivity].
        destruct (decide (PartialLog.date parsed = Some (getLocalDateString now)))
          as [Hdate |]; [| reflexivity].
        unfold spread. cbn [DailyLog.date]. rewrite Hdate. reflexivity.
    + rewrite (initialLoadEffect_run_bad_draft JSON_parse_log JSON_parse_history
                 now w stored Hh Hl).
      destruct stored; exact Hfirst.
  - rewrite (initialLoadEffect_run_bad_history JSON_parse_log JSON_parse_history now w Hh).
    exact Hfirst.
Qed.

(** Folding a record in after a record of the same date was folded in
    gives what folding it in alone gives. *)
Lemma foldIntoHistory_again (x l : DailyLog) (h : list DailyLog) :
  consistentComparator localeCompare ->
  DailyLog.date x = DailyLog.date l ->
  foldIntoHistory localeCompare l (foldIntoHistory localeCompare x h)
  = foldIntoHistory localeCompare l h.
Proof.
  intros [Htotal Htrans] Hdate. unfold foldIntoHistory. cbn [JS.Array_sort].
  rewrite Hdate.
  rewrite filter_sort_insert_other by (intros Hne; apply Hne; exact Hdate).
  rewrite (filter_keeps_all _ (JS.Array_sort _ _)).
  2:{ apply Forall_forall. intros r Hr. rewrite Array_sort_Permutation in Hr.
      apply list_elem_of_filter in Hr as [Hr _]. exact Hr. }
  rewrite (Array_sort_of_sorted _ (JS.Array_sort _ _)); [reflexivity |].
  apply (Array_sort_sorted (byDateDescending localeCompare)).
  - intros a b. unfold byDateDescending.
    destruct (Htotal (DailyLog.date b) (DailyLog.date a)); auto.
  - intros a b c. unfold byDateDescending. eauto.
Qed.

(** Over a storage whose two texts are each one [JSON.parse] throws on or
    one it reads as a value of the declared type (an array of records, a
    draft whose members have the members' types), the record a start-up ends
    on depends on the history slot alone: it is the first record of the
    stored history with the date key of the day the component was mounted,
    or a fresh record for that day when the slot is missing or empty, when
    [JSON.parse] throws on its text, or when the history holds no such
    record; the draft slot has no part in it.  The history then holds that
    record as its only record of the day, the history slot holds the
    serialization of the history, and, the clock still showing the day of
    the mount, the draft slot holds the serialization of that record. *)
Theorem startup_shows_stored_day_or_fresh (mount now : JS.Date.t)
    (storage : gmap string string) (out : list ConsoleLine) :
  let today := getLocalDateString mount in
  let stored :=
    default []
      (text ← storage !! HISTORY_KEY;
       if JS.truthy text then JSON_parse_history text else None) in
  let w' :=
    exec (startup localeCompare JSON_stringify_log JSON_stringify_history
            JSON_parse_log JSON_parse_history now)
         {| app := initialState mount; localStorage := storage; console := out |} in
  isLoaded (app w') = true /\
  selectedDate (app w') = today /\
  log (app w')
  = default (getInitialLog today)
      (List.find (fun h => bool_decide (DailyLog.date h = today)) stored) /\
  filter (fun h => DailyLog.date h = today) (history (app w')) = [log (app w')] /\
  historySlot w' = Some (JSON_stringify_history (history (app w'))) /\
  (today = getLocalDateString now ->
   draftSlot w' = Some (JSON_stringify_log (log (app w')))).
Proof.
  cbv zeta.
  set (w := {| app := initialState mount; localStorage := storage; console := out |}).
  destruct (startup_outcome now w) as (Happ & Hslot & Hdraft).
  destruct (initialLoadEffect_history now w) as (Hhistory & Hselected).
  destruct (initialLoadEffect_completes JSON_parse_log JSON_parse_history now w)
    as (_ & Hloaded & _).
  rewrite Hhistory, Hselected in Happ, Hdraft.
  change (selectedDate (app w)) with (getLocalDateString mount) in Happ, Hdraft.
  change (history (app w)) with (@nil DailyLog) in Happ, Hdraft.
  change (historySlot w) with (storage !! HISTORY_KEY) in Happ, Hdraft.
  rewrite selected_record_date in Hdraft.
  rewrite Hslot, Happ.
  cbn [isLoaded selectedDate log history setHistory setLog].
  split; [exact Hloaded |]. split; [exact Hselected |]. split; [reflexivity |].
  split; [| split; [reflexivity | exact Hdraft]].
  match goal with
  | |- context [foldIntoHistory localeCompare ?chosen ?prev] =>
      pose proof (foldIntoHistory_holds_log_once localeCompare chosen prev) as Honce
  end.
  rewrite selected_record_date in Honce. exact Honce.
Qed.

(** A history text the parser throws on does not survive the start-up.  In
    the commit after the load the guard of the persist effect blocks the
    write of the empty history: the slot still holds the text, and the
    warning is printed after the two lines of the failed load.  The commits
    that follow write a history that holds nothing but a fresh record for
    the day of the mount over the text, and print nothing more: the guard
    has blocked once. *)
Theorem startup_replaces_unreadable_history (mount now : JS.Date.t)
    (storage : gmap string string) (out : list ConsoleLine) (text : string) :
  storage !! HISTORY_KEY = Some text ->
  text <> "" ->
  text <> "[]" ->
  JSON_parse_history text = None ->
  let w := {| app := initialState mount; localStorage := storage; console := out |} in
  let blocked :=
    exec (initialLoadEffect JSON_parse_log JSON_parse_history now ;;
          commitAfterLoad localeCompare JSON_stringify_log JSON_stringify_history now) w in
  let w' :=
    exec (startup localeCompare JSON_stringify_log JSON_stringify_history
            JSON_parse_log JSON_parse_history now) w in
  historySlot blocked = Some text /\
  console blocked
  = out ++ [console_log "App: Initializing v3.0...";
            console_error "Storage Recovery failed";
            console_warn
              "Journal: Blocked attempt to overwrite storage with empty state. History is SAFE."] /\
  history (app w') = [getInitialLog (getLocalDateString mount)] /\
  historySlot w'
  = Some (JSON_stringify_history [getInitialLog (getLocalDateString mount)]) /\
  console w' = console blocked.
Proof.
  intros Hslot Hne Hnot Hparse. cbv zeta.
  set (w := {| app := initialState mount; localStorage := storage; console := out |}).
  assert (Hbad : slotMalformed JSON_parse_history (historySlot w))
    by (exists text; repeat split; assumption).
  destruct (startup_steps now w) as [Hcommitted Hend]. cbv zeta in Hcommitted, Hend.
  set (fresh := getInitialLog (getLocalDateString mount)).
  set (r1 := setIsLoaded true (initialState mount)).
  assert (Hw1 : exec (initialLoadEffect JSON_parse_log JSON_parse_history now) w
                = {| app := r1; localStorage := storage;
                     console := out ++ [console_log "App: Initializing v3.0...";
                                        console_error "Storage Recovery failed"] |}).
  { unfold exec.
    rewrite (initialLoadEffect_run_bad_history JSON_parse_log JSON_parse_history now w Hbad).
    reflexivity. }
  rewrite Hw1 in Hcommitted, Hend. cbn [app] in Hcommitted, Hend.
  set (s1 := if decide (DailyLog.date (log r1) = getLocalDateString now)
             then <[LOG_KEY := JSON_stringify_log (log r1)]> storage
             else storage).
  assert (Hs1 : s1 !! HISTORY_KEY = Some text).
  { unfold s1. destruct (decide _); [rewrite lookup_insert_ne by discriminate |]; exact Hslot. }
  set (lines := out ++ [console_log "App: Initializing v3.0...";
                        console_error "Storage Recovery failed"]) in *.
  set (warning := console_warn
         "Journal: Blocked attempt to overwrite storage with empty state. History is SAFE.").
  assert (Hw2 :
    exec (dateSelectionEffect r1)
      (exec (persistHistoryEffect JSON_stringify_history r1)
         (exec (saveLogToHistoryEffect localeCompare JSON_stringify_log now r1)
            {| app := r1; localStorage := storage; console := lines |}))
    = {| app := setLog (fun _ => fresh) (setHistory (fun _ => [fresh]) r1);
         localStorage := s1;
         console := lines ++ [warning] |}).
  { unfold exec.
    rewrite saveLogToHistoryEffect_run by reflexivity. cbn [snd app localStorage console].
    fold s1.
    rewrite (persistHistoryEffect_blocks r1 _ text) by (try reflexivity; assumption).
    cbn [snd app localStorage console].
    rewrite dateSelectionEffect_run by reflexivity. reflexivity. }
  rewrite Hw2 in Hcommitted, Hend. cbn [app] in Hend.
  set (r2 := setLog (fun _ => fresh) (setHistory (fun _ => [fresh]) r1)) in *.
  set (s2 := if decide (DailyLog.date (log r2) = getLocalDateString now)
             then <[LOG_KEY := JSON_stringify_log (log r2)]> s1
             else s1).
  assert (Hfold : foldIntoHistory localeCompare fresh [fresh] = [fresh]).
  { unfold foldIntoHistory.
    rewrite filter_cons_False by (intros Hkeep; apply Hkeep; reflexivity).
    rewrite filter_nil. reflexivity. }
  assert (Hw3 :
    exec (persistHistoryEffect JSON_stringify_history r2)
      (exec (saveLogToHistoryEffect localeCompare JSON_stringify_log now r2)
         {| app := r2; localStorage := s1; console := lines ++ [warning] |})
    = {| app := r2;
         localStorage := <[HISTORY_KEY := JSON_stringify_history [fresh]]> s2;
         console := lines ++ [warning] |}).
  { unfold exec.
    rewrite saveLogToHistoryEffect_run by reflexivity. cbn [snd app localStorage console].
    fold s2.
    rewrite persistHistoryEffect_writes by (try reflexivity; discriminate).
    cbn [snd app localStorage console].
    change (log r2) with fresh. change (history r2) with [fresh].
    unfold setHistory at 1. cbn [history isLoaded selectedDate log pendingEntry
                                 pendingActivity pendingMisc].
    change (history r2) with [fresh]. rewrite Hfold. reflexivity. }
  rewrite Hw3 in Hend. cbn [app] in Hend.
  rewrite Hcommitted, Hend. unfold exec.
  rewrite persistHistoryEffect_writes by (try reflexivity; discriminate).
  cbn [snd app localStorage console]. unfold historySlot. cbn [localStorage].
  split; [exact Hs1 |]. split; [unfold lines; rewrite <- app_assoc; reflexivity |].
  split; [reflexivity |]. split; [| reflexivity].
  rewrite lookup_insert_eq. reflexivity.
Qed.

(** Closing and reopening the journal on the same day brings back what was
    on the screen: after a mutation, a start-up over the storage the
    session left ends on the mutated record, provided the parser reads back
    the history text the serializer wrote; for a consistent comparator it
    also ends on the same history and the same history text. *)
Theorem restart_restores_journal (now mount : JS.Date.t) (f : DailyLog -> DailyLog)
    (w w' : World) (out : list ConsoleLine) :
  isLoaded (app w) = true ->
  w' = exec (mutate localeCompare JSON_stringify_log JSON_stringify_history now f) w ->
  JSON_parse_history (JSON_stringify_history (history (app w'))) = Some (history (app w')) ->
  JSON_stringify_history (history (app w')) <> "" ->
  DailyLog.date (log (app w')) = getLocalDateString mount ->
  let restarted :=
    exec (startup localeCompare JSON_stringify_log JSON_stringify_history
            JSON_parse_log JSON_parse_history mount)
         {| app := initialState mount; localStorage := localStorage w'; console := out |} in
  log (app restarted) = log (app w') /\
  (consistentComparator localeCompare ->
   history (app restarted) = history (app w') /\
   historySlot restarted = historySlot w').
Proof.
  intros Hloaded Hw' Hparse Htext Hday. cbv zeta.
  set (w0 := {| app := initialState mount; localStorage := localStorage w'; console := out |}).
  destruct (mutate_historySlot localeCompare JSON_stringify_log JSON_stringify_history
              now f w Hloaded) as [Hslot' _].
  destruct (mutate_app localeCompare JSON_stringify_log JSON_stringify_history
              now f w Hloaded) as [_ Happ'].
  rewrite <- Hw' in Hslot', Happ'.
  assert (Hlog' : log (app w') = f (log (app w))) by (rewrite Happ'; reflexivity).
  assert (Hhistory' : history (app w')
                      = foldIntoHistory localeCompare (f (log (app w))) (history (app w)))
    by (rewrite Happ'; reflexivity).
  destruct (startup_outcome mount w0) as (Happ & Hslot & _).
  destruct (initialLoadEffect_history mount w0) as (Hhistory & Hselected).
  pose proof (initialLoadEffect_log_date mount w0 eq_refl) as Hfirst.
  change (historySlot w0) with (historySlot w') in Hhistory.
  rewrite Hslot' in Hhistory. cbn [mbind option_bind] in Hhistory.
  rewrite (truthy_nonempty _ Htext), Hparse in Hhistory. cbn [default from_option id] in Hhistory.
  change (selectedDate (app w0)) with (getLocalDateString mount) in Hselected.
  rewrite Hhistory, Hselected in Happ.
  assert (Hfound :
    List.find (fun h => bool_decide (DailyLog.date h = getLocalDateString mount))
              (history (app w'))
    = Some (log (app w'))).
  { rewrite find_is_head_of_filter, <- Hday, Hlog', Hhistory'.
    rewrite foldIntoHistory_holds_log_once. reflexivity. }
  rewrite Hfound in Happ. cbn [default from_option id] in Happ.
  split; [rewrite Happ; reflexivity |].
  intros Hconsistent.
  assert (Hsame : history (app (exec (startup localeCompare JSON_stringify_log
                                        JSON_stringify_history JSON_parse_log
                                        JSON_parse_history mount) w0))
                  = history (app w')).
  { rewrite Happ. cbn [history setHistory setLog].
    rewrite foldIntoHistory_again by (try exact Hconsistent; congruence).
    rewrite Hhistory, Hlog', Hhistory'.
    apply foldIntoHistory_again; [exact Hconsistent | reflexivity]. }
  split; [exact Hsame |].
  rewrite Hslot, Hsame, Hslot'. reflexivity.
Qed.

End StartupFacts.

(** ** The history over a whole run *)

Section RunFacts.
Variable localeCompare : string -> string -> Z.
Variable JSON_stringify_log : DailyLog -> string.
Variable JSON_stringify_history : list DailyLog -> string.
Variable JSON_parse_log : string -> option PartialLog.
Variable JSON_parse_history : string -> option (list DailyLog).
Hypothesis localeCompare_consistent : consistentComparator localeCompare.

(** What a start-up establishes when the stored history has one record per
    date key. *)
Lemma startup_history (now : JS.Date.t) (w : World) :
  history (app w) = [] ->
  uniqueDates
    (default []
       (text ← historySlot w;
        if JS.truthy text then JSON_parse_history text else None)) ->
  let w' := exec (startup localeCompare JSON_stringify_log JSON_stringify_history
                    JSON_parse_log JSON_parse_history now) w in
  isLoaded (app w') = true /\
  sortedDescending localeCompare (history (app w')) /\
  uniqueDates (history (app w')) /\
  filter (fun h => DailyLog.date h = DailyLog.date (log (app w'))) (history (app w'))
  = [log (app w')] /\
  historySlot w' = Some (JSON_stringify_history (history (app w'))).
Proof.
  intros Hempty Hunique. cbv zeta.
  destruct (startup_outcome localeCompare JSON_stringify_log JSON_stringify_history
              JSON_parse_log JSON_parse_history now w) as (Happ & Hslot & _).
  destruct (initialLoadEffect_history JSON_parse_log JSON_parse_history now w)
    as (Hhistory & _).
  destruct (startup_completes localeCompare JSON_stringify_log JSON_stringify_history
              JSON_parse_log JSON_parse_history now w) as (_ & Hloaded).
  rewrite Hempty in Hhistory.
  split; [exact Hloaded |].
  rewrite Hslot, Happ. cbn [history log setHistory setLog]. rewrite Hhistory.
  split; [apply foldIntoHistory_sorted; exact localeCompare_consistent |].
  split; [apply foldIntoHistory_uniqueDates, foldIntoHistory_uniqueDates; exact Hunique |].
  split; [apply foldIntoHistory_holds_log_once | reflexivity].
Qed.

(** What every sequence of mutations keeps. *)
Lemma mutations_history (steps : list (JS.Date.t * (DailyLog -> DailyLog))) (w : World) :
  isLoaded (app w) = true ->
  sortedDescending localeCompare (history (app w)) ->
  uniqueDates (history (app w)) ->
  filter (fun h => DailyLog.date h = DailyLog.date (log (app w))) (history (app w))
  = [log (app w)] ->
  historySlot w = Some (JSON_stringify_history (history (app w))) ->
  let w' := exec (mutations localeCompare JSON_stringify_log JSON_stringify_history steps) w in
  isLoaded (app w') = true /\
  sortedDescending localeCompare (history (app w')) /\
  uniqueDates (history (app w')) /\
  filter (fun h => DailyLog.date h = DailyLog.date (log (app w'))) (history (app w'))
  = [log (app w')] /\
  historySlot w' = Some (JSON_stringify_history (history (app w'))).
Proof.
  cbv zeta. revert w.
  induction steps as [| [now f] rest IH]; intros w Hloaded Hsorted Hunique Honce Hslot.
  - repeat split; assumption.
  - cbn [mutations].
    destruct (mutate_app localeCompare JSON_stringify_log JSON_stringify_history
                now f w Hloaded) as [Hdone Happ].
    destruct (mutate_historySlot localeCompare JSON_stringify_log JSON_stringify_history
                now f w Hloaded) as [Hslot' _].
    rewrite (exec_bind _ _ w tt Hdone).
    apply IH.
    + rewrite Happ. exact Hloaded.
    + rewrite Happ. apply foldIntoHistory_sorted. exact localeCompare_consistent.
    + rewrite Happ. apply foldIntoHistory_uniqueDates. exact Hunique.
    + rewrite Happ. apply foldIntoHistory_holds_log_once.
    + exact Hslot'.
Qed.

(** C2: in every run of the journal over a storage that is empty or holds a
    history with one record per date key, as every history text the journal
    writes does, the history after the start-up and after every mutation
    that follows is sorted descending by date key and holds at most one
    record per date key, the current record being the one of its key; the
    history slot holds the serialization of that very history, so the next
    run starts from one record per date key again.  One more mutation
    replaces the history by the records of other date keys and the mutated
    record, rearranged: the fold removes the records of the current key,
    adds the current record, and sorts. *)
Theorem history_sorted_and_unique (mount now : JS.Date.t)
    (storage : gmap string string) (out : list ConsoleLine)
    (steps : list (JS.Date.t * (DailyLog -> DailyLog))) :
  uniqueDates
    (default []
       (text ← storage !! HISTORY_KEY;
        if JS.truthy text then JSON_parse_history text else None)) ->
  let w :=
    exec (startup localeCompare JSON_stringify_log JSON_stringify_history
            JSON_parse_log JSON_parse_history now ;;
          mutations localeCompare JSON_stringify_log JSON_stringify_history steps)
         {| app := initialState mount; localStorage := storage; console := out |} in
  sortedDescending localeCompare (history (app w)) /\
  uniqueDates (history (app w)) /\
  filter (fun h => DailyLog.date h = DailyLog.date (log (app w))) (history (app w))
  = [log (app w)] /\
  historySlot w = Some (JSON_stringify_history (history (app w))) /\
  (forall next f,
     history (app (exec (mutate localeCompare JSON_stringify_log JSON_stringify_history
                           next f) w))
     ≡ₚ f (log (app w))
        :: filter (fun h => DailyLog.date h <> DailyLog.date (f (log (app w))))
                  (history (app w))).
Proof.
  intros Hunique. cbv zeta.
  set (w0 := {| app := initialState mount; localStorage := storage; console := out |}).
  destruct (startup_completes localeCompare JSON_stringify_log JSON_stringify_history
              JSON_parse_log JSON_parse_history now w0) as (Hdone & _).
  rewrite (exec_bind _ _ w0 tt Hdone).
  destruct (startup_history now w0 eq_refl Hunique)
    as (Hloaded & Hsorted & Hunique' & Honce & Hslot).
  destruct (mutations_history steps _ Hloaded Hsorted Hunique' Honce Hslot)
    as (Hloaded'' & Hsorted'' & Hunique'' & Honce'' & Hslot'').
  split; [exact Hsorted'' |]. split; [exact Hunique'' |].
  split; [exact Honce'' |]. split; [exact Hslot'' |].
  intros next f.
  destruct (mutate_app localeCompare JSON_stringify_log JSON_stringify_history
              next f _ Hloaded'') as [_ ->].
  cbn [history log setHistory setLog]. apply foldIntoHistory_Permutation.
Qed.

End RunFacts.

(** A run on 1 June over a stored history that holds Christmas Day, 1 June
    with four glasses and New Year's Day: a fifth glass is logged.  The
    record of 1 June is replaced, not doubled, and stays between the two
    others. *)
Lemma history_sorted_and_unique_witness :
  history
    (app (exec (startup Sample.codeUnitCompare Sample.JSON_stringify_log
                  Sample.JSON_stringify_history Sample.JSON_parse_log
                  Scenario.JSON_parse_history Sample.morning ;;
                mutations Sample.codeUnitCompare Sample.JSON_stringify_log
                  Sample.JSON_stringify_history
                  [(Sample.morning, with_waterIntake 5)])
            Scenario.planned_ahead_stored))
  = [Scenario.christmas; with_waterIntake 5 Sample.june1; Sample.newYear] /\
  sortedDescending Sample.codeUnitCompare
    (history
       (app (exec (startup Sample.codeUnitCompare Sample.JSON_stringify_log
                     Sample.JSON_stringify_history Sample.JSON_parse_log
                     Scenario.JSON_parse_history Sample.morning ;;
                   mutations Sample.codeUnitCompare Sample.JSON_stringify_log
                     Sample.JSON_stringify_history
                     [(Sample.morning, with_waterIntake 5)])
               Scenario.planned_ahead_stored))) /\
  uniqueDates
    (history
       (app (exec (startup Sample.codeUnitCompare Sample.JSON_stringify_log
                     Sample.JSON_stringify_history Sample.JSON_parse_log
                     Scenario.JSON_parse_history Sample.morning ;;
                   mutations Sample.codeUnitCompare Sample.JSON_stringify_log
                     Sample.JSON_stringify_history
                     [(Sample.morning, with_waterIntake 5)])
               Scenario.planned_ahead_stored))).
Proof.
  destruct (history_sorted_and_unique Sample.codeUnitCompare Sample.JSON_stringify_log
              Sample.JSON_stringify_history Sample.JSON_parse_log
              Scenario.JSON_parse_history codeUnitCompare_consistent
              Sample.morning Sample.morning
              (localStorage Scenario.planned_ahead_stored) []
              [(Sample.morning, with_waterIntake 5)])
    as (Hsorted & Hunique & _).
  - apply (bool_decide_unpack _). vm_compute. exact I.
  - split; [vm_compute; reflexivity |]. split; [exact Hsorted | exact Hunique].
Defined.

(** Started on 1 June over a draft with notes and no history, the journal
    ends on the fresh record, also in the draft slot. *)
Lemma startup_shows_stored_day_or_fresh_witness :
  log (app (exec (startup Sample.codeUnitCompare Sample.JSON_stringify_log
                    Sample.JSON_stringify_history Sample.JSON_parse_log
                    Sample.JSON_parse_history Sample.morning) Sample.draftOnly))
  = Sample.june1 /\
  draftSlot (exec (startup Sample.codeUnitCompare Sample.JSON_stringify_log
                     Sample.JSON_stringify_history Sample.JSON_parse_log
                     Sample.JSON_parse_history Sample.morning) Sample.draftOnly)
  = Some (Sample.JSON_stringify_log Sample.june1).
Proof.
  destruct (startup_shows_stored_day_or_fresh Sample.codeUnitCompare
              Sample.JSON_stringify_log Sample.JSON_stringify_history
              Sample.JSON_parse_log Sample.JSON_parse_history
              Sample.morning Sample.morning (localStorage Sample.draftOnly) [])
    as (_ & _ & Hlog & _ & _ & Hdraft).
  split.
  - etransitivity; [exact Hlog | vm_compute; reflexivity].
  - etransitivity; [exact (Hdraft eq_refl) | vm_compute; reflexivity].
Defined.

(** Started over a history text that does not parse: the text is still in
    its slot after the commit that follows the load, with the warning as the
    third line printed, and is replaced when the start-up ends. *)
Lemma startup_replaces_unreadable_history_witness :
  historySlot
    (exec (initialLoadEffect Sample.JSON_parse_log Sample.JSON_parse_history Sample.morning ;;
           commitAfterLoad Sample.codeUnitCompare Sample.JSON_stringify_log
             Sample.JSON_stringify_history Sample.morning) Sample.brokenHistory)
  = Some "[{oops" /\
  length
    (console
       (exec (startup Sample.codeUnitCompare Sample.JSON_stringify_log
                Sample.JSON_stringify_history Sample.JSON_parse_log
                Sample.JSON_parse_history Sample.morning) Sample.brokenHistory))
  = 3%nat /\
  historySlot (exec (startup Sample.codeUnitCompare Sample.JSON_stringify_log
                       Sample.JSON_stringify_history Sample.JSON_parse_log
                       Sample.JSON_parse_history Sample.morning) Sample.brokenHistory)
  = Some (Sample.JSON_stringify_history [Sample.june1]).
Proof.
  destruct (startup_replaces_unreadable_history Sample.codeUnitCompare
              Sample.JSON_stringify_log Sample.JSON_stringify_history
              Sample.JSON_parse_log Sample.JSON_parse_history
              Sample.morning Sample.morning (localStorage Sample.brokenHistory) []
              "[{oops")
    as (Hblocked & Hlines & _ & Hslot & Hconsole).
  - vm_compute. reflexivity.
  - discriminate.
  - discriminate.
  - vm_compute. reflexivity.
  - split; [exact Hblocked |]. split; [| exact Hslot].
    etransitivity; [exact (f_equal (@length ConsoleLine) Hconsole) |].
    etransitivity; [exact (f_equal (@length ConsoleLine) Hlines) | reflexivity].
Defined.

(** Four glasses of water on 1 June next to a stored New Year's Day, then a
    restart the same morning. *)
Lemma restart_restores_journal_witness :
  log (app (exec (startup Sample.codeUnitCompare Sample.JSON_stringify_log
                    Sample.JSON_stringify_history Sample.JSON_parse_log
                    Sample.JSON_parse_history Sample.morning)
              (Sample.atMount
                 (localStorage
                    (exec (mutate Sample.codeUnitCompare Sample.JSON_stringify_log
                             Sample.JSON_stringify_history Sample.morning
                             (with_waterIntake 4))
                       (Sample.running
                          (setHistory (fun _ => [Sample.newYear]) Sample.loaded) ∅))))))
  = Sample.june1_logged.
Proof.
  destruct (restart_restores_journal Sample.codeUnitCompare Sample.JSON_stringify_log
              Sample.JSON_stringify_history Sample.JSON_parse_log Sample.JSON_parse_history
              Sample.morning Sample.morning (with_waterIntake 4)
              (Sample.running (setHistory (fun _ => [Sample.newYear]) Sample.loaded) ∅)
              _ [] eq_refl eq_refl) as [Hlog _].
  - vm_compute. reflexivity.
  - vm_compute. discriminate.
  - vm_compute. reflexivity.
  - etransitivity; [exact Hlog | vm_compute; reflexivity].
Defined.

(** ** The date key *)

Lemma string_length_app (a b : string) :
  String.length (a +:+ b) = (String.length a + String.length b)%nat.
Proof.
  induction a as [| c a IH]; [reflexivity |].
  change (String c a +:+ b) with (String c (a +:+ b)). simpl. rewrite IH. reflexivity.
Qed.

Lemma string_app_inj_length (a a' b b' : string) :
  String.length a = String.length a' -> a +:+ b = a' +:+ b' -> a = a' /\ b = b'.
Proof.
  revert a'. induction a as [| c a IH]; intros [| c' a'] Hlen Heq; try discriminate.
  - split; [reflexivity | exact Heq].
  - change (String c (a +:+ b) = String c' (a' +:+ b')) in Heq.
    injection Heq as -> Heq. injection Hlen as Hlen.
    destruct (IH a' Hlen Heq) as [-> ->]. split; reflexivity.
Qed.

(** [String(n).padStart(2, '0')] for the numbers of up to two digits, by
    running it on each. *)
Lemma padStart_two_digits (n : Z) :
  (0 <= n <= 99)%Z ->
  String.length (JS.padStart 2 "0" (JS.String_of_number n)) = 2%nat /\
  allDigits (JS.padStart 2 "0" (JS.String_of_number n)) = true.
Proof.
  intros Hn.
  assert (Hall :
    forallb (fun n => Nat.eqb (String.length (JS.padStart 2 "0" (JS.String_of_number n))) 2
                      && allDigits (JS.padStart 2 "0" (JS.String_of_number n)))
            (seqZ 0 100) = true) by (vm_compute; reflexivity).
  rewrite forallb_forall in Hall.
  assert (Hin : In n (seqZ 0 100)) by (apply list_elem_of_In, elem_of_seqZ; lia).
  apply Hall in Hin. apply andb_true_iff in Hin as [Hlen Hdigits].
  split; [apply Nat.eqb_eq; exact Hlen | exact Hdigits].
Qed.

Lemma padStart_two_digits_inj (a b : Z) :
  (0 <= a <= 99)%Z -> (0 <= b <= 99)%Z ->
  JS.padStart 2 "0" (JS.String_of_number a) = JS.padStart 2 "0" (JS.String_of_number b) ->
  a = b.
Proof.
  intros Ha Hb Heq.
  assert (Hall :
    forallb (fun a =>
      forallb (fun b =>
        implb (String.eqb (JS.padStart 2 "0" (JS.String_of_number a))
                          (JS.padStart 2 "0" (JS.String_of_number b)))
              (a =? b)%Z)
        (seqZ 0 100))
      (seqZ 0 100) = true) by (vm_compute; reflexivity).
  rewrite forallb_forall in Hall.
  assert (Hina : In a (seqZ 0 100)) by (apply list_elem_of_In, elem_of_seqZ; lia).
  assert (Hinb : In b (seqZ 0 100)) by (apply list_elem_of_In, elem_of_seqZ; lia).
  specialize (Hall a Hina). rewrite forallb_forall in Hall. specialize (Hall b Hinb).
  rewrite (proj2 (String.eqb_eq _ _) Heq) in Hall. apply Z.eqb_eq. exact Hall.
Qed.

(** [String(year)] for a year of four digits, by running it on each. *)
Lemma String_of_number_four_digits (year : Z) :
  (1000 <= year <= 9999)%Z ->
  String.length (JS.String_of_number year) = 4%nat /\
  allDigits (JS.String_of_number year) = true.
Proof.
  intros Hyear.
  assert (Hall :
    forallb (fun y => Nat.eqb (String.length (JS.String_of_number y)) 4
                      && allDigits (JS.String_of_number y))
            (seqZ 1000 9000) = true) by (vm_compute; reflexivity).
  rewrite forallb_forall in Hall.
  assert (Hin : In year (seqZ 1000 9000)) by (apply list_elem_of_In, elem_of_seqZ; lia).
  apply Hall in Hin. apply andb_true_iff in Hin as [Hlen Hdigits].
  split; [apply Nat.eqb_eq; exact Hlen | exact Hdigits].
Qed.

(** The date key tells calendar days apart: two clock readings get the same
    key exactly when they agree on year, month and day of the month,
    whatever the year. *)
Theorem getLocalDateString_distinguishes_days (d1 d2 : JS.Date.t) :
  (0 <= JS.Date.getMonth d1 <= 11)%Z -> (1 <= JS.Date.getDate d1 <= 31)%Z ->
  (0 <= JS.Date.getMonth d2 <= 11)%Z -> (1 <= JS.Date.getDate d2 <= 31)%Z ->
  getLocalDateString d1 = getLocalDateString d2
  <-> JS.Date.getFullYear d1 = JS.Date.getFullYear d2 /\
      JS.Date.getMonth d1 = JS.Date.getMonth d2 /\
      JS.Date.getDate d1 = JS.Date.getDate d2.
Proof.
  intros Hm1 Hd1 Hm2 Hd2. unfold getLocalDateString. cbv zeta. split.
  - intros Hkey.
    destruct (padStart_two_digits (JS.Date.getMonth d1 + 1)) as [Hlm1 _]; [lia |].
    destruct (padStart_two_digits (JS.Date.getMonth d2 + 1)) as [Hlm2 _]; [lia |].
    destruct (padStart_two_digits (JS.Date.getDate d1)) as [Hld1 _]; [lia |].
    destruct (padStart_two_digits (JS.Date.getDate d2)) as [Hld2 _]; [lia |].
    assert (Hlen := f_equal String.length Hkey).
    rewrite !string_length_app, Hlm1, Hlm2, Hld1, Hld2 in Hlen.
    apply string_app_inj_length in Hkey as [Hyear Hrest]; [| simpl in Hlen; lia].
    apply (inj _) in Hrest.
    apply string_app_inj_length in Hrest as [Hmonth Hrest]; [| congruence].
    apply (inj _) in Hrest.
    apply (inj JS.String_of_number) in Hyear.
    apply padStart_two_digits_inj in Hmonth; [| lia | lia].
    apply padStart_two_digits_inj in Hrest; [| lia | lia].
    repeat split; [exact Hyear | lia | exact Hrest].
  - intros (-> & -> & ->). reflexivity.
Qed.

(** The morning of 1 June 2024 and a quarter to midnight of the same day. *)
Lemma getLocalDateString_distinguishes_days_witness :
  getLocalDateString Sample.morning
  = getLocalDateString
      {| JS.Date.getFullYear := 2024; JS.Date.getMonth := 5; JS.Date.getDate := 1;
         JS.Date.getHours := 23; JS.Date.getMinutes := 45 |}.
Proof.
  apply (getLocalDateString_distinguishes_days Sample.morning
           {| JS.Date.getFullYear := 2024; JS.Date.getMonth := 5; JS.Date.getDate := 1;
              JS.Date.getHours := 23; JS.Date.getMinutes := 45 |});
    simpl; first [lia | repeat split].
Defined.

(** For a year of four digits the date key has the ten-character form
    YYYY-MM-DD of the value of a date input: four digits, a hyphen, two
    digits, a hyphen, two digits. *)
Theorem getLocalDateString_shape (date : JS.Date.t) :
  (1000 <= JS.Date.getFullYear date <= 9999)%Z ->
  (0 <= JS.Date.getMonth date <= 11)%Z ->
  (1 <= JS.Date.getDate date <= 31)%Z ->
  let key := getLocalDateString date in
  String.length key = 10%nat /\
  String.get 4 key = Some "-"%char /\
  String.get 7 key = Some "-"%char /\
  allDigits (String.substring 0 4 key) = true /\
  allDigits (String.substring 5 2 key) = true /\
  allDigits (String.substring 8 2 key) = true.
Proof.
  intros Hyear Hmonth Hday. cbv zeta. unfold getLocalDateString. cbv zeta.
  destruct (String_of_number_four_digits _ Hyear) as [Hly Hdy].
  destruct (padStart_two_digits (JS.Date.getMonth date + 1)) as [Hlm Hdm]; [lia |].
  destruct (padStart_two_digits (JS.Date.getDate date)) as [Hld Hdd]; [lia |].
  destruct (JS.String_of_number (JS.Date.getFullYear date))
    as [| y1 [| y2 [| y3 [| y4 [| ? ?]]]]]; try discriminate.
  destruct (JS.padStart 2 "0" (JS.String_of_number (JS.Date.getMonth date + 1)))
    as [| m1 [| m2 [| ? ?]]]; try discriminate.
  destruct (JS.padStart 2 "0" (JS.String_of_number (JS.Date.getDate date)))
    as [| c1 [| c2 [| ? ?]]]; try discriminate.
  cbn in Hdy, Hdm, Hdd |- *.
  repeat split; try reflexivity; assumption.
Qed.

(** The morning of 1 June 2024. *)
Lemma getLocalDateString_shape_witness :
  String.length (getLocalDateString Sample.morning) = 10%nat /\
  getLocalDateString Sample.morning = "2024-06-01".
Proof.
  destruct (getLocalDateString_shape Sample.morning) as [Hlength _]; [simpl; lia .. |].
  split; [exact Hlength | vm_compute; reflexivity].
Defined.
